(** * STATSports extraction: planner, day fallback, deduplication, run store

    A shallow embedding of the incremental extraction engine of
    [extract_statsports_data.py] and of the cross-run merge of
    [update_mason_mount.py] / [combine_runs.py], with the properties of the
    design document stated and settled against it.

    Conventions of the embedding
    - a naive [datetime] is its number of whole seconds since
      1970-01-01T00:00:00 (every datetime of the program comes from
      [strptime] of a calendar date and from whole-second [timedelta]s);
      the program only adds to a [datetime], and an addition that passes
      [datetime.max] raises [OverflowError];
    - JSON values are a tree type; JSON numbers are integers;
    - Python exceptions are an explicit outcome, and the functions that touch
      the client, the environment or the run directory run in a state and
      exception monad over a [world];
    - a file of the run directory can fail to open, and a write to an open
      file can fail before the text is complete: the world says which;
    - library functions whose text is not part of the repository
      ([json.dumps], [datetime.strptime], pandas' sort) are parameters. *)

From Stdlib Require Import ZArith List Lia String Ascii DecimalString.
From stdpp Require Import gmap strings list sorting.
From Equations Require Import Equations.

Local Open Scope Z_scope.

(* stdpp's solvers clear hypotheses by name and warn when one is gone. *)
#[local] Set Warnings "-clear-no-such-hyp".

(* ===================================================================== *)
(** * Part I. The program                                                 *)
(* ===================================================================== *)

(** ** Time *)

(** Seconds since 1970-01-01T00:00:00, no time zone. *)
Definition datetime := Z.

(** [datetime.max], to the second: 9999-12-31T23:59:59. *)
Definition DATETIME_MAX : datetime := 253402300799.

Definition SECONDS_PER_DAY : Z := 86400.
Definition SECONDS_PER_HOUR : Z := 3600.

(** [d.date()]: the calendar date, as a day number. *)
Definition date_of (t : datetime) : Z := t `div` SECONDS_PER_DAY.

(** Seconds elapsed since 00:00:00 of the same calendar date. *)
Definition time_of_day (t : datetime) : Z := t `mod` SECONDS_PER_DAY.

(** [d.replace(hour=h, minute=m, second=s)]. *)
Definition replace_hms (t : datetime) (h m s : Z) : datetime :=
  date_of t * SECONDS_PER_DAY + (h * 3600 + m * 60 + s).

(** Proleptic Gregorian (year, month, day) of a day number. *)
Definition civil_from_days (days : Z) : Z * Z * Z :=
  let z := days + 719468 in
  let era := z `div` 146097 in
  let doe := z - era * 146097 in
  let yoe := (doe - doe `div` 1460 + doe `div` 36524 - doe `div` 146096) `div` 365 in
  let doy := doe - (365 * yoe + yoe `div` 4 - yoe `div` 100) in
  let mp := (5 * doy + 2) `div` 153 in
  let d := doy - (153 * mp + 2) `div` 5 + 1 in
  let m := if decide (mp < 10) then mp + 3 else mp - 9 in
  let y := yoe + era * 400 + (if decide (m ≤ 2) then 1 else 0) in
  (y, m, d).

Definition digit (n : Z) : ascii := ascii_of_N (Z.to_N (48 + n `mod` 10)).

Definition pad2 (n : Z) : string :=
  String (digit (n `div` 10)) (String (digit n) EmptyString).

Definition pad4 (n : Z) : string :=
  String (digit (n `div` 1000)) (String (digit (n `div` 100)) (pad2 n)).

(** [d.strftime('%Y-%m-%d')]. *)
Definition strftime_ymd (t : datetime) : string :=
  let '(y, m, d) := civil_from_days (date_of t) in
  pad4 y +:+ "-" +:+ pad2 m +:+ "-" +:+ pad2 d.

(** Day number of a proleptic Gregorian (year, month, day). *)
Definition days_from_civil (y m d : Z) : Z :=
  let y' := if decide (m ≤ 2) then y - 1 else y in
  let era := y' `div` 400 in
  let yoe := y' - era * 400 in
  let mp := (m + 9) `mod` 12 in
  let doy := (153 * mp + 2) `div` 5 + d - 1 in
  let doe := yoe * 365 + yoe `div` 4 - yoe `div` 100 + doy in
  era * 146097 + doe - 719468.

Definition digit_value (c : ascii) : Z := Z.of_N (N_of_ascii c) - 48.

Fixpoint digits_value (acc : Z) (s : string) : Z :=
  match s with
  | EmptyString => acc
  | String c s' => digits_value (10 * acc + digit_value c) s'
  end.

(** A reader for the dates that [strftime_ymd] writes, to run the examples
    with: it accepts a string exactly when it is the [%Y-%m-%d] form of a
    date, and returns that date at 00:00:00. *)
Definition parse_ymd (s : string) : option datetime :=
  let y := digits_value 0 (substring 0 4 s) in
  let m := digits_value 0 (substring 5 2 s) in
  let d := digits_value 0 (substring 8 2 s) in
  let t := days_from_civil y m d * SECONDS_PER_DAY in
  if decide (strftime_ymd t = s) then Some t else None.

(** ** Exceptions *)

(** The exceptions that the program can meet. [KeyboardInterrupt] stands for
    the exceptions that are not instances of [Exception]: an
    [except Exception] clause lets them through. *)
Inductive exn :=
| ValueError
| TypeError
| AttributeError
| OverflowError
| OSError
| RequestError
| KeyboardInterrupt.

Definition is_Exception (e : exn) : bool :=
  match e with
  | KeyboardInterrupt => false
  | _ => true
  end.

Inductive outcome (A : Type) :=
| Returned (a : A)
| Raised (e : exn).
Arguments Returned {A} a.
Arguments Raised {A} e.

(** ** Range planner: [get_date_ranges] *)

(** The two values of [period_type] for which [delta] is bound. *)
Inductive period_type := Day | Hour.

(** [timedelta(days=1)] and [timedelta(hours=1)], in seconds. *)
Definition delta_of (p : period_type) : Z :=
  match p with
  | Day => SECONDS_PER_DAY
  | Hour => SECONDS_PER_HOUR
  end.

Definition period : Type := datetime * datetime.

(** The [while current <= end_date] loop, from the values [current] and
    [ranges] of its variables on. [current + delta] raises [OverflowError]
    when it passes [datetime.max]; [period_end + timedelta(seconds=1)] then
    cannot, [period_end] being below [current + delta]. *)
Equations? ranges_from (p : period_type) (end_date current : datetime) (ranges : list period)
  : outcome (list period)
  by wf (Z.to_nat (end_date - current + 1)) lt :=
  ranges_from p end_date current ranges with decide (current ≤ end_date) := {
    | left _ with decide (current + delta_of p ≤ DATETIME_MAX) := {
      | left _ =>
          let period_end := Z.min (current + delta_of p - 1) end_date in
          ranges_from p end_date (period_end + 1) (ranges ++ [(current, period_end)])
      | right _ => Raised OverflowError }
    | right _ => Returned ranges }.
Proof.
  subst period_end.
  unfold delta_of, SECONDS_PER_DAY, SECONDS_PER_HOUR; destruct p; lia.
Qed.

Definition get_date_ranges (start_date end_date : datetime) (p : period_type)
  : outcome (list period) :=
  ranges_from p end_date start_date [].

(** The [i]-th window of length [delta_of p] counted from [start_date],
    clipped to [end_date]. *)
Definition window (p : period_type) (start_date end_date : datetime) (i : Z) : period :=
  (start_date + i * delta_of p, Z.min (start_date + (i + 1) * delta_of p - 1) end_date).

(** How many windows it takes to reach [end_date]. *)
Definition window_count (p : period_type) (start_date end_date : datetime) : Z :=
  (end_date - start_date) `div` delta_of p + 1.

(** The windows from [start_date] to [end_date], in order: the plan. *)
Definition date_windows (start_date end_date : datetime) (p : period_type) : list period :=
  window p start_date end_date <$> seqZ 0 (window_count p start_date end_date).

(** The plan fits in the range of [datetime]: there is no window, or the last
    one starts at least one [delta_of p] before [datetime.max]. *)
Definition plan_fits (start_date end_date : datetime) (p : period_type) : Prop :=
  end_date < start_date
  ∨ start_date + window_count p start_date end_date * delta_of p ≤ DATETIME_MAX.

#[global] Instance plan_fits_dec start_date end_date p :
  Decision (plan_fits start_date end_date p).
Proof. unfold plan_fits. apply _. Defined.

(** The number of calendar dates that [start_date .. end_date] touches. *)
Definition dates_spanned (start_date end_date : datetime) : Z :=
  date_of end_date - date_of start_date + 1.

(** The whole of calendar date [d]: 00:00:00 to 23:59:59. *)
Definition whole_day (d : Z) : period :=
  (d * SECONDS_PER_DAY, d * SECONDS_PER_DAY + (SECONDS_PER_DAY - 1)).

(** ** JSON values and Python dictionaries *)

(** A parsed JSON document. Numbers are integers. *)
#[warnings="-register-all"]
Inductive json :=
| JNull
| JBool (b : bool)
| JNum (n : Z)
| JStr (s : string)
| JArr (items : list json)
| JObj (fields : list (string * json)).

(** A JSON object, that is a Python [dict] with string keys, as the list of
    its items in insertion order; a key is looked up at its first item. *)
Definition record : Type := list (string * json).

Fixpoint dict_lookup (d : record) (key : string) : option json :=
  match d with
  | [] => None
  | (k, v) :: d' => if decide (k = key) then Some v else dict_lookup d' key
  end.

(** [d.get(key, default)]. *)
Definition dict_get (d : record) (key : string) (default : json) : json :=
  match dict_lookup d key with
  | Some v => v
  | None => default
  end.

(** ** First occurrence per key *)

(** Keep the elements of [l] whose key is not in [seen] and has not occurred
    earlier in [l]; the order of [l] is kept. *)
Fixpoint first_by {A K : Type} `{EqDecision K} (key : A → K) (seen : list K) (l : list A)
  : list A :=
  match l with
  | [] => []
  | x :: l' =>
      if decide (key x ∈ seen) then first_by key seen l'
      else x :: first_by key (key x :: seen) l'
  end.

(** ** Per-day deduplication (in [extract_all_data_directly]) *)

Section PerDay.

(** [json.dumps(_, sort_keys=True)]. *)
Context (dumps_sort_keys : json → string).

(** [json.dumps(s.get("sessionDetails", {}), sort_keys=True)]. *)
Definition session_signature (s : record) : string :=
  dumps_sort_keys (dict_get s "sessionDetails" (JObj [])).

(** The [for s in day_sessions] loop over the variables [seen] and [dedup];
    it returns the final [dedup]. *)
Fixpoint dedup_loop (day_sessions : list record) (seen : gset string) (dedup : list record)
  : list record :=
  match day_sessions with
  | [] => dedup
  | s :: rest =>
      let sig := session_signature s in
      if decide (sig ∉ seen)
      then dedup_loop rest ({[sig]} ∪ seen) (dedup ++ [s])
      else dedup_loop rest seen dedup
  end.

(** The block under [if day_sessions:]; on the empty list it is skipped and
    [day_sessions] stays empty. *)
Definition dedup_day_sessions (day_sessions : list record) : list record :=
  match day_sessions with
  | [] => []
  | _ => dedup_loop day_sessions ∅ []
  end.

End PerDay.

(** *** A serializer to run the examples with

    The properties below hold for every [dumps_sort_keys]. To evaluate the
    program on concrete records, this printer stands in for [json.dumps] with
    [sort_keys=True]: keys in code point order, [", "] and [": "] as
    separators, strings quoted without escapes. *)

Definition quoted (s : string) : string :=
  String (ascii_of_nat 34) s +:+ String (ascii_of_nat 34) EmptyString.

Fixpoint join (sep : string) (l : list string) : string :=
  match l with
  | [] => EmptyString
  | [x] => x
  | x :: l' => x +:+ sep +:+ join sep l'
  end.

Definition key_le (a b : string * string) : Prop := String.leb a.1 b.1 = true.

#[local] Instance key_le_dec a b : Decision (key_le a b) :=
  bool_eq_dec (String.leb a.1 b.1) true.

Fixpoint print_json (j : json) : string :=
  match j with
  | JNull => "null"
  | JBool true => "true"
  | JBool false => "false"
  | JNum n => DecimalString.NilZero.string_of_int (Z.to_int n)
  | JStr s => quoted s
  | JArr items => "[" +:+ join ", " (List.map print_json items) +:+ "]"
  | JObj fields =>
      let printed := List.map (λ kv, (quoted kv.1, print_json kv.2)) fields in
      "{" +:+ join ", " (List.map (λ kv, kv.1 +:+ ": " +:+ kv.2) (merge_sort key_le printed))
          +:+ "}"
  end.

(** Two sessions with the same [sessionDetails] (keys in another order) and a
    different one, to run the per-day pass on. *)
Definition session_a : record :=
  [("sessionDetails", JObj [("sessionDate", JStr "2024-03-02T00:00:00Z"); ("squadId", JNum 7)]);
   ("sessionPlayers", JArr [JNum 1])].

Definition session_a' : record :=
  [("sessionPlayers", JArr []);
   ("sessionDetails", JObj [("squadId", JNum 7); ("sessionDate", JStr "2024-03-02T00:00:00Z")])].

Definition session_b : record :=
  [("sessionDetails", JObj [("sessionDate", JStr "2024-03-02T00:00:00Z"); ("squadId", JNum 8)])].

(** ** Tables: the pandas calls of the cross-run merge *)

(** A cell of a table read from CSV; [NaN] is the missing value. *)
Inductive cell := NaN | Text (s : string) | Number (n : Z).

#[global] Instance cell_eq_dec : EqDecision cell.
Proof. solve_decision. Defined.

(** A [DataFrame]: its column labels, and its rows in index order. A row maps
    column labels to cells; a label it does not have reads as [NaN]. *)
Record DataFrame := { columns : list string; rows : list (gmap string cell) }.

Definition cell_of (r : gmap string cell) (c : string) : cell := default NaN (r !! c).

(** [df[c] = v] for a scalar [v]. *)
Definition set_column (df : DataFrame) (c : string) (v : cell) : DataFrame :=
  {| columns := if decide (c ∈ columns df) then columns df else columns df ++ [c];
     rows := (λ r, <[c := v]> r) <$> rows df |}.

(** [pd.concat([a, b], ignore_index=True)]. *)
Definition concat (a b : DataFrame) : DataFrame :=
  {| columns := columns a ++ filter (λ c, c ∉ columns a) (columns b);
     rows := rows a ++ rows b |}.

(** The values of a row in the columns [subset]. *)
Definition row_key (subset : list string) (r : gmap string cell) : list cell :=
  cell_of r <$> subset.

(** [df.drop_duplicates(subset=subset, keep='first')]. *)
Definition drop_duplicates (subset : list string) (df : DataFrame) : DataFrame :=
  {| columns := columns df; rows := first_by (row_key subset) [] (rows df) |}.

(** [df.drop_duplicates()]: all columns are compared. *)
Definition drop_duplicates_all (df : DataFrame) : DataFrame :=
  drop_duplicates (columns df) df.

Definition duplicate_cols : list string := ["session_date"; "drill_id"; "player_custom_id"].

(** [[col for col in duplicate_cols if col in df.columns]]. *)
Definition available_cols (df : DataFrame) : list string :=
  filter (λ col, col ∈ columns df) duplicate_cols.

(** [remove_duplicate_sessions] of [combine_runs.py]. *)
Definition remove_duplicate_sessions (df : DataFrame) : DataFrame :=
  match available_cols df with
  | [] => drop_duplicates_all df
  | _ :: _ => drop_duplicates (available_cols df) df
  end.

(** The source tracking of [combine_and_deduplicate]: the existing table is
    labelled unless it already has the column. *)
Definition track_existing (existing_df : DataFrame) : DataFrame :=
  if decide ("source_run" ∉ columns existing_df)
  then set_column existing_df "source_run" (Text "existing")
  else existing_df.

(** [newest_run] is the directory name of the file [find_new_run_csv]
    returns, [None] when it finds no file. *)
Definition track_new (newest_run : option string) (new_df : DataFrame) : DataFrame :=
  match newest_run with
  | Some run_dir => set_column new_df "source_run" (Text run_dir)
  | None => set_column new_df "source_run" (Text "new_run")
  end.

Section Merge.

(** [rows.sort_values(col)] followed by [reset_index(drop=True)], on the
    rows. *)
Context (sort_values : string → list (gmap string cell) → list (gmap string cell)).

(** [combine_and_deduplicate] of [update_mason_mount.py]. *)
Definition combine_and_deduplicate (newest_run : option string)
    (existing_df new_df : DataFrame) : DataFrame :=
  let existing_df := track_existing existing_df in
  let new_df := track_new newest_run new_df in
  let combined_df := concat existing_df new_df in
  let combined_df :=
    match available_cols combined_df with
    | [] => combined_df
    | _ :: _ => drop_duplicates (available_cols combined_df) combined_df
    end in
  if decide ("session_date" ∈ columns combined_df)
  then {| columns := columns combined_df;
          rows := sort_values "session_date" (rows combined_df) |}
  else combined_df.

End Merge.

(** *** A sort to run the examples with

    Missing values last, numbers before text; a merge sort on that order. *)
Definition cell_leb (a b : cell) : bool :=
  match a, b with
  | _, NaN => true
  | NaN, _ => false
  | Number m, Number n => bool_decide (m ≤ n)
  | Number _, Text _ => true
  | Text _, Number _ => false
  | Text s, Text t => String.leb s t
  end.

Definition cell_le (a b : cell) : Prop := cell_leb a b = true.

Definition by_column (le : relation cell) (col : string) : relation (gmap string cell) :=
  λ r1 r2, le (cell_of r1 col) (cell_of r2 col).

#[local] Instance by_column_cell_le_dec col r1 r2 : Decision (by_column cell_le col r1 r2) :=
  bool_eq_dec (cell_leb (cell_of r1 col) (cell_of r2 col)) true.

Definition merge_sort_values (col : string) (l : list (gmap string cell))
  : list (gmap string cell) :=
  merge_sort (by_column cell_le col) l.

(** One drill row of player MM10, [i] days after 2024-03-01. *)
Definition drill_row (source : string) (i : Z) : gmap string cell :=
  {[ "session_date" := Text (strftime_ymd ((19783 + i) * SECONDS_PER_DAY) +:+ "T00:00:00Z");
     "drill_id" := Number (1000 + i);
     "player_custom_id" := Text "MM10";
     "player_display_name" := Text "Mason Mount";
     "read_from" := Text source ]}.

Definition drill_columns : list string :=
  ["session_date"; "drill_id"; "player_custom_id"; "player_display_name"; "read_from"].

(** Hundred existing rows for days 0..99 and twenty new ones for days
    95..114, in reverse order. *)
Definition existing_100 : DataFrame :=
  {| columns := drill_columns; rows := drill_row "combined" <$> seqZ 0 100 |}.

Definition new_20 : DataFrame :=
  {| columns := drill_columns; rows := drill_row "run" <$> reverse (seqZ 95 20) |}.

(** A table without any of the three key columns, with one row twice. *)
Definition names_only : DataFrame :=
  {| columns := ["player_display_name"];
     rows := [ {[ "player_display_name" := Text "Mason Mount" ]};
               {[ "player_display_name" := Text "Mason Mount" ]} ] |}.

Definition names_new : DataFrame :=
  {| columns := ["player_display_name"];
     rows := [ {[ "player_display_name" := Text "Mason Mount" ]} ] |}.

(** ** The world, and the monad of the effectful functions *)

(** A call of [client.post]: the endpoint and what the payload carries. *)
Inductive request :=
| GetFullSessionsByDateRange (session_start session_end : datetime)
| GetPlayerDetails (session_date : string).

(** What a call of [client.post] does: return the decoded list, or raise. *)
Inductive response :=
| Json (records : list record)
| Fails (e : exn).

(** The variable [STATSPORTS_DISCOVERY_TIMEOUT_SECS] as [int(os.getenv(..))]
    sees it: not set, an integer literal, or something [int] rejects. *)
Inductive env_int := EnvUnset | EnvInt (n : Z) | EnvMalformed.

(** The content of a file that is read with [json.load]: a complete JSON
    document, or bytes that are not one (an empty file, a cut document). *)
Inductive json_file := NoFile | NotJson | JsonDoc (doc : json).

(** One line of a [.jsonl] file, as the loops of [load_incremental_progress]
    see it: empty once stripped, rejected by [json.loads], or a document.
    [CutLine] is the start of a line that a failed write has left at the end
    of the file, without an end of line; [json.loads] rejects it too. *)
Inductive log_line := Blank | NotJsonLine | CutLine | JsonLine (rec : json).

Definition CHECKPOINT_FILE_NAME : string := "checkpoint.json".
Definition PROGRESS_SESSIONS_NAME : string := "progress_sessions.jsonl".
Definition PROGRESS_PLAYERS_NAME : string := "progress_players.jsonl".

(** The run directory. A [.jsonl] file that does not exist is [None].
    [can_write name] tells whether opening [name] for writing or appending
    succeeds. [can_complete name] tells whether the text that is then written
    reaches the file whole: when it does not, the write or the close of the
    file raises [OSError] and the file keeps the start of the text, which
    makes a checkpoint that is not a JSON document and a log with a cut line
    at its end. (A write to a log that fails before its first byte leaves
    the log as a failed [open] leaves it, and a write that fails after its
    last byte leaves what a complete write leaves; a checkpoint of length
    zero is not a JSON document, as a cut one; the callers catch the
    exception in every case.) *)
Record run_dir := {
  checkpoint_file : json_file;
  progress_sessions : option (list log_line);
  progress_players : option (list log_line);
  can_write : string → bool;
  can_complete : string → bool
}.

(** What the program did to the files of the run directory, oldest first:
    - [Appended]: a line was added at the end of a log;
    - [Truncated]: [open(_, 'w')] created the file or cut it to length zero;
    - [Written]: the document was written to the open file, whole;
    - [OpenFailed]: [open] raised, with the text that was to be written
      ([None] when the file was only to be created);
    - [WriteFailed]: the file was open and the write of the text raised. *)
Inductive io_event :=
| Appended (name : string) (line : json)
| Truncated (name : string)
| Written (name : string) (doc : json)
| OpenFailed (name : string) (text : option json)
| WriteFailed (name : string) (text : json).

(** The file that an event is about. *)
Definition event_file (ev : io_event) : string :=
  match ev with
  | Appended name _ | Truncated name | Written name _
  | OpenFailed name _ | WriteFailed name _ => name
  end.

(** Everything outside the program that its functions read or change.
    - [timeout]: the attribute [client.timeout], in seconds;
    - [api n req t]: what the remote API does with the request [req] sent
      with timeout [t] after [n] earlier requests;
    - [requests]: the requests sent so far, with the timeout of each;
    - [utcnow]: [datetime.utcnow().isoformat()]. *)
Record world := {
  timeout : Z;
  api : nat → request → Z → response;
  requests : list (request * Z);
  discovery_timeout_env : env_int;
  utcnow : string;
  files : run_dir;
  io_trace : list io_event
}.

Definition with_timeout (t : Z) (w : world) : world :=
  {| timeout := t; api := api w; requests := requests w;
     discovery_timeout_env := discovery_timeout_env w; utcnow := utcnow w;
     files := files w; io_trace := io_trace w |}.

Definition with_requests (rs : list (request * Z)) (w : world) : world :=
  {| timeout := timeout w; api := api w; requests := requests w ++ rs;
     discovery_timeout_env := discovery_timeout_env w; utcnow := utcnow w;
     files := files w; io_trace := io_trace w |}.

Definition with_request (r : request * Z) (w : world) : world := with_requests [r] w.

Definition with_files (d : run_dir) (evs : list io_event) (w : world) : world :=
  {| timeout := timeout w; api := api w; requests := requests w;
     discovery_timeout_env := discovery_timeout_env w; utcnow := utcnow w;
     files := d; io_trace := io_trace w ++ evs |}.

(** A computation runs in a world and returns or raises; the world it leaves
    is kept in both cases. *)
Definition M (A : Type) : Type := world → outcome A * world.

#[global] Instance M_ret : MRet M := λ A a w, (Returned a, w).

#[global] Instance M_bind : MBind M := λ A B f m w,
  match m w with
  | (Returned a, w') => f a w'
  | (Raised e, w') => (Raised e, w')
  end.

Definition raise {A} (e : exn) : M A := λ w, (Raised e, w).

Definition lift_outcome {A} (o : outcome A) : M A := λ w, (o, w).

(** [try: body / except Exception as e: handler(e)]. *)
Definition try_except {A} (body : M A) (handler : exn → M A) : M A := λ w,
  match body w with
  | (Returned a, w') => (Returned a, w')
  | (Raised e, w') => if is_Exception e then handler e w' else (Raised e, w')
  end.

(** [try: body / finally: final]. *)
Definition try_finally {A} (body : M A) (final : M unit) : M A := λ w,
  let '(o, w') := body w in
  match final w' with
  | (Returned _, w'') => (o, w'')
  | (Raised e, w'') => (Raised e, w'')
  end.

(** ** The client and the requests *)

(** [client.timeout] read and assigned. *)
Definition get_timeout : M Z := λ w, (Returned (timeout w), w).
Definition set_timeout (t : Z) : M unit := λ w, (Returned tt, with_timeout t w).

(** [client.post(path, json=payload)]. *)
Definition post (req : request) : M (list record) := λ w,
  let w' := with_request (req, timeout w) w in
  match api w (length (requests w)) req (timeout w) with
  | Json records => (Returned records, w')
  | Fails e => (Raised e, w')
  end.

(** [get_full_sessions]: [None] is Python's [None]. *)
Definition get_full_sessions (start_date end_date : datetime) : M (option (list record)) :=
  try_except
    (result ← post (GetFullSessionsByDateRange start_date end_date);
     mret (Some result))
    (λ _, mret None).

(** What [get_full_sessions] makes of the response to its request. *)
Definition full_sessions_outcome (r : response) : outcome (option (list record)) :=
  match r with
  | Json records => Returned (Some records)
  | Fails e => if is_Exception e then Returned None else Raised e
  end.

(** The sessions that the response to an hourly request adds to the day. *)
Definition hour_contribution (r : response) : list record :=
  match r with
  | Json records => records
  | Fails _ => []
  end.

(** The requests of a sweep over [ranges], sent with timeout [t]. *)
Definition sweep_requests (ranges : list period) (t : Z) : list (request * Z) :=
  (λ h, (GetFullSessionsByDateRange h.1 h.2, t)) <$> ranges.

(** [get_player_details]. *)
Definition get_player_details (session_date : string) : M (list record) :=
  try_except (post (GetPlayerDetails session_date)) (λ _, mret []).

(** [int(os.getenv('STATSPORTS_DISCOVERY_TIMEOUT_SECS', '10'))]. *)
Definition getenv_discovery_timeout : M Z := λ w,
  match discovery_timeout_env w with
  | EnvUnset => (Returned 10, w)
  | EnvInt n => (Returned n, w)
  | EnvMalformed => (Raised ValueError, w)
  end.

(** [response is not None and len(response) > 0]. *)
Definition not_none_nonempty (response : option (list record)) : bool :=
  match response with
  | Some (_ :: _) => true
  | _ => false
  end.

Section Extraction.

(** [datetime.strptime(_, "%Y-%m-%d")]; [None] when it raises [ValueError]. *)
Context (strptime_ymd : string → option datetime).

(** [has_data_for_day]. The client is a [StatsportsClient], whose
    constructor sets [timeout]: the default of [getattr] is not used. *)
Definition has_data_for_day (date_str : string) : M bool :=
  original_timeout ← get_timeout;
  discovery_timeout ← getenv_discovery_timeout;
  try_finally
    (try_except
       (set_timeout discovery_timeout;;
        day_start ← (match strptime_ymd date_str with
                     | Some t => mret t
                     | None => raise ValueError
                     end);
        let day_end := replace_hms day_start 23 59 59 in
        response ← get_full_sessions day_start day_end;
        mret (not_none_nonempty response))
       (λ _, mret false))
    (set_timeout original_timeout).

(** The [for hour_start, hour_end in hourly_ranges] loop, from the value
    [all_day_sessions] of the accumulator on. The pause between two hours is
    not modelled. *)
Fixpoint hourly_sweep (hourly_ranges : list period) (all_day_sessions : list record)
  : M (list record) :=
  match hourly_ranges with
  | [] => mret all_day_sessions
  | (hour_start, hour_end) :: rest =>
      all_day_sessions ←
        try_except
          (hour_sessions ← get_full_sessions hour_start hour_end;
           mret (if not_none_nonempty hour_sessions
                 then all_day_sessions ++ default [] hour_sessions
                 else all_day_sessions))
          (λ _, mret all_day_sessions);
      hourly_sweep rest all_day_sessions
  end.

(** [extract_day_with_smart_fallback]. *)
Definition extract_day_with_smart_fallback (day_start day_end : datetime) (date_str : string)
  : M (list record) :=
  day_sessions ← get_full_sessions day_start day_end;
  match day_sessions with
  | Some (s :: l) => mret (s :: l)
  | Some [] => mret []
  | None =>
      has_data ← has_data_for_day date_str;
      if negb has_data then mret []
      else
        hourly_ranges ← lift_outcome (get_date_ranges day_start day_end Hour);
        hourly_sweep hourly_ranges []
  end.

End Extraction.

(** ** Worlds to run the examples in *)

(** An API that answers the [n]-th request with the [n]-th entry of
    [script], and with [fallback] once the script is used up. *)
Definition scripted (script : list response) (fallback : response)
  : nat → request → Z → response :=
  λ n _ _, default fallback (script !! n).

(** A run directory that does not hold any of the three files yet. *)
Definition fresh_run_dir : run_dir :=
  {| checkpoint_file := NoFile; progress_sessions := None; progress_players := None;
     can_write := λ _, true; can_complete := λ _, true |}.

(** A client with the standard timeout of 60 seconds in front of [api], and
    [dir] as run directory. *)
Definition world_of (api : nat → request → Z → response) (dir : run_dir) : world :=
  {| timeout := 60; api := api; requests := [];
     discovery_timeout_env := EnvUnset; utcnow := "2024-03-04T09:00:00";
     files := dir; io_trace := [] |}.

(** 2024-03-01, 2024-03-02 and 2024-03-03 at 00:00:00. *)
Definition mar_1 : datetime := 1709251200.
Definition mar_2 : datetime := 1709337600.
Definition mar_3 : datetime := 1709424000.

(** Full day fails, probe finds nothing. *)
Definition no_data_script : list response := [Fails RequestError; Json []].

(** Full day fails, probe finds data, hours 9 and 15 hold sessions, hour 10
    fails. *)
Definition sweep_script : list response :=
  [Fails RequestError; Json [session_a]]
    ++ replicate 9 (Json []) ++ [Json [session_a; session_b]; Fails RequestError]
    ++ replicate 4 (Json []) ++ [Json [session_a']].

(** Full day fails, probe finds data, every hour is empty. *)
Definition empty_hours_script : list response := [Fails RequestError; Json [session_a]].

(** ** Python values read back from JSON *)

#[global] Instance outcome_ret : MRet outcome := λ A a, Returned a.

#[global] Instance outcome_bind : MBind outcome := λ A B f o,
  match o with
  | Returned a => f a
  | Raised e => Raised e
  end.

(** [bool(j)]. *)
Definition truthy (j : json) : bool :=
  match j with
  | JNull => false
  | JBool b => b
  | JNum n => bool_decide (n ≠ 0)
  | JStr s => bool_decide (s ≠ EmptyString)
  | JArr [] => false
  | JArr (_ :: _) => true
  | JObj [] => false
  | JObj (_ :: _) => true
  end.

(** [j.get(key, default)]: only a dict has [get]. *)
Definition py_get (j : json) (key : string) (default : json) : outcome json :=
  match j with
  | JObj d => Returned (dict_get d key default)
  | _ => Raised AttributeError
  end.

(** [j == s] for a string [s]. *)
Definition eq_str (j : json) (s : string) : bool :=
  match j with
  | JStr s' => bool_decide (s' = s)
  | _ => false
  end.

(** The hashable values: [None], numbers (with [False == 0] and
    [True == 1]) and strings. Members of a [set] and keys of a [dict]. *)
Inductive pykey := KNone | KInt (n : Z) | KStr (s : string).

#[global] Instance pykey_eq_dec : EqDecision pykey.
Proof. solve_decision. Defined.

#[global] Instance pykey_countable : Countable pykey.
Proof.
  refine (inj_countable'
            (λ k, match k with
                  | KNone => inl tt
                  | KInt n => inr (inl n)
                  | KStr s => inr (inr s)
                  end)
            (λ x, match x with
                  | inl _ => KNone
                  | inr (inl n) => KInt n
                  | inr (inr s) => KStr s
                  end) _).
  by intros [].
Defined.

(** [hash(j)] succeeds on the scalars; lists and dicts are unhashable. *)
Definition hashable (j : json) : option pykey :=
  match j with
  | JNull => Some KNone
  | JBool b => Some (KInt (if b then 1 else 0))
  | JNum n => Some (KInt n)
  | JStr s => Some (KStr s)
  | JArr _ | JObj _ => None
  end.

Definition chars (s : string) : list string :=
  (λ c, String c EmptyString) <$> list_ascii_of_string s.

(** [iter(j)]: the items of a list, the characters of a string, the keys of
    a dict; the other values are not iterable. *)
Definition py_iter (j : json) : option (list json) :=
  match j with
  | JArr items => Some items
  | JStr s => Some (JStr <$> chars s)
  | JObj d => Some ((λ kv, JStr kv.1) <$> d)
  | JNull | JBool _ | JNum _ => None
  end.

(** [set(j)]. *)
Definition py_set (j : json) : outcome (gset pykey) :=
  match py_iter j with
  | None => Raised TypeError
  | Some items =>
      match mapM hashable items with
      | Some keys => Returned (list_to_set keys)
      | None => Raised TypeError
      end
  end.

(** ** Incremental persistence *)

(** [_safe_read_json(path, default)]. *)
Definition _safe_read_json (f : json_file) (default : json) : json :=
  match f with
  | JsonDoc doc => doc
  | NoFile | NotJson => default
  end.

(** The body of the [for line in f] loop over the sessions log, for a line
    that [json.loads] accepts. [None]: an exception that is not a
    [JSONDecodeError], which ends the reading of the file. *)
Definition sessions_of_line (processed_dates : gset pykey) (rec : json)
    (all_sessions : list json) : option (list json) :=
  match rec with
  | JObj d =>
      match hashable (dict_get d "date" JNull) with
      | Some date_key =>
          if decide (date_key ∈ processed_dates)
          then sessions ← py_iter (dict_get d "sessions" (JArr []));
               Some (all_sessions ++ sessions)
          else Some all_sessions
      | None => None
      end
  | _ => None
  end.

Fixpoint read_sessions (processed_dates : gset pykey) (lines : list log_line)
    (all_sessions : list json) : list json :=
  match lines with
  | [] => all_sessions
  | (Blank | NotJsonLine | CutLine) :: rest => read_sessions processed_dates rest all_sessions
  | JsonLine rec :: rest =>
      match sessions_of_line processed_dates rec all_sessions with
      | Some all_sessions => read_sessions processed_dates rest all_sessions
      | None => all_sessions
      end
  end.

(** The same for the player details log. *)
Definition players_of_line (processed_dates : gset pykey) (rec : json)
    (all_player_details : gmap pykey json) : option (gmap pykey json) :=
  match rec with
  | JObj d =>
      match hashable (dict_get d "date" JNull) with
      | Some date_key =>
          if decide (date_key ∈ processed_dates)
          then Some (<[date_key := dict_get d "players" (JArr [])]> all_player_details)
          else Some all_player_details
      | None => None
      end
  | _ => None
  end.

Fixpoint read_players (processed_dates : gset pykey) (lines : list log_line)
    (all_player_details : gmap pykey json) : gmap pykey json :=
  match lines with
  | [] => all_player_details
  | (Blank | NotJsonLine | CutLine) :: rest =>
      read_players processed_dates rest all_player_details
  | JsonLine rec :: rest =>
      match players_of_line processed_dates rec all_player_details with
      | Some all_player_details => read_players processed_dates rest all_player_details
      | None => all_player_details
      end
  end.

(** The two blocks that read the logs, for the set [processed_dates]. *)
Definition load_logs (processed_dates : gset pykey) (dir : run_dir)
  : gset pykey * list json * gmap pykey json :=
  let all_sessions :=
    match progress_sessions dir with
    | Some lines =>
        if decide (processed_dates ≠ ∅) then read_sessions processed_dates lines [] else []
    | None => []
    end in
  let all_player_details :=
    match progress_players dir with
    | Some lines =>
        if decide (processed_dates ≠ ∅) then read_players processed_dates lines ∅ else ∅
    | None => ∅
    end in
  (processed_dates, all_sessions, all_player_details).

(** [load_incremental_progress]. *)
Definition load_incremental_progress (range_start range_end : datetime) (dir : run_dir)
  : outcome (gset pykey * list json * gmap pykey json) :=
  let checkpoint := _safe_read_json (checkpoint_file dir) (JObj []) in
  if truthy checkpoint then
    recorded_start ← py_get checkpoint "range_start" JNull;
    same_range ←
      (if eq_str recorded_start (strftime_ymd range_start)
       then recorded_end ← py_get checkpoint "range_end" JNull;
            mret (eq_str recorded_end (strftime_ymd range_end))
       else mret false);
    if same_range : bool
    then
      listed ← py_get checkpoint "processed_dates" (JArr []);
      processed_dates ← py_set listed;
      mret (load_logs processed_dates dir)
    else mret (∅, [], ∅)
  else mret (load_logs ∅ dir).

Definition with_checkpoint (f : json_file) (dir : run_dir) : run_dir :=
  {| checkpoint_file := f; progress_sessions := progress_sessions dir;
     progress_players := progress_players dir; can_write := can_write dir;
     can_complete := can_complete dir |}.

(** The run directory with the lines of one of the two logs changed by
    [change]; a log that does not exist is created. *)
Definition with_log (name : string) (change : list log_line → list log_line) (dir : run_dir)
  : run_dir :=
  if decide (name = PROGRESS_SESSIONS_NAME) then
    {| checkpoint_file := checkpoint_file dir;
       progress_sessions := Some (change (default [] (progress_sessions dir)));
       progress_players := progress_players dir; can_write := can_write dir;
       can_complete := can_complete dir |}
  else if decide (name = PROGRESS_PLAYERS_NAME) then
    {| checkpoint_file := checkpoint_file dir;
       progress_sessions := progress_sessions dir;
       progress_players := Some (change (default [] (progress_players dir)));
       can_write := can_write dir; can_complete := can_complete dir |}
  else dir.

(** The lines of a log after a line and its end of line are written at the
    end of the file. After a cut line they continue that line, and what
    [json.loads] is given is the two texts one after the other, which it
    rejects. *)
Fixpoint line_added (line : json) (lines : list log_line) : list log_line :=
  match lines with
  | [] => [JsonLine line]
  | [CutLine] => [NotJsonLine]
  | first :: rest => first :: line_added line rest
  end.

(** The lines of a log after a write at the end of the file has failed: the
    last line is a cut line. *)
Fixpoint line_cut (lines : list log_line) : list log_line :=
  match lines with
  | [] => [CutLine]
  | [CutLine] => [CutLine]
  | first :: rest => first :: line_cut rest
  end.

Definition with_line (name : string) (line : json) (dir : run_dir) : run_dir :=
  with_log name (line_added line) dir.

Definition with_cut_line (name : string) (dir : run_dir) : run_dir :=
  with_log name line_cut dir.

(** [with open(path, 'a') as f: f.write(json.dumps(line) + "\n")]. *)
Definition append_line (name : string) (line : json) : M unit := λ w,
  if can_write (files w) name then
    if can_complete (files w) name
    then (Returned tt, with_files (with_line name line (files w)) [Appended name line] w)
    else (Raised OSError, with_files (with_cut_line name (files w)) [WriteFailed name line] w)
  else (Raised OSError, with_files (files w) [OpenFailed name (Some line)] w).

Definition sessions_entry (date_key : string) (sessions : list record) : json :=
  JObj [("date", JStr date_key); ("sessions", JArr (JObj <$> sessions))].

Definition players_entry (date_key : string) (players : list record) : json :=
  JObj [("date", JStr date_key); ("players", JArr (JObj <$> players))].

(** [append_day_progress]; the warnings it prints are not modelled. *)
Definition append_day_progress (date_key : string) (sessions players : list record)
  : M unit :=
  try_except (append_line PROGRESS_SESSIONS_NAME (sessions_entry date_key sessions))
    (λ _, mret tt);;
  try_except (append_line PROGRESS_PLAYERS_NAME (players_entry date_key players))
    (λ _, mret tt).

(** The dict [data] of [update_checkpoint]. *)
Definition checkpoint_data (range_start range_end : datetime) (processed_dates : list string)
    (total_sessions : Z) (now : string) : json :=
  JObj [("range_start", JStr (strftime_ymd range_start));
        ("range_end", JStr (strftime_ymd range_end));
        ("processed_dates", JArr (JStr <$> processed_dates));
        ("total_sessions", JNum total_sessions);
        ("last_updated", JStr (now +:+ "Z"))].

(** [open(checkpoint_path, 'w')]: the file is created, or cut to length zero.
    [data] is what the caller is about to write. *)
Definition open_checkpoint (data : json) : M unit := λ w,
  if can_write (files w) CHECKPOINT_FILE_NAME
  then (Returned tt,
        with_files (with_checkpoint NotJson (files w)) [Truncated CHECKPOINT_FILE_NAME] w)
  else (Raised OSError,
        with_files (files w) [OpenFailed CHECKPOINT_FILE_NAME (Some data)] w).

(** [json.dump(data, f, indent=2)] and the end of the [with] block, which
    closes the file. *)
Definition dump_checkpoint (data : json) : M unit := λ w,
  if can_complete (files w) CHECKPOINT_FILE_NAME
  then (Returned tt,
        with_files (with_checkpoint (JsonDoc data) (files w))
          [Written CHECKPOINT_FILE_NAME data] w)
  else (Raised OSError,
        with_files (with_checkpoint NotJson (files w))
          [WriteFailed CHECKPOINT_FILE_NAME data] w).

(** [with open(checkpoint_path, 'w') as f: json.dump(data, f, indent=2)]. *)
Definition write_checkpoint (data : json) : M unit :=
  open_checkpoint data;; dump_checkpoint data.

(** [update_checkpoint]. *)
Definition update_checkpoint (range_start range_end : datetime)
    (processed_dates : list string) (total_sessions : Z) : M unit := λ w,
  let data := checkpoint_data range_start range_end processed_dates total_sessions (utcnow w) in
  try_except (write_checkpoint data) (λ _, mret tt) w.

(** ** The run orchestrator: [extract_all_data_directly] *)

(** The three collections that the loop over the days updates. *)
Record progress := {
  processed_dates : gset pykey;
  all_sessions : list json;
  all_player_details : gmap pykey json
}.

Definition string_le (a b : string) : Prop := String.leb a b = true.

#[local] Instance string_le_dec a b : Decision (string_le a b) :=
  bool_eq_dec (String.leb a b) true.

Definition key_string (k : pykey) : option string :=
  match k with
  | KStr s => Some s
  | KNone | KInt _ => None
  end.

(** [sorted(list(processed_dates))] for a set that holds a string: the
    comparison of a string with [None] or with a number raises [TypeError]. *)
Definition sorted_dates (processed_dates : gset pykey) : outcome (list string) :=
  match mapM key_string (elements processed_dates) with
  | Some dates => Returned (merge_sort string_le dates)
  | None => Raised TypeError
  end.

Section Orchestrator.

Context (dumps_sort_keys : json → string).
Context (strptime_ymd : string → option datetime).

(** The body of the [for i, (day_start, day_end) in enumerate(daily_ranges)]
    loop. The narration and the pause after each day are not modelled. *)
Definition process_day (start_date end_date : datetime) (st : progress) (day : period)
  : M progress :=
  let '(day_start, day_end) := day in
  let date_str := strftime_ymd day_start in
  let date_key_full := date_str +:+ "T00:00:00Z" in
  if decide (KStr date_str ∈ processed_dates st) then mret st
  else
    fetched ← extract_day_with_smart_fallback strptime_ymd day_start day_end date_str;
    let day_sessions := dedup_day_sessions dumps_sort_keys fetched in
    player_details ← (match day_sessions with
                      | [] => mret []
                      | _ :: _ => get_player_details date_key_full
                      end);
    let player_details_for_day := player_details in
    let all_player_details :=
      match player_details with
      | [] => all_player_details st
      | _ :: _ => <[KStr date_key_full := JArr (JObj <$> player_details)]>
                    (all_player_details st)
      end in
    let all_sessions := all_sessions st ++ (JObj <$> day_sessions) in
    append_day_progress date_key_full day_sessions player_details_for_day;;
    let processed_dates := {[KStr date_str]} ∪ processed_dates st in
    dates ← lift_outcome (sorted_dates processed_dates);
    update_checkpoint start_date end_date dates (Z.of_nat (length all_sessions));;
    mret {| processed_dates := processed_dates;
            all_sessions := all_sessions;
            all_player_details := all_player_details |}.

(** The loop over [daily_ranges]. *)
Fixpoint process_days (start_date end_date : datetime) (daily_ranges : list period)
    (st : progress) : M progress :=
  match daily_ranges with
  | [] => mret st
  | day :: rest =>
      st ← process_day start_date end_date st day;
      process_days start_date end_date rest st
  end.

(** What the function starts from: the loaded progress when [resume] is set
    and some date was processed, empty collections otherwise. *)
Definition initial_progress (start_date end_date : datetime) (resume : bool)
  : M progress := λ w,
  if resume then
    match load_incremental_progress start_date end_date (files w) with
    | Returned (processed_dates, all_sessions_loaded, all_player_details_loaded) =>
        (Returned
           (if decide (processed_dates ≠ ∅)
            then {| processed_dates := processed_dates;
                    all_sessions := all_sessions_loaded;
                    all_player_details := all_player_details_loaded |}
            else {| processed_dates := processed_dates;
                    all_sessions := [];
                    all_player_details := ∅ |}), w)
    | Raised e => (Raised e, w)
    end
  else (Returned {| processed_dates := ∅; all_sessions := []; all_player_details := ∅ |}, w).

(** [extract_all_data_directly]. *)
Definition extract_all_data_directly (start_date end_date : datetime) (resume : bool)
  : M (list json * gmap pykey json) :=
  st ← initial_progress start_date end_date resume;
  daily_ranges ← lift_outcome (get_date_ranges start_date end_date Day);
  st ← process_days start_date end_date daily_ranges st;
  mret (all_sessions st, all_player_details st).

End Orchestrator.

(** *** A three-day run that stops between [append_day_progress] and
    [update_checkpoint] of its third day *)

Definition session_on (session_date : string) (squad : Z) : record :=
  [("sessionDetails", JObj [("sessionDate", JStr session_date); ("squadId", JNum squad)]);
   ("sessionPlayers", JArr [])].

Definition player_10 : record :=
  [("customPlayerId", JStr "MM10"); ("displayName", JStr "Mason Mount")].

(** An API that has one session on every day, and one player. *)
Definition one_session_a_day : nat → request → Z → response :=
  λ _ req _,
    match req with
    | GetFullSessionsByDateRange session_start _ =>
        Json [session_on (strftime_ymd session_start +:+ "T00:00:00Z") 7]
    | GetPlayerDetails _ => Json [player_10]
    end.

Definition no_progress : progress :=
  {| processed_dates := ∅; all_sessions := []; all_player_details := ∅ |}.

(** The range is 2024-03-01 .. 2024-03-03. The first two days are processed;
    of the third, the log lines are written and the checkpoint is not. *)
Definition interrupted_run : M unit :=
  st ← process_day print_json parse_ymd mar_1 mar_3 no_progress (mar_1, mar_1 + 86399);
  st ← process_day print_json parse_ymd mar_1 mar_3 st (mar_2, mar_2 + 86399);
  append_day_progress "2024-03-03T00:00:00Z"
    [session_on "2024-03-03T00:00:00Z" 7] [player_10].

Definition interrupted_dir : run_dir :=
  files (interrupted_run (world_of one_session_a_day fresh_run_dir)).2.

(** ** Notions used to state the properties of a run *)

(** [w'] has the run directory, the trace and the clock of [w]. *)
Definition same_store (w w' : world) : Prop :=
  files w' = files w ∧ io_trace w' = io_trace w ∧ utcnow w' = utcnow w.

(** A computation that leaves the run directory alone. *)
Definition keeps_store {A} (m : M A) : Prop := ∀ w, same_store w (m w).2.

Definition json_string (j : json) : option string :=
  match j with
  | JStr s => Some s
  | _ => None
  end.

(** The dates that an event marks as processed: the [processed_dates] of the
    document, when the event is a write of the checkpoint. *)
Definition marked_dates (ev : io_event) : option (list string) :=
  match ev with
  | Written name (JObj d) =>
      if decide (name = CHECKPOINT_FILE_NAME) then
        match dict_lookup d "processed_dates" with
        | Some (JArr items) => mapM json_string items
        | _ => None
        end
      else None
  | _ => None
  end.

(** What a call of [append_line] leaves of the run directory, and the event
    it adds to the trace. *)
Definition appended_dir (name : string) (line : json) (dir : run_dir) : run_dir :=
  if can_write dir name then
    if can_complete dir name then with_line name line dir else with_cut_line name dir
  else dir.

Definition append_event (name : string) (line : json) (dir : run_dir) : io_event :=
  if can_write dir name then
    if can_complete dir name then Appended name line else WriteFailed name line
  else OpenFailed name (Some line).

(** The event is what became of the attempt to append [line] to the log
    [name]: the line was written, the log could not be opened, or the write
    failed. *)
Definition append_attempt (name : string) (line : json) (ev : io_event) : Prop :=
  ev = Appended name line ∨ ev = OpenFailed name (Some line) ∨ ev = WriteFailed name line.

(** The event is the attempt of [append_day_progress] to append the sessions
    of [date_key] to the sessions log. *)
Definition sessions_attempt (date_key : string) (ev : io_event) : Prop :=
  ∃ sessions, append_attempt PROGRESS_SESSIONS_NAME (sessions_entry date_key sessions) ev.

(** The same for the player details of [date_key] and the players log. *)
Definition players_attempt (date_key : string) (ev : io_event) : Prop :=
  ∃ players, append_attempt PROGRESS_PLAYERS_NAME (players_entry date_key players) ev.


(** The dates that count as processed when the loop over the days starts. *)
Definition dates_at_start (start_date end_date : datetime) (resume : bool) (w : world)
  : gset pykey :=
  match initial_progress start_date end_date resume w with
  | (Returned st, _) => processed_dates st
  | (Raised _, _) => ∅
  end.

(** A run directory in which only the checkpoint can be opened for writing. *)
Definition checkpoint_only_dir : run_dir :=
  {| checkpoint_file := NoFile; progress_sessions := None; progress_players := None;
     can_write := λ name, bool_decide (name = CHECKPOINT_FILE_NAME);
     can_complete := λ _, true |}.

(** The directory of the interrupted run on a disk without room: the files
    open, and no write completes. *)
Definition full_disk_dir : run_dir :=
  {| checkpoint_file := checkpoint_file interrupted_dir;
     progress_sessions := progress_sessions interrupted_dir;
     progress_players := progress_players interrupted_dir;
     can_write := λ _, true; can_complete := λ _, false |}.

(** What the first day of that run leaves in the collections. *)
Definition day_1_progress : progress :=
  {| processed_dates := {[KStr "2024-03-01"]};
     all_sessions := [JObj (session_on "2024-03-01T00:00:00Z" 7)];
     all_player_details := {[KStr "2024-03-01T00:00:00Z" := JArr [JObj player_10]]} |}.

(** The line holds a document: it is neither blank nor rejected by
    [json.loads]. *)
Definition is_document (line : log_line) : bool :=
  match line with
  | JsonLine _ => true
  | Blank | NotJsonLine | CutLine => false
  end.

(** The lines of both logs are what [append_day_progress] leaves: a line
    written for the key of some date, or a line that is not a document. *)
Definition written_logs (dir : run_dir) : Prop :=
  Forall (λ line, is_document line = false
                  ∨ ∃ t sessions,
                      line = JsonLine (sessions_entry (strftime_ymd t +:+ "T00:00:00Z")
                                         sessions))
    (default [] (progress_sessions dir))
  ∧ Forall (λ line, is_document line = false
                    ∨ ∃ t players,
                        line = JsonLine (players_entry (strftime_ymd t +:+ "T00:00:00Z")
                                           players))
      (default [] (progress_players dir)).

(** The members of the set are [%Y-%m-%d] dates. *)
Definition dates_only (processed : gset pykey) : Prop :=
  ∀ k, k ∈ processed → ∃ t, k = KStr (strftime_ymd t).

(** ** Notions used to state the properties of the logs *)

(** The lines of a sessions log that holds [entries], one entry a line: the
    key of each entry and its sessions. *)
Definition sessions_lines (entries : list (string * list record)) : list log_line :=
  (λ entry, JsonLine (sessions_entry entry.1 entry.2)) <$> entries.

Definition players_lines (entries : list (string * list record)) : list log_line :=
  (λ entry, JsonLine (players_entry entry.1 entry.2)) <$> entries.

(** The run directory with another sessions log. *)
Definition with_sessions_log (log : option (list log_line)) (dir : run_dir) : run_dir :=
  {| checkpoint_file := checkpoint_file dir; progress_sessions := log;
     progress_players := progress_players dir; can_write := can_write dir;
     can_complete := can_complete dir |}.

(** *** Run directories to run the loader on *)

(** Logs keyed by the dates as the checkpoint lists them: the checkpoint
    lists 2024-03-01 and 2024-03-02, both logs hold an entry for each of
    2024-03-01, 2024-03-02 and 2024-03-03. *)
Definition date_keyed_dir : run_dir :=
  {| checkpoint_file :=
       JsonDoc (checkpoint_data mar_1 mar_3 ["2024-03-01"; "2024-03-02"] 2
                  "2024-03-04T09:00:00");
     progress_sessions :=
       Some (sessions_lines [("2024-03-01", [session_on "2024-03-01T00:00:00Z" 7]);
                             ("2024-03-02", [session_on "2024-03-02T00:00:00Z" 7]);
                             ("2024-03-03", [session_on "2024-03-03T00:00:00Z" 7])]);
     progress_players :=
       Some (players_lines [("2024-03-01", [player_10]);
                            ("2024-03-02", [player_10]);
                            ("2024-03-03", [player_10])]);
     can_write := λ _, true; can_complete := λ _, true |}.

(** The same with a sessions log in which a blank line comes first and a
    line that holds a JSON list comes second. *)
Definition broken_log_dir : run_dir :=
  with_sessions_log
    (Some ([Blank; JsonLine (JArr [])]
             ++ sessions_lines [("2024-03-01", [session_on "2024-03-01T00:00:00Z" 7])]))
    date_keyed_dir.

(** A checkpoint file that holds a JSON list. *)
Definition list_checkpoint_dir : run_dir :=
  with_checkpoint (JsonDoc (JArr [JStr "2024-03-01"])) date_keyed_dir.

(** ** Notions used to state what a computation does to the client *)

(** A computation that leaves [client.timeout] as it found it. *)
Definition keeps_timeout {A} (m : M A) : Prop := ∀ w, timeout (m w).2 = timeout w.

(** The request asks for the sessions of a period. *)
Definition sessions_request (req : request) : Prop :=
  match req with
  | GetFullSessionsByDateRange _ _ => True
  | GetPlayerDetails _ => False
  end.

#[global] Instance sessions_request_dec req : Decision (sessions_request req).
Proof. destruct req; cbn; apply _. Defined.

(** A computation that sends between [lo] and [hi] requests, all of which
    satisfy [Q], and has no other effect on the list of requests. *)
Definition sends {A} (Q : request → Prop) (lo hi : nat) (m : M A) : Prop :=
  ∀ w, ∃ rs, requests (m w).2 = requests w ++ rs
             ∧ (lo ≤ length rs ≤ hi)%nat
             ∧ Forall (λ r, Q r.1) rs.

(** A client whose environment holds a discovery timeout that is not a
    number, in front of an API whose full-day request fails. *)
Definition malformed_env_world : world :=
  {| timeout := 60; api := scripted no_data_script (Json []); requests := [];
     discovery_timeout_env := EnvMalformed; utcnow := "2024-03-04T09:00:00";
     files := fresh_run_dir; io_trace := [] |}.

(** The checkpoint of the run directory describes the state of the loop over
    the days: it lists the processed dates in order and counts the sessions. *)
Definition checkpoint_of (start_date end_date : datetime) (now : string) (st : progress)
    (dir : run_dir) : Prop :=
  ∃ dates,
    sorted_dates (processed_dates st) = Returned dates
    ∧ checkpoint_file dir
      = JsonDoc (checkpoint_data start_date end_date dates
                   (Z.of_nat (length (all_sessions st))) now).

(** The run directory of a finished run over 2024-03-01 .. 2024-03-02, with
    logs keyed by the dates as the checkpoint lists them. *)
Definition finished_dir : run_dir :=
  with_checkpoint
    (JsonDoc (checkpoint_data mar_1 mar_2 ["2024-03-01"; "2024-03-02"] 2
                "2024-03-04T09:00:00"))
    date_keyed_dir.

(** Two days with one session each, for which the API knows no player. *)
Definition two_days_script : list response :=
  [Json [session_on "2024-03-01T00:00:00Z" 7]; Json [];
   Json [session_on "2024-03-02T00:00:00Z" 7]; Json []].

(** ** Python dictionaries that are updated *)

(** [d[key] = value]: the value of a key that the dict has is replaced where
    it stands, a new key is added at the end. *)
Fixpoint dict_set (d : record) (key : string) (value : json) : record :=
  match d with
  | [] => [(key, value)]
  | (k, v) :: d' =>
      if decide (k = key) then (k, value) :: d' else (k, v) :: dict_set d' key value
  end.

(** [d.update(other)]. *)
Definition dict_update (d other : record) : record :=
  foldl (λ d kv, dict_set d kv.1 kv.2) d other.

(** [d.setdefault(key, value)], for the dict it leaves. *)
Definition dict_setdefault (d : record) (key : string) (value : json) : record :=
  match dict_lookup d key with
  | Some _ => d
  | None => dict_set d key value
  end.

(** ** The HTTP client: [statsports_client.py] *)

Module StatsportsClient.

(** The attributes of a [StatsportsClient] that its methods read. *)
Record client := {
  api_key : string;
  api_secret : string;
  api_version : string;
  base_url : string;
  auth_mode : string;
  timeout : Z
}.

(** [_build_headers]. *)
Definition _build_headers (self : client) (extra : option record) : record :=
  let headers := [("api-version", JStr (api_version self));
                  ("Content-Type", JStr "application/json")] in
  let headers :=
    if decide (auth_mode self = "headers") then
      let headers := dict_update headers [("X-API-KEY", JStr (api_key self))] in
      if decide (api_secret self ≠ EmptyString)
      then dict_set headers "X-API-SECRET" (JStr (api_secret self))
      else headers
    else headers in
  match extra with
  | Some (kv :: extra') => dict_update headers (kv :: extra')
  | Some [] | None => headers
  end.

(** [_inject_auth_body]: [dict(payload or {})] is a new dict with the items
    of [payload]. *)
Definition _inject_auth_body (self : client) (payload : option record) : record :=
  let payload := default [] payload in
  if decide (auth_mode self = "body")
  then dict_setdefault payload "thirdPartyApiId" (JStr (api_key self))
  else payload.

(** [path.lstrip('/')]. *)
Fixpoint lstrip_slash (path : string) : string :=
  match path with
  | String c path' => if decide (c = "/"%char) then lstrip_slash path' else path
  | EmptyString => EmptyString
  end.

(** What [resp.json()] and [resp.text] give: the body is a JSON document, or
    [resp.json()] raises [ValueError] and the text is used. *)
Inductive http_body := JsonBody (doc : json) | TextBody (text : string).

Inductive http_method := GET | POST.

(** The arguments of [self._session.get] and [self._session.post]. *)
Record http_request := {
  method : http_method;
  url : string;
  json_payload : option record;
  query_params : option record;
  request_headers : record;
  request_timeout : Z
}.

(** What a call of the session does: a response arrives, or the call raises
    [requests.Timeout], [requests.ConnectionError] or another exception. *)
Inductive send_result :=
| Responds (status_code : Z) (body : http_body)
| TimesOut
| ConnectionFails
| SessionRaises (e : exn).

(** The exceptions that leave [get] and [post]: the [RuntimeError] that they
    raise, with the status and the detail of its message, and the exceptions
    of the session. *)
Inductive client_error :=
| RuntimeError (status_code : Z) (detail : http_body)
| requests_Timeout
| requests_ConnectionError
| session_error (e : exn).

(** The network as the client sees it, and the pauses of the client.
    - [server n req]: what the session does with the request [req] after [n]
      earlier requests;
    - [sent]: the requests sent so far;
    - [slept]: the pauses so far, a pause of [backoff ** k] seconds as the
      exponent [k]. *)
Record network := {
  server : nat → http_request → send_result;
  sent : list http_request;
  slept : list Z
}.

Definition with_sent (req : http_request) (net : network) : network :=
  {| server := server net; sent := sent net ++ [req]; slept := slept net |}.

Definition with_sleep (k : Z) (net : network) : network :=
  {| server := server net; sent := sent net; slept := slept net ++ [k] |}.

(** The statuses after which the request is sent again. *)
Definition retry_statuses : list Z := [429; 500; 502; 503; 504].

(** One pass through the body of [while True], up to the point where the
    loop goes round again: [inl] is how the call ends there, [inr] is the
    exception that is raised when [attempt <= retry] does not hold. *)
Definition attempt_result (r : send_result)
  : (http_body + client_error) + client_error :=
  match r with
  | Responds status_code body =>
      if decide (200 ≤ status_code < 300) then inl (inl body)
      else if decide (status_code ∈ retry_statuses)
           then inr (RuntimeError status_code body)
           else inl (inr (RuntimeError status_code body))
  | TimesOut => inr requests_Timeout
  | ConnectionFails => inr requests_ConnectionError
  | SessionRaises e => inl (inr (session_error e))
  end.

(** The [while True] loop of [get] and [post], from the value [attempt] that
    the counter has after [attempt += 1]. *)
Equations? retry_loop (req : http_request) (retry attempt : Z) (net : network)
  : (http_body + client_error) * network
  by wf (Z.to_nat (retry + 1 - attempt)) lt :=
  retry_loop req retry attempt net
    with attempt_result (server net (length (sent net)) req) := {
    | inl ended => (ended, with_sent req net)
    | inr error with decide (attempt ≤ retry) := {
      | left _ => retry_loop req retry (attempt + 1) (with_sleep attempt (with_sent req net))
      | right _ => (inr error, with_sent req net) } }.
Proof. lia. Qed.

(** [post]; the exponential pauses are kept as their exponents. *)
Definition post (self : client) (path : string) (json params headers : option record)
    (retry : Z) (net : network) : (http_body + client_error) * network :=
  let url := base_url self +:+ "/" +:+ lstrip_slash path in
  let payload := _inject_auth_body self json in
  let hdrs := _build_headers self headers in
  retry_loop {| method := POST; url := url; json_payload := Some payload;
                query_params := params; request_headers := hdrs;
                request_timeout := timeout self |} retry 1 net.

(** [get]. *)
Definition get (self : client) (path : string) (params headers : option record)
    (retry : Z) (net : network) : (http_body + client_error) * network :=
  let url := base_url self +:+ "/" +:+ lstrip_slash path in
  let hdrs := _build_headers self headers in
  retry_loop {| method := GET; url := url; json_payload := None;
                query_params := params; request_headers := hdrs;
                request_timeout := timeout self |} retry 1 net.

(** The network after [k] requests of which the first was attempt number
    [attempt]: the request was sent [k] times, and the client slept after
    each but the last, [backoff ** attempt] seconds the first time. *)
Definition after_attempts (req : http_request) (attempt : Z) (k : nat) (net : network)
  : network :=
  {| server := server net;
     sent := sent net ++ replicate k req;
     slept := slept net ++ seqZ attempt (Z.of_nat k - 1) |}.

(** The request that [post] sends, and the one that [get] sends. *)
Definition post_request (self : client) (path : string) (json params headers : option record)
  : http_request :=
  {| method := POST; url := base_url self +:+ "/" +:+ lstrip_slash path;
     json_payload := Some (_inject_auth_body self json); query_params := params;
     request_headers := _build_headers self headers; request_timeout := timeout self |}.

Definition get_request (self : client) (path : string) (params headers : option record)
  : http_request :=
  {| method := GET; url := base_url self +:+ "/" +:+ lstrip_slash path;
     json_payload := None; query_params := params;
     request_headers := _build_headers self headers; request_timeout := timeout self |}.

End StatsportsClient.

(** ** What the extractor hands to the client *)

(** [format_date_for_api]: [date.strftime("%Y-%m-%dT%H:%M:%S.000Z")]. *)
Definition format_date_for_api (date : datetime) : string :=
  let seconds := time_of_day date in
  strftime_ymd date +:+ "T" +:+ pad2 (seconds `div` 3600) +:+ ":"
    +:+ pad2 ((seconds `div` 60) `mod` 60) +:+ ":" +:+ pad2 (seconds `mod` 60) +:+ ".000Z".

(** The path and the payload of a request, as [get_full_sessions] and
    [get_player_details] build them for a client with the key [api_key]. *)
Definition path_of (req : request) : string :=
  match req with
  | GetFullSessionsByDateRange _ _ => "/thirdPartyData/getFullSessionsByDateRange"
  | GetPlayerDetails _ => "/thirdPartyData/getPlayerDetails"
  end.

Definition payload_of (api_key : string) (req : request) : record :=
  match req with
  | GetFullSessionsByDateRange start_date end_date =>
      [("thirdPartyApiId", JStr api_key);
       ("sessionStartDate", JStr (format_date_for_api start_date));
       ("sessionEndDate", JStr (format_date_for_api end_date))]
  | GetPlayerDetails session_date =>
      [("thirdPartyApiId", JStr api_key); ("sessionDate", JStr session_date)]
  end.

(** A client as the constructor builds it without arguments and with only
    the key in the environment, and one that authenticates by headers. *)
Definition body_client : StatsportsClient.client :=
  {| StatsportsClient.api_key := "0f8fad5b-d9cb-469f-a165-70867728950e";
     StatsportsClient.api_secret := "";
     StatsportsClient.api_version := "7";
     StatsportsClient.base_url := "https://statsportsproseries.com/thirdpartyapi/api";
     StatsportsClient.auth_mode := "body";
     StatsportsClient.timeout := 60 |}.

Definition headers_client : StatsportsClient.client :=
  {| StatsportsClient.api_key := "0f8fad5b-d9cb-469f-a165-70867728950e";
     StatsportsClient.api_secret := "s3cret";
     StatsportsClient.api_version := "7";
     StatsportsClient.base_url := "https://statsportsproseries.com/thirdpartyapi/api";
     StatsportsClient.auth_mode := "headers";
     StatsportsClient.timeout := 60 |}.



(** ** The command line: [main] *)

(** [sys.exit(code)]. *)
Inductive exit := SystemExit (code : Z).

Section Main.

Context (strptime_ymd : string → option datetime).

(** [main], up to the check of the two dates: the range of the run, or the
    exit. [argv] is [sys.argv], with the name of the script first. *)
Definition main_dates (argv : list string) : exit + (datetime * datetime) :=
  match argv with
  | [_; start_arg; end_arg] =>
      match strptime_ymd start_arg, strptime_ymd end_arg with
      | Some start_date, Some end_date =>
          if decide (end_date < start_date) then inl (SystemExit 1)
          else inr (start_date, end_date)
      | _, _ => inl (SystemExit 1)
      end
  | _ => inl (SystemExit 1)
  end.

End Main.

(** The run directory after [open(path, 'a').close()]: the file exists. *)
Definition touched (name : string) (dir : run_dir) : run_dir := with_log name id dir.

(** [open(path, 'a').close()]. Nothing is written to the file, and the trace
    gets an event only when the file cannot be opened. *)
Definition touch (name : string) : M unit := λ w,
  if can_write (files w) name
  then (Returned tt, with_files (touched name (files w)) [] w)
  else (Raised OSError, with_files (files w) [OpenFailed name None] w).

(** The block of [main] that initializes the progress files of the run
    directory, before the client is built and the extraction starts. *)
Definition init_progress_files (start_date end_date : datetime) : M unit :=
  try_except
    (touch PROGRESS_SESSIONS_NAME;;
     touch PROGRESS_PLAYERS_NAME;;
     update_checkpoint start_date end_date [] 0)
    (λ _, mret tt).

(** ** From sessions to rows: [flatten_to_csv] *)

(** [s.replace(old, new)] for an [old] of one character. *)
Fixpoint replace_char (old : ascii) (new : string) (s : string) : string :=
  match s with
  | EmptyString => EmptyString
  | String c s' =>
      (if decide (c = old) then new else String c EmptyString) +:+ replace_char old new s'
  end.

(** The 17 columns that every row has. *)
Definition base_columns : list string :=
  ["session_date"; "session_start_time"; "session_end_time"; "session_type"; "squad_id";
   "player_id"; "player_display_name"; "player_first_name"; "player_last_name";
   "player_custom_id"; "player_squad"; "player_gender"; "player_dob";
   "drill_id"; "drill_name"; "drill_start_time"; "drill_end_time"].

(** The dict that [row] is bound to first. *)
Definition base_row (session_date : json) (session_info session_player enriched_player
    drill : record) : record :=
  [("session_date", session_date);
   ("session_start_time", dict_get session_info "startTime" JNull);
   ("session_end_time", dict_get session_info "endTime" JNull);
   ("session_type", dict_get session_info "sessionType" JNull);
   ("squad_id", dict_get session_info "squadId" JNull);
   ("player_id", dict_get session_player "id" JNull);
   ("player_display_name", dict_get enriched_player "displayName" JNull);
   ("player_first_name", dict_get enriched_player "firstName" JNull);
   ("player_last_name", dict_get enriched_player "lastName" JNull);
   ("player_custom_id", dict_get enriched_player "customPlayerId" JNull);
   ("player_squad", dict_get enriched_player "activeSquadName" JNull);
   ("player_gender", dict_get enriched_player "gender" JNull);
   ("player_dob", dict_get enriched_player "dateOfBirth" JNull);
   ("drill_id", dict_get drill "id" JNull);
   ("drill_name", dict_get drill "drillName" JNull);
   ("drill_start_time", dict_get drill "startTime" JNull);
   ("drill_end_time", dict_get drill "endTime" JNull)].

(** The [for kpi_name, kpi_value in drill_kpi.items()] loop. *)
Definition add_kpis (row drill_kpi : record) : record :=
  foldl (λ row kpi,
           if decide (kpi.1 ≠ "customMetrics") then dict_set row ("kpi_" +:+ kpi.1) kpi.2
           else row)
    row drill_kpi.

Section Flatten.

(** [str.lower]. *)
Context (str_lower : string → string).

Definition safe_name (metric_name : string) : string :=
  str_lower (replace_char ")" "" (replace_char "(" "" (replace_char " " "_" metric_name))).

(** The [for metric_name, metric_value in custom_metrics.items()] loop. *)
Definition add_custom_metrics (row custom_metrics : record) : record :=
  foldl (λ row metric, dict_set row ("custom_" +:+ safe_name metric.1) metric.2)
    row custom_metrics.

(** The body of [for drill in drills], up to [rows.append(row)]: the row. *)
Definition flat_row (session_date : json) (session_info session_player enriched_player : record)
    (drill : json) : outcome record :=
  drill_kpi ← py_get drill "drillKpi" (JObj []);
  match drill, drill_kpi with
  | JObj drill, JObj drill_kpi =>
      let row := base_row session_date session_info session_player enriched_player drill in
      let row := add_kpis row drill_kpi in
      match dict_get drill_kpi "customMetrics" (JObj []) with
      | JObj custom_metrics => Returned (add_custom_metrics row custom_metrics)
      | _ => Raised AttributeError
      end
  | _, _ => Raised AttributeError
  end.

(** The [for drill in drills] loop, from the value [rows] of the list on. *)
Fixpoint drills_loop (session_date : json) (session_info session_player enriched_player : record)
    (drills : list json) (rows : list record) : outcome (list record) :=
  match drills with
  | [] => Returned rows
  | drill :: rest =>
      row ← flat_row session_date session_info session_player enriched_player drill;
      drills_loop session_date session_info session_player enriched_player rest (rows ++ [row])
  end.

(** The [for player in player_details_data[session_date]] loop, from the
    value [player_lookup] of the dict on. *)
Fixpoint lookup_loop (players : list json) (player_lookup : gmap pykey record)
  : outcome (gmap pykey record) :=
  match players with
  | [] => Returned player_lookup
  | player :: rest =>
      custom_id ← py_get player "customPlayerId" JNull;
      match player with
      | JObj player =>
          if truthy custom_id then
            match hashable custom_id with
            | Some key => lookup_loop rest (<[key := player]> player_lookup)
            | None => Raised TypeError
            end
          else lookup_loop rest player_lookup
      | _ => Raised AttributeError
      end
  end.

(** The body of [for session_player in session_players]. *)
Definition player_rows (session_date : json) (session_info : record)
    (player_lookup : gmap pykey record) (session_player : json) (rows : list record)
  : outcome (list record) :=
  player_info ← py_get session_player "playerDetails" (JObj []);
  drills ← py_get session_player "drills" (JArr []);
  match session_player, player_info with
  | JObj session_player, JObj player_info =>
      let custom_id := dict_get player_info "customPlayerId" JNull in
      enriched_player ←
        (if truthy custom_id then
           match hashable custom_id with
           | Some key =>
               Returned (match player_lookup !! key with
                         | Some player => dict_update player_info player
                         | None => player_info
                         end)
           | None => Raised TypeError
           end
         else Returned player_info);
      match py_iter drills with
      | Some drills => drills_loop session_date session_info session_player enriched_player
                         drills rows
      | None => Raised TypeError
      end
  | _, _ => Raised AttributeError
  end.

Fixpoint players_loop (session_date : json) (session_info : record)
    (player_lookup : gmap pykey record) (session_players : list json) (rows : list record)
  : outcome (list record) :=
  match session_players with
  | [] => Returned rows
  | session_player :: rest =>
      rows ← player_rows session_date session_info player_lookup session_player rows;
      players_loop session_date session_info player_lookup rest rows
  end.

(** The body of [for session in sessions_data]. *)
Definition session_rows (player_details_data : gmap pykey json) (session : json)
    (rows : list record) : outcome (list record) :=
  session_info ← py_get session "sessionDetails" (JObj []);
  session_date ← py_get session_info "sessionDate" JNull;
  session_players ← py_get session "sessionPlayers" (JArr []);
  match session_info with
  | JObj session_info =>
      player_lookup ←
        match hashable session_date with
        | Some key =>
            match player_details_data !! key with
            | Some players =>
                match py_iter players with
                | Some players => lookup_loop players ∅
                | None => Raised TypeError
                end
            | None => Returned ∅
            end
        | None => Raised TypeError
        end;
      match py_iter session_players with
      | Some session_players =>
          players_loop session_date session_info player_lookup session_players rows
      | None => Raised TypeError
      end
  | _ => Raised AttributeError
  end.

Fixpoint sessions_loop (player_details_data : gmap pykey json) (sessions_data : list json)
    (rows : list record) : outcome (list record) :=
  match sessions_data with
  | [] => Returned rows
  | session :: rest =>
      rows ← session_rows player_details_data session rows;
      sessions_loop player_details_data rest rows
  end.

(** [flatten_to_csv], up to the list [rows] from which [pd.DataFrame] builds
    the table. *)
Definition flatten_to_csv (sessions_data : list json)
    (player_details_data : gmap pykey json) : outcome (list record) :=
  sessions_loop player_details_data sessions_data [].

End Flatten.

(** The columns of [pd.DataFrame(rows)]: the keys of the rows, each at its
    first occurrence. *)
Definition frame_columns (rows : list record) : list string :=
  first_by id [] (mjoin ((λ row : record, row.*1) <$> rows)).

(** *** The shape of the data that the conversion expects *)

(** A drill: an object whose [drillKpi], if any, is an object whose
    [customMetrics], if any, is an object. *)
Definition drill_shape (drill : json) : bool :=
  match drill with
  | JObj drill =>
      match dict_get drill "drillKpi" (JObj []) with
      | JObj drill_kpi =>
          match dict_get drill_kpi "customMetrics" (JObj []) with
          | JObj _ => true
          | _ => false
          end
      | _ => false
      end
  | _ => false
  end.

(** An identifier: nothing, a number or a string. *)
Definition id_shape (custom_id : json) : bool :=
  match custom_id with
  | JArr _ | JObj _ => false
  | _ => true
  end.

(** A player of a session: an object whose [playerDetails], if any, is an
    object with a scalar [customPlayerId], and whose [drills], if any, is a
    list of drills. *)
Definition session_player_shape (session_player : json) : bool :=
  match session_player with
  | JObj session_player =>
      match dict_get session_player "playerDetails" (JObj []),
            dict_get session_player "drills" (JArr []) with
      | JObj player_info, JArr drills =>
          id_shape (dict_get player_info "customPlayerId" JNull)
          && forallb drill_shape drills
      | _, _ => false
      end
  | _ => false
  end.

(** A session: an object whose [sessionDetails], if any, is an object with a
    scalar [sessionDate], and whose [sessionPlayers], if any, is a list of
    players. *)
Definition session_shape (session : json) : bool :=
  match session with
  | JObj session =>
      match dict_get session "sessionDetails" (JObj []),
            dict_get session "sessionPlayers" (JArr []) with
      | JObj session_info, JArr session_players =>
          id_shape (dict_get session_info "sessionDate" JNull)
          && forallb session_player_shape session_players
      | _, _ => false
      end
  | _ => false
  end.

(** The player details of a date: a list of objects with a scalar
    [customPlayerId]. *)
Definition player_shape (player : json) : bool :=
  match player with
  | JObj player => id_shape (dict_get player "customPlayerId" JNull)
  | _ => false
  end.

Definition players_shape (players : json) : bool :=
  match players with
  | JArr players => forallb player_shape players
  | _ => false
  end.

(** The number of drills of a player of a session, and of a session. *)
Definition player_drill_count (session_player : json) : nat :=
  match session_player with
  | JObj session_player =>
      match dict_get session_player "drills" (JArr []) with
      | JArr drills => length drills
      | _ => 0%nat
      end
  | _ => 0%nat
  end.

Definition drill_count (session : json) : nat :=
  match session with
  | JObj session =>
      match dict_get session "sessionPlayers" (JArr []) with
      | JArr session_players => sum_list_with player_drill_count session_players
      | _ => 0%nat
      end
  | _ => 0%nat
  end.

(** The key under which a session looks for its player details: its
    [sessionDate], when that can be a key. *)
Definition session_key (session : json) : option pykey :=
  match session with
  | JObj session =>
      match dict_get session "sessionDetails" (JObj []) with
      | JObj session_info => hashable (dict_get session_info "sessionDate" JNull)
      | _ => None
      end
  | _ => None
  end.

(** A column that a row has beside the base columns. *)
Definition metric_column (column : string) : Prop :=
  (∃ name, column = "kpi_" +:+ name) ∨ (∃ name, column = "custom_" +:+ name).

(** [str.lower] on ASCII letters, to run the examples with. *)
Definition lower_char (c : ascii) : ascii :=
  let n := nat_of_ascii c in
  if decide (65 ≤ n ≤ 90)%nat then ascii_of_nat (n + 32) else c.

Fixpoint lower_ascii (s : string) : string :=
  match s with
  | EmptyString => EmptyString
  | String c s' => String (lower_char c) (lower_ascii s')
  end.

(** Sample data: a session of one player with two drills, and the details of
    that player. *)
Definition sample_drill_fields (id : Z) : record :=
  [("id", JNum id); ("drillName", JStr "Warm up");
   ("drillKpi", JObj [("totalDistance", JNum 1200);
                      ("customMetrics", JObj [("Max Speed (kmh)", JNum 31);
                                              ("max_speed_kmh", JNum 29)])])].

Definition sample_drill (id : Z) : json := JObj (sample_drill_fields id).

Definition sample_session : json :=
  JObj [("sessionDetails", JObj [("sessionDate", JStr "2024-01-01T00:00:00Z");
                                 ("sessionType", JStr "Training")]);
        ("sessionPlayers",
         JArr [JObj [("id", JNum 7);
                     ("playerDetails", JObj [("customPlayerId", JStr "P7");
                                             ("displayName", JStr "M. M.")]);
                     ("drills", JArr [sample_drill 1; sample_drill 2])]])].

Definition sample_players : json :=
  JArr [JObj [("customPlayerId", JStr "P7"); ("displayName", JStr "Mason Mount");
              ("gender", JStr "M")]].

(* ===================================================================== *)
(** * Part II. Properties                                                 *)
(* ===================================================================== *)

(** ** Planner *)

Section Planner.

Lemma ranges_from_step p end_date current ranges :
  ranges_from p end_date current ranges =
  if decide (current ≤ end_date) then
    if decide (current + delta_of p ≤ DATETIME_MAX) then
      ranges_from p end_date (Z.min (current + delta_of p - 1) end_date + 1)
        (ranges ++ [(current, Z.min (current + delta_of p - 1) end_date)])
    else Raised OverflowError
  else Returned ranges.
Proof.
  rewrite ranges_from_equation_1.
  destruct (decide (current ≤ end_date)); [|reflexivity].
  cbn. destruct (decide (current + delta_of p ≤ DATETIME_MAX)); reflexivity.
Qed.

Lemma delta_of_pos p : 0 < delta_of p.
Proof. destruct p; reflexivity. Qed.

Lemma window_count_pos p start_date end_date :
  start_date ≤ end_date → 0 < window_count p start_date end_date.
Proof.
  intros Hle. pose proof (delta_of_pos p).
  pose proof (Z.div_pos (end_date - start_date) (delta_of p)).
  unfold window_count. lia.
Qed.

Lemma window_count_nonpos p start_date end_date :
  end_date < start_date → window_count p start_date end_date ≤ 0.
Proof.
  intros Hlt. pose proof (delta_of_pos p). unfold window_count.
  assert ((end_date - start_date) `div` delta_of p < 0); [|lia].
  apply Z.div_lt_upper_bound; lia.
Qed.

(** The plan, window by window. *)
Lemma date_windows_step start_date end_date p :
  start_date ≤ end_date →
  date_windows start_date end_date p
  = (start_date, Z.min (start_date + delta_of p - 1) end_date)
      :: (if decide (start_date + delta_of p - 1 < end_date)
          then date_windows (start_date + delta_of p) end_date p
          else []).
Proof.
  intros Hle. pose proof (delta_of_pos p) as Hd.
  pose proof (window_count_pos p _ _ Hle) as Hn.
  unfold date_windows. rewrite seqZ_cons by done. cbn [fmap list_fmap].
  f_equal.
  { unfold window. f_equal; [lia|f_equal; lia]. }
  destruct (decide (start_date + delta_of p - 1 < end_date)) as [Hlt|Hge].
  - assert (window_count p (start_date + delta_of p) end_date
            = Z.pred (window_count p start_date end_date)) as ->.
    { unfold window_count.
      replace (end_date - (start_date + delta_of p))
        with ((end_date - start_date) + (-1) * delta_of p) by lia.
      rewrite Z.div_add by lia. lia. }
    change (Z.succ 0) with (1 + 0).
    rewrite <- (fmap_add_seqZ 1 0), <- list_fmap_compose.
    apply list_fmap_ext. intros j i Hj. unfold window; cbn.
    f_equal; [lia|f_equal; lia].
  - assert (window_count p start_date end_date = 1) as ->.
    { unfold window_count. rewrite Z.div_small; lia. }
    reflexivity.
Qed.

Lemma date_windows_nil start_date end_date p :
  end_date < start_date → date_windows start_date end_date p = [].
Proof.
  intros Hlt. unfold date_windows.
  by rewrite seqZ_nil by (by apply window_count_nonpos).
Qed.

(** The loop in closed form: it returns the plan when the plan fits, and
    raises when it does not. *)
Lemma ranges_from_windows p end_date current ranges :
  ranges_from p end_date current ranges =
  if decide (plan_fits current end_date p)
  then Returned (ranges ++ date_windows current end_date p)
  else Raised OverflowError.
Proof.
  remember (Z.to_nat (window_count p current end_date)) as k eqn:Hk.
  revert current ranges Hk. induction k as [|k IH]; intros current ranges Hk;
    pose proof (delta_of_pos p) as Hd; rewrite ranges_from_step.
  - destruct (decide (current ≤ end_date)) as [Hle|Hgt].
    { pose proof (window_count_pos p _ _ Hle). lia. }
    rewrite decide_True by (left; lia).
    by rewrite date_windows_nil, app_nil_r by lia.
  - assert (current ≤ end_date) as Hle.
    { destruct (decide (current ≤ end_date)) as [|Hgt]; [done|].
      pose proof (window_count_nonpos p current end_date). lia. }
    pose proof (window_count_pos p _ _ Hle) as Hn.
    rewrite decide_True by done.
    destruct (decide (current + delta_of p ≤ DATETIME_MAX)) as [Hfit|Hover].
    + rewrite (date_windows_step current end_date p Hle).
      destruct (decide (current + delta_of p - 1 < end_date)) as [Hlt|Hge].
      * rewrite Z.min_l by lia.
        replace (current + delta_of p - 1 + 1) with (current + delta_of p) by lia.
        assert (window_count p (current + delta_of p) end_date
                = Z.pred (window_count p current end_date)) as Hc.
        { unfold window_count.
          replace (end_date - (current + delta_of p))
            with ((end_date - current) + (-1) * delta_of p) by lia.
          rewrite Z.div_add by lia. lia. }
        rewrite IH by lia.
        assert (plan_fits (current + delta_of p) end_date p ↔ plan_fits current end_date p)
          as Hiff.
        { unfold plan_fits. rewrite Hc. split; (intros [?|?]; [lia|right; lia]). }
        destruct (decide (plan_fits current end_date p)) as [Hp|Hp].
        -- rewrite decide_True by (by apply Hiff). by rewrite <- app_assoc.
        -- by rewrite decide_False by (by rewrite Hiff).
      * rewrite Z.min_r by lia.
        rewrite ranges_from_step, decide_False by lia.
        rewrite decide_True; [done|]. right.
        assert (window_count p current end_date = 1) as ->; [|lia].
        unfold window_count. rewrite Z.div_small; lia.
    + rewrite decide_False; [done|]. intros [?|Hp]; [lia|]. nia.
Qed.

(** [get_date_ranges] returns the plan when the plan fits, and raises
    [OverflowError] when it does not. *)
Lemma get_date_ranges_run start_date end_date p :
  get_date_ranges start_date end_date p =
  if decide (plan_fits start_date end_date p)
  then Returned (date_windows start_date end_date p)
  else Raised OverflowError.
Proof. unfold get_date_ranges. by rewrite ranges_from_windows. Qed.

Lemma get_date_ranges_returned start_date end_date p l :
  get_date_ranges start_date end_date p = Returned l →
  plan_fits start_date end_date p ∧ l = date_windows start_date end_date p.
Proof. rewrite get_date_ranges_run. case_decide; [|done]. by intros [= <-]. Qed.

Lemma get_date_ranges_raised start_date end_date p e :
  get_date_ranges start_date end_date p = Raised e →
  ¬ plan_fits start_date end_date p ∧ e = OverflowError.
Proof. rewrite get_date_ranges_run. case_decide; [done|]. by intros [= <-]. Qed.

(** A plan whose range ends one [delta] before [datetime.max] fits. *)
Lemma plan_fits_end start_date end_date p :
  end_date + delta_of p ≤ DATETIME_MAX → plan_fits start_date end_date p.
Proof.
  intros Hend. pose proof (delta_of_pos p) as Hd. unfold plan_fits, window_count.
  destruct (decide (end_date < start_date)); [by left|right].
  pose proof (Z.mul_div_le (end_date - start_date) (delta_of p) Hd). nia.
Qed.

Lemma date_windows_lookup start_date end_date p (i : nat) a :
  date_windows start_date end_date p !! i = Some a ↔
  a = window p start_date end_date (Z.of_nat i)
  ∧ Z.of_nat i < window_count p start_date end_date.
Proof.
  unfold date_windows. rewrite list_lookup_fmap.
  destruct (seqZ 0 (window_count p start_date end_date) !! i) as [j|] eqn:Hj; cbn.
  - apply lookup_seqZ in Hj as [-> ?]. split.
    + intros [= <-]. by rewrite Z.add_0_l.
    + intros [-> _]. by rewrite Z.add_0_l.
  - split; [done|]. intros [_ Hlt].
    rewrite lookup_seqZ_lt in Hj by done. done.
Qed.

Lemma date_windows_length start_date end_date p :
  start_date ≤ end_date →
  Z.of_nat (length (date_windows start_date end_date p))
  = window_count p start_date end_date.
Proof.
  intros Hle. pose proof (window_count_pos p _ _ Hle).
  unfold date_windows. rewrite length_fmap, length_seqZ. lia.
Qed.

(** A window before the last one is not clipped. *)
Lemma window_full p start_date end_date i :
  0 ≤ i → i + 1 < window_count p start_date end_date →
  (window p start_date end_date i).2 = start_date + (i + 1) * delta_of p - 1.
Proof.
  intros Hi Hlt. pose proof (delta_of_pos p) as Hd. unfold window_count in Hlt.
  assert ((i + 1) * delta_of p ≤ end_date - start_date).
  { pose proof (Z.mul_div_le (end_date - start_date) (delta_of p) Hd). nia. }
  unfold window; cbn. lia.
Qed.

(** The last window ends at [end_date]. *)
Lemma window_last p start_date end_date i :
  i + 1 = window_count p start_date end_date →
  (window p start_date end_date i).2 = end_date.
Proof.
  intros Hi. pose proof (delta_of_pos p) as Hd. unfold window_count in Hi.
  pose proof (Z.mod_pos_bound (end_date - start_date) (delta_of p) Hd).
  pose proof (Z.div_mod (end_date - start_date) (delta_of p)).
  unfold window; cbn. nia.
Qed.

Lemma window_bounds p start_date end_date i :
  0 ≤ i → i < window_count p start_date end_date →
  start_date ≤ (window p start_date end_date i).1
  ∧ (window p start_date end_date i).1 ≤ (window p start_date end_date i).2
  ∧ (window p start_date end_date i).2 ≤ end_date.
Proof.
  intros Hi Hlt. pose proof (delta_of_pos p) as Hd. unfold window_count in Hlt.
  assert (i * delta_of p ≤ end_date - start_date).
  { pose proof (Z.mul_div_le (end_date - start_date) (delta_of p) Hd). nia. }
  unfold window; cbn. nia.
Qed.

(** With a start at midnight, day windows are counted in calendar dates. *)
Lemma window_count_midnight start_date end_date :
  time_of_day start_date = 0 →
  window_count Day start_date end_date = dates_spanned start_date end_date.
Proof.
  unfold time_of_day, window_count, dates_spanned, date_of, delta_of, SECONDS_PER_DAY.
  intros H0.
  pose proof (Z.div_mod start_date 86400).
  replace (end_date - start_date)
    with (end_date + (- (start_date `div` 86400)) * 86400) by lia.
  rewrite Z.div_add by lia. lia.
Qed.

Lemma window_midnight start_date end_date i :
  time_of_day start_date = 0 →
  window Day start_date end_date i
  = ((whole_day (date_of start_date + i)).1,
     Z.min (whole_day (date_of start_date + i)).2 end_date).
Proof.
  unfold time_of_day, window, whole_day, date_of, delta_of, SECONDS_PER_DAY.
  intros H0. pose proof (Z.div_mod start_date 86400). cbn.
  f_equal; [lia|f_equal; lia].
Qed.

(** What the plan is, for a range with start ≤ end. *)
Lemma date_windows_cover start_date end_date p :
  start_date ≤ end_date →
  let l := date_windows start_date end_date p in
  fst <$> head l = Some start_date
  ∧ snd <$> last l = Some end_date
  ∧ (∀ (i : nat) a b, l !! i = Some a → l !! S i = Some b → b.1 = a.2 + 1)
  ∧ (∀ a, a ∈ l → start_date ≤ a.1 ∧ a.1 ≤ a.2 ∧ a.2 ≤ end_date)
  ∧ (p = Day → time_of_day start_date = 0 →
       Z.of_nat (length l) = dates_spanned start_date end_date
       ∧ ∀ (i : nat) a, l !! i = Some a →
           a.1 = (whole_day (date_of start_date + Z.of_nat i)).1
           ∧ a.2 = Z.min (whole_day (date_of start_date + Z.of_nat i)).2 end_date
           ∧ ((S i < length l)%nat → a = whole_day (date_of start_date + Z.of_nat i))).
Proof.
  intros Hle l. subst l.
  pose proof (date_windows_length start_date end_date p Hle) as Hlen.
  pose proof (window_count_pos p _ _ Hle) as Hpos.
  repeat split.
  - rewrite head_lookup.
    rewrite (proj2 (date_windows_lookup start_date end_date p 0 _)
               (conj eq_refl Hpos)).
    cbn. f_equal. lia.
  - rewrite last_lookup.
    set (n := pred (length (date_windows start_date end_date p))).
    assert (Z.of_nat n + 1 = window_count p start_date end_date) as Hlast by lia.
    assert (Z.of_nat n < window_count p start_date end_date) as Hn by lia.
    rewrite (proj2 (date_windows_lookup start_date end_date p n _)
               (conj eq_refl Hn)).
    cbn [fmap option_fmap option_map]. f_equal.
    by apply window_last.
  - intros i a b Ha Hb.
    apply date_windows_lookup in Ha as [-> Hi], Hb as [-> HSi].
    rewrite window_full by lia. unfold window; cbn. lia.
  - apply list_elem_of_lookup in H as [i Hi].
    apply date_windows_lookup in Hi as [-> Hi].
    apply window_bounds; lia.
  - apply list_elem_of_lookup in H as [i Hi].
    apply date_windows_lookup in Hi as [-> Hi].
    apply window_bounds; lia.
  - apply list_elem_of_lookup in H as [i Hi].
    apply date_windows_lookup in Hi as [-> Hi].
    apply window_bounds; lia.
  - rewrite Hlen. subst p. by apply window_count_midnight.
  - subst p. apply date_windows_lookup in H1 as [-> Hi].
    by rewrite window_midnight.
  - subst p. apply date_windows_lookup in H1 as [-> Hi].
    by rewrite window_midnight.
  - intros HS. subst p. apply date_windows_lookup in H1 as [-> Hi].
    assert (0 ≤ Z.of_nat i) as Hi0 by lia.
    assert (Z.of_nat i + 1 < window_count Day start_date end_date) as Hi1 by lia.
    pose proof (window_full Day start_date end_date (Z.of_nat i) Hi0 Hi1) as Hf.
    rewrite window_midnight in * by done.
    destruct (whole_day (date_of start_date + Z.of_nat i)) as [a b] eqn:Hw.
    cbn in *. f_equal. rewrite Hf.
    unfold whole_day, date_of, time_of_day, delta_of, SECONDS_PER_DAY in *.
    injection Hw as <- <-. pose proof (Z.div_mod start_date 86400). lia.
Qed.

(** C4 (as amended): for every range with start ≤ end and either
    granularity, [get_date_ranges] returns the windows of one day (one hour)
    counted from the start instant, the period [i] being
    [start + i * delta .. min (start + (i + 1) * delta - 1, end)], provided
    the last of them starts at least one [delta] before [datetime.max], which
    is so when [end + delta] does not pass [datetime.max]; otherwise the
    addition [current + delta] raises [OverflowError] and nothing is
    returned. There are [(end - start) div delta + 1] periods; the first
    starts at the range start, the last ends at the range end, each next one
    starts one second after the previous one ends, and every period lies
    inside the range and is non-empty. When the start is at 00:00:00, the
    number of day periods is the number of calendar dates spanned and every
    period is 00:00:00-23:59:59 of one calendar date, the last one clipped to
    the range end. *)
Theorem get_date_ranges_cover start_date end_date p :
  start_date ≤ end_date →
  let delta := delta_of p in
  let count := (end_date - start_date) `div` delta + 1 in
  (end_date + delta ≤ DATETIME_MAX → start_date + count * delta ≤ DATETIME_MAX)
  ∧ (DATETIME_MAX < start_date + count * delta →
     get_date_ranges start_date end_date p = Raised OverflowError)
  ∧ (start_date + count * delta ≤ DATETIME_MAX →
     ∃ l,
       get_date_ranges start_date end_date p = Returned l
       ∧ (∀ (i : nat) a,
            l !! i = Some a ↔
            a = (start_date + Z.of_nat i * delta,
                 Z.min (start_date + (Z.of_nat i + 1) * delta - 1) end_date)
            ∧ Z.of_nat i < count)
       ∧ Z.of_nat (length l) = count
       ∧ fst <$> head l = Some start_date
       ∧ snd <$> last l = Some end_date
       ∧ (∀ (i : nat) a b, l !! i = Some a → l !! S i = Some b → b.1 = a.2 + 1)
       ∧ (∀ a, a ∈ l → start_date ≤ a.1 ∧ a.1 ≤ a.2 ∧ a.2 ≤ end_date)
       ∧ (p = Day → time_of_day start_date = 0 →
            Z.of_nat (length l) = dates_spanned start_date end_date
            ∧ ∀ (i : nat) a, l !! i = Some a →
                a.1 = (whole_day (date_of start_date + Z.of_nat i)).1
                ∧ a.2 = Z.min (whole_day (date_of start_date + Z.of_nat i)).2 end_date
                ∧ ((S i < length l)%nat →
                   a = whole_day (date_of start_date + Z.of_nat i)))).
Proof.
  intros Hle delta count. subst delta count.
  fold (window_count p start_date end_date).
  split; [|split].
  - intros Hend. destruct (plan_fits_end start_date end_date p Hend) as [?|?]; [lia|done].
  - intros Hover. rewrite get_date_ranges_run, decide_False; [done|].
    intros [?|?]; lia.
  - intros Hfit. exists (date_windows start_date end_date p).
    split; [by rewrite get_date_ranges_run, decide_True by (by right)|].
    split; [apply date_windows_lookup|].
    split; [by apply date_windows_length|].
    by apply date_windows_cover.
Qed.

Lemma get_date_ranges_cover_witness :
  1709251200 ≤ 1709424000
  ∧ 1709424000 + 86400 ≤ DATETIME_MAX
  ∧ ∃ l, get_date_ranges 1709251200 1709424000 Day = Returned l
         ∧ snd <$> last l = Some 1709424000
         ∧ Z.of_nat (length l) = 3.
Proof.
  assert (1709251200 ≤ 1709424000) as Hle by lia.
  assert (1709424000 + 86400 ≤ DATETIME_MAX) as Hend by (unfold DATETIME_MAX; lia).
  pose proof (get_date_ranges_cover 1709251200 1709424000 Day Hle) as H.
  cbv zeta in H.
  destruct H as (Hfit & _ & Hplan).
  destruct (Hplan (Hfit Hend)) as (l & Hrun & _ & Hlen & _ & Hlast & _).
  split; [exact Hle|]. split; [exact Hend|].
  exists l. split; [exact Hrun|]. split; [exact Hlast|exact Hlen].
Defined.

(** C4 (as stated) fails when the range does not start at midnight: from
    1970-01-01T10:00:00 to 1970-01-03T09:00:00 three calendar dates are
    spanned, but there are two day periods, and the first runs from 10:00:00
    to 09:59:59 of the next date. It fails as well at the end of the range of
    [datetime]: for the day 9999-12-31 no period is returned. *)
Lemma get_date_ranges_day_count_counterexample :
  36000 ≤ 205200
  ∧ get_date_ranges 36000 205200 Day = Returned [(36000, 122399); (122400, 205200)]
  ∧ dates_spanned 36000 205200 = 3
  ∧ Z.of_nat (length [(36000, 122399); (122400, 205200)]) ≠ dates_spanned 36000 205200
  ∧ date_of 36000 ≠ date_of 122399
  ∧ strftime_ymd 253402214400 = "9999-12-31"%string
  ∧ get_date_ranges 253402214400 253402214400 Day = Raised OverflowError.
Proof.
  split; [lia|]. split; [by rewrite get_date_ranges_run|].
  split; [done|]. split; [by vm_compute|]. split; [by vm_compute|].
  split; [by vm_compute|]. by rewrite get_date_ranges_run.
Qed.

Example strftime_ymd_examples :
  strftime_ymd 1709251200 = "2024-03-01"%string
  ∧ strftime_ymd 0 = "1970-01-01"%string
  ∧ strftime_ymd (-1) = "1969-12-31"%string
  ∧ strftime_ymd 951782400 = "2000-02-29"%string.
Proof. repeat split; vm_compute; reflexivity. Qed.

End Planner.

(** ** First occurrence per key *)

Section FirstBy.

Context {A K : Type} {K_eq_dec : EqDecision K} (key : A → K).

Implicit Types (l : list A) (seen : list K).

(** Only the members of [seen] matter, and they act as a filter. *)
Lemma first_by_filter seen l :
  first_by key seen l = filter (λ x, key x ∉ seen) (first_by key [] l).
Proof.
  revert seen. induction l as [|x l IH]; intros seen; [done|].
  cbn [first_by]. rewrite (decide_False (P := key x ∈ [])) by apply not_elem_of_nil.
  destruct (decide (key x ∈ seen)) as [Hin|Hout].
  - rewrite filter_cons_False by (intros Hx; by apply Hx).
    rewrite (IH seen), (IH [key x]), list_filter_filter.
    apply list_filter_iff. intros y. rewrite list_elem_of_singleton.
    split; [|by intros [? _]]. intros Hy. split; [done|congruence].
  - rewrite filter_cons_True by done. f_equal.
    rewrite (IH (key x :: seen)), (IH [key x]), list_filter_filter.
    apply list_filter_iff. intros y.
    rewrite not_elem_of_cons, list_elem_of_singleton. tauto.
Qed.

Lemma first_by_nil_cons x l :
  first_by key [] (x :: l) = x :: filter (λ y, key y ≠ key x) (first_by key [] l).
Proof.
  cbn [first_by]. rewrite decide_False by apply not_elem_of_nil. f_equal.
  rewrite first_by_filter. apply list_filter_iff. intros y.
  by rewrite list_elem_of_singleton.
Qed.

Lemma first_by_seen_ext seen1 seen2 l :
  (∀ k, k ∈ seen1 ↔ k ∈ seen2) → first_by key seen1 l = first_by key seen2 l.
Proof.
  intros Hseen. rewrite (first_by_filter seen1), (first_by_filter seen2).
  apply list_filter_iff. intros x. by rewrite Hseen.
Qed.

Lemma first_by_sublist seen l : first_by key seen l `sublist_of` l.
Proof.
  revert seen. induction l as [|x l IH]; intros seen; cbn; [done|].
  destruct (decide (key x ∈ seen)).
  - by apply sublist_cons.
  - by apply sublist_skip.
Qed.

Lemma first_by_unseen seen l x : x ∈ first_by key seen l → key x ∉ seen.
Proof. rewrite first_by_filter. intros Hx. by apply list_elem_of_filter in Hx as [? _]. Qed.

Lemma first_by_NoDup seen l : NoDup (key <$> first_by key seen l).
Proof.
  revert seen. induction l as [|x l IH]; intros seen; cbn; [constructor|].
  destruct (decide (key x ∈ seen)); [done|].
  cbn. constructor; [|done].
  intros Hin. apply list_elem_of_fmap in Hin as (y & Hy & Hin).
  apply first_by_unseen in Hin. set_solver.
Qed.

(** Every key of [l] outside [seen] keeps a representative. *)
Lemma first_by_keys seen l x :
  x ∈ l → key x ∉ seen → key x ∈ key <$> first_by key seen l.
Proof.
  revert seen. induction l as [|y l IH]; intros seen Hx Hout; [by inversion Hx|].
  cbn. destruct (decide (key y ∈ seen)) as [Hy|Hy].
  - apply IH; [|done]. apply elem_of_cons in Hx as [->|]; done.
  - cbn. destruct (decide (key x = key y)) as [->|Hne]; [left|].
    right. apply IH; [|set_solver].
    apply elem_of_cons in Hx as [->|]; done.
Qed.

(** A survivor is the first element of [l] that carries its key. *)
Lemma first_by_first seen l x :
  x ∈ first_by key seen l →
  ∃ i, list_find (λ y, key y = key x) l = Some (i, x).
Proof.
  revert seen. induction l as [|y l IH]; intros seen Hx; [by inversion Hx|].
  cbn in Hx. destruct (decide (key y ∈ seen)) as [Hy|Hy].
  - pose proof (first_by_unseen _ _ _ Hx) as Hout.
    destruct (IH _ Hx) as [i Hi]. exists (S i).
    cbn. rewrite decide_False by (intros Heq; congruence).
    by rewrite Hi.
  - apply elem_of_cons in Hx as [->|Hx].
    + exists 0%nat. cbn. by rewrite decide_True.
    + pose proof (first_by_unseen _ _ _ Hx) as Hout.
      destruct (IH _ Hx) as [i Hi]. exists (S i).
      cbn. rewrite decide_False by set_solver.
      by rewrite Hi.
Qed.

(** A list with pairwise distinct, unseen keys is left as it is. *)
Lemma first_by_id seen l :
  NoDup (key <$> l) → (∀ x, x ∈ l → key x ∉ seen) → first_by key seen l = l.
Proof.
  revert seen. induction l as [|x l IH]; intros seen Hnd Hout; [done|].
  cbn in *. apply NoDup_cons in Hnd as [Hx Hnd].
  rewrite decide_False by (apply Hout; left). f_equal.
  apply IH; [done|]. intros y Hy.
  apply not_elem_of_cons. split; [|apply Hout; by right].
  intros Heq. apply Hx. rewrite <- Heq. by apply list_elem_of_fmap_2.
Qed.

Lemma first_by_idemp seen l :
  first_by key seen (first_by key seen l) = first_by key seen l.
Proof. apply first_by_id; [apply first_by_NoDup|apply first_by_unseen]. Qed.

Lemma first_by_app seen l1 l2 :
  first_by key seen (l1 ++ l2)
  = first_by key seen l1 ++ first_by key ((key <$> l1) ++ seen) l2.
Proof.
  revert seen. induction l1 as [|x l1 IH]; intros seen; [done|].
  cbn. destruct (decide (key x ∈ seen)) as [Hx|Hx].
  - rewrite IH. f_equal. apply first_by_seen_ext. set_solver.
  - cbn. f_equal. rewrite IH. f_equal. apply first_by_seen_ext. set_solver.
Qed.

(** Of two elements with one key, in a list whose other keys are pairwise
    distinct, the later one is dropped and everything else stays. *)
Lemma first_by_one_duplicate l1 a l2 b l3 :
  key a = key b →
  NoDup (key <$> (l1 ++ a :: l2 ++ l3)) →
  first_by key [] (l1 ++ a :: l2 ++ b :: l3) = l1 ++ a :: l2 ++ l3.
Proof.
  intros Hab Hnd.
  replace (l1 ++ a :: l2 ++ b :: l3) with ((l1 ++ a :: l2) ++ b :: l3)
    by (by rewrite <- app_assoc).
  replace (l1 ++ a :: l2 ++ l3) with ((l1 ++ a :: l2) ++ l3) in *
    by (by rewrite <- app_assoc).
  rewrite fmap_app in Hnd. apply NoDup_app in Hnd as (Hnd1 & Hdisj & Hnd3).
  rewrite first_by_app. f_equal.
  - apply first_by_id; [done|set_solver].
  - cbn. rewrite decide_True by (rewrite <- Hab; set_solver).
    apply first_by_id; [done|].
    intros x Hx Hin. rewrite app_nil_r in Hin.
    apply (Hdisj (key x)); [done|]. by apply list_elem_of_fmap_2.
Qed.

End FirstBy.

Example print_json_examples :
  print_json (JObj [("b", JNum 2); ("a", JArr [JStr "x"; JNull])])
  = print_json (JObj [("a", JArr [JStr "x"; JNull]); ("b", JNum 2)])
  ∧ String.length (print_json (JObj [("b", JNum 2); ("a", JArr [JStr "x"; JNull])])) = 26%nat.
Proof. split; vm_compute; reflexivity. Qed.

(** ** Per-day deduplication *)

Section PerDayDedup.

Context (dumps_sort_keys : json → string).

Local Abbreviation sig := (session_signature dumps_sort_keys).
Local Abbreviation dedup_loop := (dedup_loop dumps_sort_keys).
Local Abbreviation dedup_day_sessions := (dedup_day_sessions dumps_sort_keys).

(** The loop appends to [dedup] the first occurrences of the signatures that
    are not in [seen]. *)
Lemma dedup_loop_first_by day_sessions (seen : gset string) seen_list dedup :
  (∀ k, k ∈ seen_list ↔ k ∈ seen) →
  dedup_loop day_sessions seen dedup = dedup ++ first_by sig seen_list day_sessions.
Proof.
  revert seen seen_list dedup.
  induction day_sessions as [|s rest IH]; intros seen seen_list dedup Hseen; cbn.
  - by rewrite app_nil_r.
  - destruct (decide (sig s ∉ seen)) as [Hnew|Hold].
    + rewrite decide_False by (by rewrite Hseen).
      rewrite (IH _ (sig s :: seen_list)), <- app_assoc; [done|].
      intros k. rewrite elem_of_cons, Hseen. set_solver.
    + rewrite decide_True by (rewrite Hseen; by apply dec_stable).
      by apply IH.
Qed.

Lemma dedup_day_sessions_first_by day_sessions :
  dedup_day_sessions day_sessions = first_by sig [] day_sessions.
Proof.
  destruct day_sessions as [|s rest]; [done|].
  unfold dedup_day_sessions.
  rewrite (dedup_loop_first_by _ ∅ []); [done|].
  intros k. rewrite elem_of_nil. set_solver.
Qed.

(** C5: the per-day pass keeps, in the original order, exactly the first
    record of every signature: its result is a subsequence of the input, has
    pairwise distinct signatures, has every signature of the input, and each
    record in it is the first record of the input with that signature. It is
    idempotent. When two records of the input share a signature and the
    signatures are otherwise pairwise distinct, the result is the input
    without the later of the two. *)
Theorem dedup_day_sessions_first_occurrence (day_sessions : list record) :
  dedup_day_sessions day_sessions `sublist_of` day_sessions
  ∧ NoDup (sig <$> dedup_day_sessions day_sessions)
  ∧ (∀ s, s ∈ day_sessions → sig s ∈ sig <$> dedup_day_sessions day_sessions)
  ∧ (∀ s, s ∈ dedup_day_sessions day_sessions →
       ∃ i, list_find (λ s', sig s' = sig s) day_sessions = Some (i, s))
  ∧ dedup_day_sessions (dedup_day_sessions day_sessions) = dedup_day_sessions day_sessions
  ∧ (∀ l1 a l2 b l3,
       day_sessions = l1 ++ a :: l2 ++ b :: l3 →
       sig a = sig b →
       NoDup (sig <$> (l1 ++ a :: l2 ++ l3)) →
       dedup_day_sessions day_sessions = l1 ++ a :: l2 ++ l3).
Proof.
  rewrite !dedup_day_sessions_first_by. repeat split.
  - apply first_by_sublist.
  - apply first_by_NoDup.
  - intros s Hs. apply first_by_keys; [done|apply not_elem_of_nil].
  - intros s Hs. by apply first_by_first in Hs.
  - apply first_by_idemp.
  - intros l1 a l2 b l3 -> Hab Hnd. by apply first_by_one_duplicate.
Qed.

End PerDayDedup.

Lemma dedup_day_sessions_first_occurrence_witness :
  [session_a; session_b; session_a'] = [] ++ session_a :: [session_b] ++ session_a' :: []
  ∧ session_signature print_json session_a = session_signature print_json session_a'
  ∧ NoDup (session_signature print_json <$> ([] ++ session_a :: [session_b] ++ []))
  ∧ dedup_day_sessions print_json [session_a; session_b; session_a'] = [session_a; session_b].
Proof.
  assert (session_signature print_json session_a = session_signature print_json session_a')
    as Hsig by (vm_compute; reflexivity).
  assert (NoDup (session_signature print_json <$> ([] ++ session_a :: [session_b] ++ [])))
    as Hnd by (apply (bool_decide_unpack _); vm_compute; reflexivity).
  split; [reflexivity|]. split; [exact Hsig|]. split; [exact Hnd|].
  destruct (dedup_day_sessions_first_occurrence print_json
              [session_a; session_b; session_a']) as (_ & _ & _ & _ & _ & Hdup).
  exact (Hdup [] session_a [session_b] session_a' [] eq_refl Hsig Hnd).
Defined.

(** ** Cross-run merge *)

Section MergeFacts.

Implicit Types (df : DataFrame) (r : gmap string cell).

Lemma duplicate_cols_not_source col : col ∈ duplicate_cols → col ≠ "source_run"%string.
Proof.
  unfold duplicate_cols. rewrite !elem_of_cons, elem_of_nil.
  intros [->|[->|[->|[]]]]; discriminate.
Qed.

Lemma available_cols_elem df col :
  col ∈ available_cols df ↔ col ∈ columns df ∧ col ∈ duplicate_cols.
Proof. unfold available_cols. by rewrite list_elem_of_filter. Qed.

(** Labelling the source does not touch the key columns. *)
Lemma row_key_set_source subset r v :
  subset ⊆ duplicate_cols →
  row_key subset (<["source_run"%string := v]> r) = row_key subset r.
Proof.
  intros Hsub. unfold row_key. apply list_fmap_ext. intros i col Hcol.
  apply list_elem_of_lookup_2, Hsub, duplicate_cols_not_source in Hcol.
  unfold cell_of. by rewrite lookup_insert_ne.
Qed.

Lemma set_column_keys subset df v :
  subset ⊆ duplicate_cols →
  row_key subset <$> rows (set_column df "source_run" v) = row_key subset <$> rows df.
Proof.
  intros Hsub. cbn. rewrite <- list_fmap_compose.
  apply list_fmap_ext. intros i r Hr. cbn. by apply row_key_set_source.
Qed.

Lemma track_existing_keys subset df :
  subset ⊆ duplicate_cols →
  row_key subset <$> rows (track_existing df) = row_key subset <$> rows df.
Proof.
  intros Hsub. unfold track_existing. case_decide; [|done].
  by apply set_column_keys.
Qed.

Lemma track_new_keys subset newest_run df :
  subset ⊆ duplicate_cols →
  row_key subset <$> rows (track_new newest_run df) = row_key subset <$> rows df.
Proof.
  intros Hsub. unfold track_new. destruct newest_run; by apply set_column_keys.
Qed.

Lemma set_column_columns df col c v :
  col ∈ columns (set_column df c v) ↔ col ∈ columns df ∨ col = c.
Proof.
  cbn. case_decide as Hc.
  - split; [by left|]. by intros [?| ->].
  - rewrite elem_of_app, list_elem_of_singleton. tauto.
Qed.

Lemma track_existing_columns df col :
  col ∈ duplicate_cols → col ∈ columns (track_existing df) ↔ col ∈ columns df.
Proof.
  intros Hcol%duplicate_cols_not_source. unfold track_existing.
  case_decide; [|done]. rewrite set_column_columns. tauto.
Qed.

Lemma track_new_columns newest_run df col :
  col ∈ duplicate_cols → col ∈ columns (track_new newest_run df) ↔ col ∈ columns df.
Proof.
  intros Hcol%duplicate_cols_not_source. unfold track_new.
  destruct newest_run; rewrite set_column_columns; tauto.
Qed.

Lemma concat_columns a b col : col ∈ columns (concat a b) ↔ col ∈ columns a ∨ col ∈ columns b.
Proof.
  cbn. rewrite elem_of_app, list_elem_of_filter.
  destruct (decide (col ∈ columns a)); tauto.
Qed.

(** The key columns of the merge are those of the three that either table
    has. *)
Lemma merge_available_cols newest_run existing_df new_df col :
  col ∈ available_cols (concat (track_existing existing_df) (track_new newest_run new_df))
  ↔ col ∈ duplicate_cols ∧ (col ∈ columns existing_df ∨ col ∈ columns new_df).
Proof.
  rewrite available_cols_elem, concat_columns. split.
  - intros [Hc Hd]. split; [done|].
    by rewrite track_existing_columns, track_new_columns in Hc.
  - intros [Hd Hc]. split; [|done].
    by rewrite track_existing_columns, track_new_columns.
Qed.

Lemma available_cols_sub df : available_cols df ⊆ duplicate_cols.
Proof. intros col. rewrite available_cols_elem. tauto. Qed.

Lemma available_cols_all df :
  (∀ col, col ∈ duplicate_cols → col ∈ columns df) → available_cols df = duplicate_cols.
Proof.
  intros Hall. unfold available_cols, duplicate_cols in *.
  rewrite !filter_cons_True, filter_nil; [done|..]; apply Hall; set_solver.
Qed.

End MergeFacts.

Section CrossRunMerge.

(** Any sort will do: [sort_values] only has to return its input reordered
    and in the order [date_le] of the column. *)
Context (sort_values : string → list (gmap string cell) → list (gmap string cell)).
Context (date_le : relation cell).
Hypothesis sort_values_perm : ∀ col l, sort_values col l ≡ₚ l.
Hypothesis sort_values_sorted : ∀ col l, Sorted (by_column date_le col) (sort_values col l).

Implicit Types (df existing_df new_df : DataFrame) (r : gmap string cell).

Lemma length_filter_members {A} (P : A → Prop) `{!∀ x, Decision (P x)} (l : list A) :
  (length (filter P l) + length (filter (λ x, ¬ P x) l) = length l)%nat.
Proof. by rewrite <- length_app, filter_app_complement. Qed.

Lemma length_filter_fmap {A B} (f : A → B) (P : B → Prop) (Q : A → Prop)
    `{!∀ y, Decision (P y), !∀ x, Decision (Q x)} (l : list A) :
  (∀ x, P (f x) ↔ Q x) → length (filter P (f <$> l)) = length (filter Q l).
Proof.
  intros HPQ. induction l as [|x l IH]; [done|].
  cbn [fmap list_fmap]. rewrite !filter_cons.
  destruct (decide (P (f x))) as [HP|HP], (decide (Q x)) as [HQ|HQ]; cbn;
    rewrite ?IH; try done; by apply HPQ in HP || apply HPQ in HQ.
Qed.

Lemma track_existing_length df :
  length (rows (track_existing df)) = length (rows df).
Proof. unfold track_existing. case_decide; cbn; by rewrite ?length_fmap. Qed.

Lemma track_new_length newest_run df :
  length (rows (track_new newest_run df)) = length (rows df).
Proof. unfold track_new. destruct newest_run; cbn; by rewrite length_fmap. Qed.

Lemma track_new_overlap newest_run df subset (keys : list (list cell)) :
  subset ⊆ duplicate_cols →
  length (filter (λ r, row_key subset r ∈ keys) (rows (track_new newest_run df)))
  = length (filter (λ r, row_key subset r ∈ keys) (rows df)).
Proof.
  intros Hsub. unfold track_new.
  destruct newest_run; cbn; apply length_filter_fmap; intros r;
    by rewrite row_key_set_source.
Qed.

(** The rows of the merge before sorting. *)
Lemma combine_and_deduplicate_rows newest_run existing_df new_df :
  let E := rows (track_existing existing_df) in
  let N := rows (track_new newest_run new_df) in
  let cols := available_cols (concat (track_existing existing_df) (track_new newest_run new_df)) in
  rows (combine_and_deduplicate sort_values newest_run existing_df new_df)
  ≡ₚ match cols with [] => E ++ N | _ :: _ => first_by (row_key cols) [] (E ++ N) end.
Proof.
  intros E N cols. unfold combine_and_deduplicate. fold cols.
  destruct cols; case_decide; cbn; by rewrite ?sort_values_perm.
Qed.

(** Without duplicates inside either table, the merge keeps all existing rows
    and the new rows whose key is new. *)
Lemma first_by_merge_length {A K} `{EqDecision K} (key : A → K) (E N : list A) :
  NoDup (key <$> E) → NoDup (key <$> N) →
  (length (first_by key [] (E ++ N)) + length (filter (λ x, key x ∈ key <$> E) N)
   = length E + length N)%nat.
Proof.
  intros HE HN.
  rewrite first_by_app, length_app, app_nil_r.
  rewrite (first_by_id _ [] E) by (done || intros; apply not_elem_of_nil).
  rewrite (first_by_filter _ _ N).
  rewrite (first_by_id _ [] N) by (done || intros; apply not_elem_of_nil).
  pose proof (length_filter_members (λ x, key x ∈ key <$> E) N). lia.
Qed.

(** C6 (as amended): [combine_and_deduplicate] labels the rows with their
    source, puts the existing rows before the new ones and, when at least one
    of [session_date], [drill_id], [player_custom_id] is a column,
    - keeps for every value of the key (the columns of the three that are
      present; all three when all are present) the earliest row, so that a
      row of the result whose key occurs among the existing rows is an
      existing row;
    - returns the rows sorted by [session_date] when that column is present;
    - returns [length existing + length new - overlap] rows when the keys are
      pairwise distinct inside each table, [overlap] being the number of new
      rows whose key occurs among the existing rows: 115 rows for 100
      existing, 20 new and an overlap of 5.
    When none of the three is a column it removes nothing and does not sort:
    the result is the existing rows followed by the new rows. The comparison
    of whole records is made by [remove_duplicate_sessions] only, which does
    not sort. *)
Theorem combine_and_deduplicate_first_wins newest_run existing_df new_df :
  let E := rows (track_existing existing_df) in
  let N := rows (track_new newest_run new_df) in
  let cols := available_cols (concat (track_existing existing_df) (track_new newest_run new_df)) in
  let out := combine_and_deduplicate sort_values newest_run existing_df new_df in
  (∀ col, col ∈ cols ↔ col ∈ duplicate_cols ∧ (col ∈ columns existing_df ∨ col ∈ columns new_df))
  ∧ ((∀ col, col ∈ duplicate_cols → col ∈ columns existing_df ∨ col ∈ columns new_df) →
       cols = duplicate_cols)
  ∧ (cols ≠ [] →
       rows out ≡ₚ first_by (row_key cols) [] (E ++ N)
       ∧ (∀ r, r ∈ rows out → row_key cols r ∈ row_key cols <$> E → r ∈ E)
       ∧ ("session_date"%string ∈ cols → Sorted (by_column date_le "session_date") (rows out))
       ∧ (NoDup (row_key cols <$> rows existing_df) →
          NoDup (row_key cols <$> rows new_df) →
          ∀ overlap,
            length (filter (λ r, row_key cols r ∈ row_key cols <$> rows existing_df)
                      (rows new_df)) = overlap →
            (length (rows out) + overlap
             = length (rows existing_df) + length (rows new_df))%nat
            ∧ (length (rows existing_df) = 100%nat → length (rows new_df) = 20%nat →
               overlap = 5%nat → length (rows out) = 115%nat)))
  ∧ (cols = [] → rows out = E ++ N)
  ∧ (∀ df, available_cols df = [] →
       rows (remove_duplicate_sessions df) = first_by (row_key (columns df)) [] (rows df))
  ∧ (∀ df, available_cols df ≠ [] →
       rows (remove_duplicate_sessions df) = first_by (row_key (available_cols df)) [] (rows df)).
Proof.
  intros E N cols out.
  pose proof (combine_and_deduplicate_rows newest_run existing_df new_df) as Hrows.
  cbv zeta in Hrows. fold E N cols out in Hrows.
  assert (cols ⊆ duplicate_cols) as Hsub by apply available_cols_sub.
  assert ("session_date"%string ∈ cols ↔
          "session_date"%string ∈ columns (concat (track_existing existing_df)
                                              (track_new newest_run new_df))) as Hdate_col.
  { subst cols. rewrite available_cols_elem. unfold duplicate_cols. set_solver. }
  split; [apply merge_available_cols|].
  split.
  { intros Hall. apply available_cols_all. intros col Hcol.
    rewrite concat_columns, track_existing_columns, track_new_columns by done.
    by apply Hall. }
  split; [intros Hcols|split; [|split]].
  - assert (rows out ≡ₚ first_by (row_key cols) [] (E ++ N)) as Hperm.
    { by destruct cols. }
    split; [done|]. split; [|split].
    + intros r Hr Hkey. rewrite Hperm, first_by_app in Hr.
      apply elem_of_app in Hr as [Hr|Hr].
      * eapply elem_of_sublist; [done|apply first_by_sublist].
      * apply first_by_unseen in Hr. rewrite app_nil_r in Hr. done.
    + intros Hdate%Hdate_col. subst out. unfold combine_and_deduplicate. fold cols.
      destruct cols; [done|]. cbn [columns drop_duplicates].
      rewrite decide_True by done. apply sort_values_sorted.
    + intros HndE HndN overlap Hoverlap.
      assert (length (rows out) + overlap
              = length (rows existing_df) + length (rows new_df))%nat as Hcount.
      { rewrite Hperm, <- Hoverlap. subst E N.
        rewrite <- (track_new_overlap newest_run) by done.
        rewrite <- (track_existing_keys cols existing_df) by done.
        rewrite <- (track_existing_length existing_df).
        rewrite <- (track_new_length newest_run new_df).
        apply first_by_merge_length.
        - by rewrite track_existing_keys.
        - by rewrite track_new_keys. }
      split; [done|]. intros. lia.
  - intros Hcols. subst out. unfold combine_and_deduplicate. fold cols. rewrite Hcols.
    rewrite decide_False; [done|].
    intros Hdate%Hdate_col. rewrite Hcols in Hdate. by apply elem_of_nil in Hdate.
  - intros df Hdf. unfold remove_duplicate_sessions. by rewrite Hdf.
  - intros df Hdf. unfold remove_duplicate_sessions.
    by destruct (available_cols df).
Qed.

End CrossRunMerge.

(** The merge sort on [cell_le] is a sort in the sense above. *)
Lemma cell_leb_total a b : cell_leb a b = true ∨ cell_leb b a = true.
Proof.
  destruct a as [|s|m], b as [|t|n]; cbn; auto.
  - apply String.leb_total.
  - rewrite !bool_decide_eq_true. lia.
Qed.

#[local] Instance by_column_cell_le_total col : Total (by_column cell_le col).
Proof. intros r1 r2. apply cell_leb_total. Qed.

Lemma merge_sort_values_perm col l : merge_sort_values col l ≡ₚ l.
Proof. apply merge_sort_Permutation. Qed.

Lemma merge_sort_values_sorted col l :
  Sorted (by_column cell_le col) (merge_sort_values col l).
Proof. apply (Sorted_merge_sort _). Qed.

Lemma combine_and_deduplicate_first_wins_witness :
  let cols := available_cols (concat (track_existing existing_100)
                                     (track_new (Some "20240615_070000"%string) new_20)) in
  cols = duplicate_cols
  ∧ NoDup (row_key cols <$> rows existing_100)
  ∧ NoDup (row_key cols <$> rows new_20)
  ∧ length (filter (λ r, row_key cols r ∈ row_key cols <$> rows existing_100)
              (rows new_20)) = 5%nat
  ∧ length (rows existing_100) = 100%nat
  ∧ length (rows new_20) = 20%nat
  ∧ length (rows (combine_and_deduplicate merge_sort_values
                     (Some "20240615_070000"%string) existing_100 new_20)) = 115%nat.
Proof.
  intros cols.
  assert (cols = duplicate_cols) as Hcols by (vm_compute; reflexivity).
  assert (NoDup (row_key cols <$> rows existing_100)) as HndE.
  { apply (bool_decide_unpack _). vm_compute. reflexivity. }
  assert (NoDup (row_key cols <$> rows new_20)) as HndN.
  { apply (bool_decide_unpack _). vm_compute. reflexivity. }
  assert (length (filter (λ r, row_key cols r ∈ row_key cols <$> rows existing_100)
                    (rows new_20)) = 5%nat) as Hov by (vm_compute; reflexivity).
  assert (length (rows existing_100) = 100%nat) as HlenE by (vm_compute; reflexivity).
  assert (length (rows new_20) = 20%nat) as HlenN by (vm_compute; reflexivity).
  repeat (split; [assumption|]).
  destruct (combine_and_deduplicate_first_wins merge_sort_values cell_le
              merge_sort_values_perm merge_sort_values_sorted
              (Some "20240615_070000"%string) existing_100 new_20)
    as (_ & _ & Hkeyed & _).
  fold cols in Hkeyed.
  assert (cols ≠ []) as Hne by (rewrite Hcols; discriminate).
  destruct (Hkeyed Hne) as (_ & _ & _ & Hcount).
  destruct (Hcount HndE HndN 5%nat Hov) as [_ H115].
  exact (H115 HlenE HlenN eq_refl).
Defined.

(** C6 (as stated) fails where none of the three key columns is present: on a
    table that holds one row twice, merged with one new row, whole-record
    equality would leave two rows, and [combine_and_deduplicate] returns all
    three. *)
Lemma combine_and_deduplicate_no_fallback_counterexample :
  available_cols (concat (track_existing names_only) (track_new None names_new)) = []
  ∧ length (rows (drop_duplicates_all
                    (concat (track_existing names_only) (track_new None names_new)))) = 2%nat
  ∧ length (rows (combine_and_deduplicate merge_sort_values None names_only names_new)) = 3%nat
  ∧ rows (combine_and_deduplicate merge_sort_values None names_only names_new)
    ≠ rows (drop_duplicates_all
              (concat (track_existing names_only) (track_new None names_new))).
Proof.
  split; [vm_compute; reflexivity|].
  split; [vm_compute; reflexivity|].
  split; [vm_compute; reflexivity|].
  intros Heq. apply (f_equal length) in Heq. vm_compute in Heq. discriminate.
Qed.

Example parse_ymd_examples :
  parse_ymd "2024-03-01" = Some 1709251200
  ∧ parse_ymd "2024-02-30" = None
  ∧ parse_ymd "1969-12-31" = Some (-86400)
  ∧ parse_ymd "2024-3-1" = None.
Proof. repeat split; vm_compute; reflexivity. Qed.

(** ** Requests, probe and day fallback *)

Section ExtractionFacts.

Context (strptime_ymd : string → option datetime).

Local Abbreviation has_data_for_day := (has_data_for_day strptime_ymd).
Local Abbreviation extract_day_with_smart_fallback :=
  (extract_day_with_smart_fallback strptime_ymd).

Lemma get_full_sessions_run start_date end_date w :
  get_full_sessions start_date end_date w
  = (full_sessions_outcome
       (api w (length (requests w))
          (GetFullSessionsByDateRange start_date end_date) (timeout w)),
     with_request (GetFullSessionsByDateRange start_date end_date, timeout w) w).
Proof.
  unfold get_full_sessions, try_except, mbind, M_bind, post, mret, M_ret.
  destruct (api w _ _ _) as [records|e]; [done|].
  cbn. by destruct (is_Exception e).
Qed.

Lemma try_finally_set_timeout {A} (body : M A) t w :
  timeout (try_finally body (set_timeout t) w).2 = t.
Proof. unfold try_finally, set_timeout. by destruct (body w). Qed.

(** C10: whatever the client, the environment and the API do (data found,
    no data, an exception of the request, an unreadable date, an interrupt,
    a timeout variable that is not a number), [has_data_for_day] leaves
    [client.timeout] as it found it. *)
Theorem has_data_for_day_restores_timeout (date_str : string) (w : world) :
  timeout (has_data_for_day date_str w).2 = timeout w.
Proof.
  unfold has_data_for_day, mbind, M_bind, get_timeout, getenv_discovery_timeout.
  destruct (discovery_timeout_env w); cbn.
  - apply try_finally_set_timeout.
  - apply try_finally_set_timeout.
  - done.
Qed.

(** The value of the discovery timeout when the variable can be read. *)
Lemma getenv_discovery_timeout_run w :
  discovery_timeout_env w ≠ EnvMalformed →
  ∃ d, getenv_discovery_timeout w = (Returned d, w).
Proof.
  unfold getenv_discovery_timeout.
  destruct (discovery_timeout_env w) as [|n|]; [by exists 10|by exists n|done].
Qed.

(** The probe, when the date can be read: one request for the whole date,
    sent with the discovery timeout. *)
Lemma has_data_for_day_run date_str w d t :
  getenv_discovery_timeout w = (Returned d, w) →
  strptime_ymd date_str = Some t →
  let probe := GetFullSessionsByDateRange t (replace_hms t 23 59 59) in
  has_data_for_day date_str w
  = (match full_sessions_outcome (api w (length (requests w)) probe d) with
     | Returned response => Returned (not_none_nonempty response)
     | Raised e => Raised e
     end,
     with_request (probe, d) w).
Proof.
  intros Hd Ht probe.
  unfold has_data_for_day, mbind, M_bind, get_timeout. rewrite Hd.
  unfold try_finally, try_except, mbind, M_bind. cbn [set_timeout]. rewrite Ht.
  unfold mret, M_ret at 1. rewrite get_full_sessions_run.
  cbn [timeout requests api with_timeout].
  fold probe.
  destruct (api w (length (requests w)) probe d) as [records|e]; cbn.
  - by destruct w.
  - destruct (is_Exception e) eqn:He; cbn; rewrite ?He; by destruct w.
Qed.

(** The probe, when the date cannot be read: no request, and no data. *)
Lemma has_data_for_day_unreadable date_str w d :
  getenv_discovery_timeout w = (Returned d, w) →
  strptime_ymd date_str = None →
  has_data_for_day date_str w = (Returned false, w).
Proof.
  intros Hd Ht.
  unfold has_data_for_day, mbind, M_bind, get_timeout. rewrite Hd.
  unfold try_finally, try_except, mbind, M_bind. cbn [set_timeout]. rewrite Ht.
  cbn. by destruct w.
Qed.

Lemma with_requests_app rs1 rs2 w :
  with_requests rs2 (with_requests rs1 w) = with_requests (rs1 ++ rs2) w.
Proof. unfold with_requests; cbn. by rewrite app_assoc. Qed.

(** The sweep: one request per range, in order; what each returns is
    appended; an hour that fails adds nothing. *)
Lemma hourly_sweep_run ranges all_day_sessions w :
  (∀ (i : nat) h e,
     ranges !! i = Some h →
     api w (length (requests w) + i) (GetFullSessionsByDateRange h.1 h.2) (timeout w)
     = Fails e → is_Exception e = true) →
  hourly_sweep ranges all_day_sessions w
  = (Returned
       (all_day_sessions ++
        mjoin (imap (λ i h, hour_contribution
                              (api w (length (requests w) + i)
                                 (GetFullSessionsByDateRange h.1 h.2) (timeout w)))
                 ranges)),
     with_requests (sweep_requests ranges (timeout w)) w).
Proof.
  revert all_day_sessions w.
  induction ranges as [|[hour_start hour_end] rest IH]; intros acc w Hexc.
  - cbn. unfold mret, M_ret, with_requests. by rewrite !app_nil_r; destruct w.
  - cbn [hourly_sweep]. unfold mbind, M_bind, try_except at 1.
    unfold mbind, M_bind. rewrite get_full_sessions_run.
    pose proof (Hexc 0%nat (hour_start, hour_end)) as H0.
    rewrite Nat.add_0_r in H0. cbn [fst snd] in H0.
    set (w1 := with_request (GetFullSessionsByDateRange hour_start hour_end, timeout w) w).
    assert (∀ acc', hourly_sweep rest acc' w1
              = (Returned (acc' ++ mjoin (imap (λ i h, hour_contribution
                     (api w (length (requests w) + S i)
                        (GetFullSessionsByDateRange h.1 h.2) (timeout w))) rest)),
                 with_requests (sweep_requests ((hour_start, hour_end) :: rest) (timeout w)) w))
      as Hrest.
    { intros acc'. rewrite IH.
      - assert (length (requests w1) = S (length (requests w))) as Hlen.
        { subst w1. cbn. rewrite length_app. cbn. lia. }
        rewrite Hlen. subst w1. unfold with_request.
        rewrite with_requests_app. cbn [api timeout with_requests].
        do 4 f_equal. apply imap_ext. intros i h Hi. cbn.
        by rewrite Nat.add_succ_r.
      - intros i h e Hi. subst w1. cbn. rewrite length_app. cbn.
        replace (length (requests w) + 1 + i)%nat with (length (requests w) + S i)%nat by lia.
        by apply (Hexc (S i)). }
    rewrite imap_cons. cbn [mjoin list_join]. rewrite Nat.add_0_r. cbn [fst snd].
    destruct (api w (length (requests w))
                (GetFullSessionsByDateRange hour_start hour_end) (timeout w))
      as [[|s l]|e] eqn:Hr; cbn.
    + by rewrite Hrest.
    + rewrite Hrest. by rewrite <- app_assoc.
    + rewrite (H0 e) by done. cbn. by rewrite Hrest.
Qed.

Lemma getenv_discovery_timeout_with_requests rs w d :
  getenv_discovery_timeout w = (Returned d, w) →
  getenv_discovery_timeout (with_requests rs w) = (Returned d, with_requests rs w).
Proof.
  unfold getenv_discovery_timeout. cbn.
  destruct (discovery_timeout_env w); by intros [= <-].
Qed.

Lemma date_windows_hours_of_full_day day_start :
  length (date_windows day_start (day_start + 86399) Hour) = 24%nat.
Proof.
  pose proof (date_windows_length day_start (day_start + 86399) Hour) as Hlen.
  unfold window_count, delta_of, SECONDS_PER_HOUR in Hlen.
  replace (day_start + 86399 - day_start) with 86399 in Hlen by lia.
  change (86399 `div` 3600 + 1) with 24 in Hlen. lia.
Qed.

Lemma date_windows_instant start_date p :
  date_windows start_date start_date p = [(start_date, start_date)].
Proof.
  pose proof (delta_of_pos p).
  rewrite date_windows_step, decide_False by lia. f_equal. f_equal. lia.
Qed.

(** The day extractor after a failed full-day request, in terms of the probe. *)
Lemma extract_day_after_failure day_start day_end date_str w d e0 :
  api w (length (requests w)) (GetFullSessionsByDateRange day_start day_end) (timeout w)
  = Fails e0 →
  is_Exception e0 = true →
  getenv_discovery_timeout w = (Returned d, w) →
  let w1 := with_request (GetFullSessionsByDateRange day_start day_end, timeout w) w in
  extract_day_with_smart_fallback day_start day_end date_str w
  = match has_data_for_day date_str w1 with
    | (Returned true, w2) =>
        if decide (plan_fits day_start day_end Hour)
        then hourly_sweep (date_windows day_start day_end Hour) [] w2
        else (Raised OverflowError, w2)
    | (Returned false, w2) => (Returned [], w2)
    | (Raised e, w2) => (Raised e, w2)
    end.
Proof.
  intros Hfull He0 Hd w1.
  unfold extract_day_with_smart_fallback, mbind, M_bind.
  rewrite get_full_sessions_run, Hfull. cbn [full_sessions_outcome]. rewrite He0.
  fold w1. destruct (has_data_for_day date_str w1) as [[[|]|e] w2]; [|done..].
  cbn [negb]. unfold lift_outcome. rewrite get_date_ranges_run.
  by case_decide.
Qed.

(** C2 (as amended): after a failed full-day request,
    - when the probe returns nothing or fails, the day is empty and no hourly
      request is sent: the requests of the call are the full-day request and
      the probe (the probe only if the date string can be read);
    - when the probe returns data, the hourly periods of
      [day_start .. day_end] are requested in order, with the timeout of the
      client, and the day is what these requests return, in that order, a
      failed hour adding nothing;
    - when the probe returns data and every hourly period returns nothing,
      the day is empty and exactly one hourly request per hourly period has
      been sent: [(day_end - day_start) div 3600 + 1] of them, which is 24
      for a whole day and 1 for a period of one instant;
    - when the probe returns data and the last hourly period starts less than
      an hour before [datetime.max], [OverflowError] is raised after the
      probe and no hourly request is sent. *)
Theorem extract_day_with_smart_fallback_scripted day_start day_end date_str w d e0 :
  let n := length (requests w) in
  let full_day := GetFullSessionsByDateRange day_start day_end in
  let probe_of t := GetFullSessionsByDateRange t (replace_hms t 23 59 59) in
  let hours := date_windows day_start day_end Hour in
  let hour_response (i : nat) (h : period) :=
    api w (S (S n) + i) (GetFullSessionsByDateRange h.1 h.2) (timeout w) in
  api w n full_day (timeout w) = Fails e0 →
  is_Exception e0 = true →
  getenv_discovery_timeout w = (Returned d, w) →
  ((∀ t, strptime_ymd date_str = Some t →
      api w (S n) (probe_of t) d = Json []
      ∨ ∃ e1, api w (S n) (probe_of t) d = Fails e1 ∧ is_Exception e1 = true) →
   extract_day_with_smart_fallback day_start day_end date_str w
   = (Returned [],
      with_requests
        ((full_day, timeout w)
           :: match strptime_ymd date_str with
              | Some t => [(probe_of t, d)]
              | None => []
              end) w))
  ∧ (∀ t s l,
       strptime_ymd date_str = Some t →
       api w (S n) (probe_of t) d = Json (s :: l) →
       plan_fits day_start day_end Hour →
       (∀ (i : nat) h e, hours !! i = Some h → hour_response i h = Fails e →
                         is_Exception e = true) →
       extract_day_with_smart_fallback day_start day_end date_str w
       = (Returned (mjoin (imap (λ i h, hour_contribution (hour_response i h)) hours)),
          with_requests
            ((full_day, timeout w) :: (probe_of t, d) :: sweep_requests hours (timeout w)) w))
  ∧ (∀ t s l,
       strptime_ymd date_str = Some t →
       api w (S n) (probe_of t) d = Json (s :: l) →
       plan_fits day_start day_end Hour →
       (∀ (i : nat) h, hours !! i = Some h → hour_response i h = Json []) →
       extract_day_with_smart_fallback day_start day_end date_str w
       = (Returned [],
          with_requests
            ((full_day, timeout w) :: (probe_of t, d) :: sweep_requests hours (timeout w))
            w)
       ∧ (day_start ≤ day_end →
          Z.of_nat (length (sweep_requests hours (timeout w)))
          = (day_end - day_start) `div` 3600 + 1)
       ∧ (day_end = day_start + 86399 →
          length (sweep_requests hours (timeout w)) = 24%nat)
       ∧ (day_end = day_start →
          sweep_requests hours (timeout w)
          = [(GetFullSessionsByDateRange day_start day_start, timeout w)]))
  ∧ (∀ t s l,
       strptime_ymd date_str = Some t →
       api w (S n) (probe_of t) d = Json (s :: l) →
       ¬ plan_fits day_start day_end Hour →
       extract_day_with_smart_fallback day_start day_end date_str w
       = (Raised OverflowError,
          with_requests [(full_day, timeout w); (probe_of t, d)] w)).
Proof.
  intros n full_day probe_of hours hour_response Hfull He0 Hd.
  pose proof (extract_day_after_failure day_start day_end date_str w d e0 Hfull He0 Hd)
    as Hday. cbv zeta in Hday. fold full_day in Hday.
  set (w1 := with_request (full_day, timeout w) w) in *.
  assert (getenv_discovery_timeout w1 = (Returned d, w1)) as Hd1
    by (by apply getenv_discovery_timeout_with_requests).
  assert (length (requests w1) = S n) as Hn1.
  { subst w1. cbn. rewrite length_app. cbn. lia. }
  assert (∀ t s l,
            strptime_ymd date_str = Some t →
            api w (S n) (probe_of t) d = Json (s :: l) →
            has_data_for_day date_str w1
            = (Returned true, with_requests [(full_day, timeout w); (probe_of t, d)] w))
    as Hdata.
  { intros t s l Ht Hprobe.
    rewrite (has_data_for_day_run date_str w1 d t Hd1 Ht). cbv zeta.
    rewrite Hn1. change (api w1) with (api w). fold (probe_of t). rewrite Hprobe.
    cbn [full_sessions_outcome not_none_nonempty]. f_equal.
    subst w1. unfold with_request. by rewrite with_requests_app. }
  assert (∀ t s l,
            strptime_ymd date_str = Some t →
            api w (S n) (probe_of t) d = Json (s :: l) →
            plan_fits day_start day_end Hour →
            (∀ (i : nat) h e, hours !! i = Some h → hour_response i h = Fails e →
                              is_Exception e = true) →
            extract_day_with_smart_fallback day_start day_end date_str w
            = (Returned (mjoin (imap (λ i h, hour_contribution (hour_response i h)) hours)),
               with_requests
                 ((full_day, timeout w) :: (probe_of t, d)
                    :: sweep_requests hours (timeout w)) w)) as Hsweep.
  { intros t s l Ht Hprobe Hfit Hexc. rewrite Hday, (Hdata t s l Ht Hprobe).
    rewrite decide_True by done.
    set (w2 := with_requests [(full_day, timeout w); (probe_of t, d)] w).
    assert (length (requests w2) = S (S n)) as Hn2.
    { subst w2. cbn. rewrite !length_app. cbn. lia. }
    rewrite hourly_sweep_run.
    - rewrite Hn2. change (api w2) with (api w). change (timeout w2) with (timeout w).
      rewrite app_nil_l. f_equal.
      subst w2. by rewrite !with_requests_app.
    - intros i h e Hi. rewrite Hn2. apply Hexc. exact Hi. }
  split; [|split; [|split]].
  - intros Hprobe. rewrite Hday.
    destruct (strptime_ymd date_str) as [t|] eqn:Ht.
    + rewrite (has_data_for_day_run date_str w1 d t Hd1 Ht). cbv zeta.
      rewrite Hn1. change (api w1) with (api w). fold (probe_of t).
      assert (with_request (probe_of t, d) w1
              = with_requests [(full_day, timeout w); (probe_of t, d)] w) as ->.
      { subst w1. unfold with_request. by rewrite with_requests_app. }
      destruct (Hprobe t eq_refl) as [->|(e1 & -> & He1)]; [done|].
      cbn. by rewrite He1.
    + by rewrite (has_data_for_day_unreadable date_str w1 d Hd1 Ht).
  - exact Hsweep.
  - intros t s l Ht Hprobe Hfit Hempty.
    split; [|split; [|split]].
    + rewrite (Hsweep t s l Ht Hprobe Hfit).
      * f_equal. f_equal.
        assert (∀ (k : nat) (l' : list period),
                  (∀ (i : nat) h, l' !! i = Some h → hour_response (k + i)%nat h = Json []) →
                  mjoin (imap (λ i h, hour_contribution (hour_response (k + i)%nat h)) l') = [])
          as Hnil.
        { intros k l'. revert k. induction l' as [|h l' IH]; intros k Hl'; [done|].
          rewrite imap_cons. cbn [mjoin list_join].
          rewrite (Hl' 0%nat h eq_refl). cbn.
          rewrite <- (IH (S k)).
          - f_equal. apply imap_ext. intros i h' _. cbn. do 2 f_equal. lia.
          - intros i h' Hi. replace (S k + i)%nat with (k + S i)%nat by lia.
            by apply Hl'. }
        apply (Hnil 0%nat hours). intros i h Hi. cbn. by apply Hempty.
      * intros i h e Hi Hf. rewrite (Hempty i h Hi) in Hf. discriminate.
    + intros Hle. unfold sweep_requests. rewrite length_fmap.
      subst hours. by rewrite date_windows_length.
    + intros ->. unfold sweep_requests. rewrite length_fmap.
      apply date_windows_hours_of_full_day.
    + intros ->. subst hours. by rewrite date_windows_instant.
  - intros t s l Ht Hprobe Hover. rewrite Hday, (Hdata t s l Ht Hprobe).
    by rewrite decide_False.
Qed.

End ExtractionFacts.

Lemma scripted_no_interrupt script fallback n req t e :
  Forall (λ r, ∀ e, r = Fails e → is_Exception e = true) (fallback :: script) →
  scripted script fallback n req t = Fails e → is_Exception e = true.
Proof.
  intros Hall%Forall_cons. destruct Hall as [Hf Hs]. unfold scripted.
  destruct (script !! n) as [r|] eqn:Hn; cbn; [|apply Hf].
  eapply Forall_lookup_1 in Hs; [|done]. apply Hs.
Qed.

Lemma mar_2_hours_fit : plan_fits mar_2 (mar_2 + 86399) Hour.
Proof. apply plan_fits_end. by vm_compute. Qed.

Lemma extract_day_with_smart_fallback_scripted_witness :
  (extract_day_with_smart_fallback parse_ymd mar_2 (mar_2 + 86399) "2024-03-02"
     (world_of (scripted no_data_script (Json [session_b])) fresh_run_dir)).1
  = Returned []
  ∧ (extract_day_with_smart_fallback parse_ymd mar_2 (mar_2 + 86399) "2024-03-02"
       (world_of (scripted sweep_script (Json [])) fresh_run_dir)).1
    = Returned [session_a; session_b; session_a']
  ∧ length (sweep_requests (date_windows mar_2 (mar_2 + 86399) Hour) 60) = 24%nat
  ∧ extract_day_with_smart_fallback parse_ymd mar_2 (mar_2 + 86399) "2024-03-02"
      (world_of (scripted empty_hours_script (Json [])) fresh_run_dir)
    = (Returned [],
       with_requests
         ((GetFullSessionsByDateRange mar_2 (mar_2 + 86399), 60)
            :: (GetFullSessionsByDateRange mar_2 (mar_2 + 86399), 10)
            :: sweep_requests (date_windows mar_2 (mar_2 + 86399) Hour) 60)
         (world_of (scripted empty_hours_script (Json [])) fresh_run_dir)).
Proof.
  split; [|split].
  - pose proof (extract_day_with_smart_fallback_scripted parse_ymd
                  mar_2 (mar_2 + 86399) "2024-03-02"
                  (world_of (scripted no_data_script (Json [session_b])) fresh_run_dir)
                  10 RequestError eq_refl eq_refl eq_refl) as (Hno & _ & _).
    refine (f_equal fst (Hno _)).
    intros t Ht. left. reflexivity.
  - pose proof (extract_day_with_smart_fallback_scripted parse_ymd
                  mar_2 (mar_2 + 86399) "2024-03-02"
                  (world_of (scripted sweep_script (Json [])) fresh_run_dir)
                  10 RequestError eq_refl eq_refl eq_refl) as (_ & Hsweep & _).
    assert (parse_ymd "2024-03-02" = Some mar_2) as Hdate by (vm_compute; reflexivity).
    refine (eq_trans (f_equal fst (Hsweep mar_2 session_a [] Hdate eq_refl
                                     mar_2_hours_fit _)) _).
    + intros i h e _. apply scripted_no_interrupt.
      unfold sweep_script. cbn. repeat constructor; by intros e' [= <-].
    + vm_compute. reflexivity.
  - pose proof (extract_day_with_smart_fallback_scripted parse_ymd
                  mar_2 (mar_2 + 86399) "2024-03-02"
                  (world_of (scripted empty_hours_script (Json [])) fresh_run_dir)
                  10 RequestError eq_refl eq_refl eq_refl) as (_ & _ & Hempty & _).
    assert (parse_ymd "2024-03-02" = Some mar_2) as Hdate by (vm_compute; reflexivity).
    destruct (Hempty mar_2 session_a [] Hdate eq_refl mar_2_hours_fit)
      as (Hrun & _ & Hcount & _).
    { intros i h _. reflexivity. }
    split; [exact (Hcount eq_refl)|exact Hrun].
Defined.

(** C2 (as stated) fails on the period that a run started from the command
    line plans for its last date, which is the one instant 00:00:00 of that
    date: for the range 2024-03-01 .. 2024-03-03 the last period is
    2024-03-03T00:00:00 .. 2024-03-03T00:00:00. When its full-day request
    fails, the probe, which asks for the whole date, finds data and every
    hourly request returns nothing, one hourly request is sent, not
    twenty-four. *)
Lemma extract_day_one_hourly_request_counterexample :
  let w := world_of (scripted empty_hours_script (Json [])) fresh_run_dir in
  main_dates parse_ymd ["extract_statsports_data.py"; "2024-03-01"; "2024-03-03"]%string
  = inr (mar_1, mar_3)
  ∧ get_date_ranges mar_1 mar_3 Day
    = Returned [(mar_1, mar_1 + 86399); (mar_2, mar_2 + 86399); (mar_3, mar_3)]
  ∧ strftime_ymd mar_3 = "2024-03-03"%string
  ∧ extract_day_with_smart_fallback parse_ymd mar_3 mar_3 "2024-03-03" w
    = (Returned [],
       with_requests
         [(GetFullSessionsByDateRange mar_3 mar_3, 60);
          (GetFullSessionsByDateRange mar_3 (mar_3 + 86399), 10);
          (GetFullSessionsByDateRange mar_3 mar_3, 60)] w).
Proof.
  intros w.
  split; [by vm_compute|]. split; [by rewrite get_date_ranges_run|].
  split; [by vm_compute|].
  pose proof (extract_day_after_failure parse_ymd mar_3 mar_3 "2024-03-03" w 10 RequestError
                eq_refl eq_refl eq_refl) as Hday.
  cbv zeta in Hday. rewrite Hday. clear Hday.
  assert (parse_ymd "2024-03-03" = Some mar_3) as Hdate by (vm_compute; reflexivity).
  set (w1 := with_request (GetFullSessionsByDateRange mar_3 mar_3, timeout w) w).
  assert (getenv_discovery_timeout w1 = (Returned 10, w1)) as Hd by reflexivity.
  rewrite (has_data_for_day_run parse_ymd "2024-03-03" w1 10 mar_3 Hd Hdate).
  cbv zeta. change (api w1 _ _ 10) with (Json [session_a]).
  cbn [full_sessions_outcome not_none_nonempty].
  rewrite decide_True by (apply plan_fits_end; by vm_compute).
  rewrite date_windows_instant. cbn [hourly_sweep].
  unfold mbind, M_bind, try_except. rewrite get_full_sessions_run.
  done.
Qed.

(** ** Loading the progress of a run *)

Section Load.

Lemma eq_str_dict_get d key s :
  eq_str (dict_get d key JNull) s = true ↔ dict_lookup d key = Some (JStr s).
Proof.
  unfold dict_get. destruct (dict_lookup d key) as [[| | |s'| |]|]; cbn;
    rewrite ?bool_decide_eq_true; naive_solver.
Qed.

Lemma load_logs_empty dir : load_logs ∅ dir = (∅, [], ∅).
Proof.
  unfold load_logs.
  destruct (progress_sessions dir), (progress_players dir);
    by rewrite ?decide_False by (by intros []).
Qed.

Lemma load_incremental_progress_no_checkpoint range_start range_end dir :
  checkpoint_file dir = NoFile ∨ checkpoint_file dir = NotJson →
  load_incremental_progress range_start range_end dir = Returned (∅, [], ∅).
Proof.
  unfold load_incremental_progress.
  intros [->| ->]; cbn [_safe_read_json truthy]; by rewrite load_logs_empty.
Qed.

(** C3: when the checkpoint is a JSON object that does not record exactly
    the range of the invocation (as [%Y-%m-%d] strings), or when there is no
    checkpoint file or no readable one, [load_incremental_progress] returns
    empty processed dates, no session and no player details, whatever the
    progress logs hold, and it does not raise. *)
Theorem load_incremental_progress_other_range range_start range_end dir :
  (checkpoint_file dir = NoFile
   ∨ checkpoint_file dir = NotJson
   ∨ ∃ d, checkpoint_file dir = JsonDoc (JObj d)
          ∧ ¬ (dict_lookup d "range_start" = Some (JStr (strftime_ymd range_start))
               ∧ dict_lookup d "range_end" = Some (JStr (strftime_ymd range_end)))) →
  load_incremental_progress range_start range_end dir = Returned (∅, [], ∅).
Proof.
  intros [Hno|[Hno|(d & Hdoc & Hrange)]];
    [apply load_incremental_progress_no_checkpoint; by left
    |apply load_incremental_progress_no_checkpoint; by right|].
  unfold load_incremental_progress. rewrite Hdoc. cbn [_safe_read_json truthy].
  destruct d as [|kv d]; [by rewrite load_logs_empty|].
  unfold py_get, mbind, outcome_bind, mret, outcome_ret.
  destruct (eq_str (dict_get (kv :: d) "range_start" JNull) (strftime_ymd range_start))
    eqn:Hs; [|done].
  destruct (eq_str (dict_get (kv :: d) "range_end" JNull) (strftime_ymd range_end))
    eqn:He; [|done].
  apply eq_str_dict_get in Hs, He. by destruct Hrange.
Qed.

Lemma string_length_app (s1 s2 : string) :
  String.length (s1 +:+ s2) = (String.length s1 + String.length s2)%nat.
Proof. induction s1 as [|c s1 IH]; [done|]. simpl. by f_equal. Qed.

Lemma strftime_ymd_length t : String.length (strftime_ymd t) = 10%nat.
Proof. unfold strftime_ymd. by destruct (civil_from_days (date_of t)) as [[y m] d]. Qed.

(** The key of a log line is never the [%Y-%m-%d] form of a date. *)
Lemma date_key_full_not_date t t' : strftime_ymd t +:+ "T00:00:00Z" ≠ strftime_ymd t'.
Proof.
  intros Heq. apply (f_equal String.length) in Heq.
  rewrite string_length_app, !strftime_ymd_length in Heq. discriminate.
Qed.

Lemma py_set_strings (l : list string) :
  py_set (JArr (JStr <$> l)) = Returned (list_to_set (KStr <$> l)).
Proof.
  unfold py_set. cbn [py_iter].
  assert (mapM hashable (JStr <$> l) = Some (KStr <$> l)) as ->; [|done].
  induction l as [|s l IH]; [done|]. cbn [fmap list_fmap mapM hashable].
  by rewrite IH.
Qed.

Lemma not_date_key_in_dates t (days : list datetime) :
  KStr (strftime_ymd t +:+ "T00:00:00Z")
  ∉@{gset pykey} list_to_set (KStr <$> (strftime_ymd <$> days)).
Proof.
  rewrite elem_of_list_to_set, <- list_fmap_compose.
  intros (t' & Heq & _)%list_elem_of_fmap. unfold compose in Heq.
  assert (strftime_ymd t +:+ "T00:00:00Z" = strftime_ymd t') as Heq' by congruence.
  by apply date_key_full_not_date in Heq'.
Qed.

(** The lines that [append_day_progress] leaves are not selected by a set
    of [%Y-%m-%d] dates. *)
Lemma read_sessions_written_lines (days : list datetime) lines all_sessions :
  Forall (λ line, is_document line = false
                  ∨ ∃ t sessions,
                      line = JsonLine (sessions_entry (strftime_ymd t +:+ "T00:00:00Z")
                                         sessions))
    lines →
  read_sessions (list_to_set (KStr <$> (strftime_ymd <$> days))) lines all_sessions
  = all_sessions.
Proof.
  induction 1 as [|line lines [Hno|(t & sessions & ->)] _ IH]; [done|..].
  - by destruct line.
  - cbn [read_sessions]. unfold sessions_of_line, sessions_entry, dict_get.
    cbn [dict_lookup]. rewrite decide_True by done. cbn [hashable].
    by rewrite decide_False by apply not_date_key_in_dates.
Qed.

Lemma read_players_written_lines (days : list datetime) lines all_player_details :
  Forall (λ line, is_document line = false
                  ∨ ∃ t players,
                      line = JsonLine (players_entry (strftime_ymd t +:+ "T00:00:00Z")
                                         players))
    lines →
  read_players (list_to_set (KStr <$> (strftime_ymd <$> days))) lines all_player_details
  = all_player_details.
Proof.
  induction 1 as [|line lines [Hno|(t & players & ->)] _ IH]; [done|..].
  - by destruct line.
  - cbn [read_players]. unfold players_of_line, players_entry, dict_get.
    cbn [dict_lookup]. rewrite decide_True by done. cbn [hashable].
    by rewrite decide_False by apply not_date_key_in_dates.
Qed.

Lemma checkpoint_data_fields range_start range_end dates total now :
  let data := checkpoint_data range_start range_end dates total now in
  truthy data = true
  ∧ py_get data "range_start" JNull = Returned (JStr (strftime_ymd range_start))
  ∧ py_get data "range_end" JNull = Returned (JStr (strftime_ymd range_end))
  ∧ py_get data "processed_dates" (JArr []) = Returned (JArr (JStr <$> dates)).
Proof. done. Qed.

(** Whatever the dates and the sessions: from a checkpoint and logs as the
    loop over the days writes them, [load_incremental_progress] returns the
    processed dates and nothing else. *)
Lemma load_incremental_progress_written_dir range_start range_end
    (days : list datetime) total now dir :
  checkpoint_file dir
  = JsonDoc (checkpoint_data range_start range_end (strftime_ymd <$> days) total now) →
  written_logs dir →
  load_incremental_progress range_start range_end dir
  = Returned (list_to_set (KStr <$> (strftime_ymd <$> days)), [], ∅).
Proof.
  intros Hdoc [Hsessions Hplayers].
  unfold load_incremental_progress. rewrite Hdoc.
  cbn [_safe_read_json].
  destruct (checkpoint_data_fields range_start range_end (strftime_ymd <$> days) total now)
    as (-> & -> & -> & ->).
  unfold mbind, outcome_bind, mret, outcome_ret.
  cbn [eq_str]. rewrite !bool_decide_eq_true_2 by done.
  rewrite py_set_strings. unfold load_logs. do 2 f_equal.
  - f_equal. destruct (progress_sessions dir) as [lines|]; [|done].
    case_decide; [|done]. by apply read_sessions_written_lines.
  - destruct (progress_players dir) as [lines|]; [|done].
    case_decide; [|done]. by apply read_players_written_lines.
Qed.

End Load.

Lemma load_incremental_progress_other_range_witness :
  load_incremental_progress 1706745600 1707091200
    (with_checkpoint
       (JsonDoc (checkpoint_data 1704067200 1704412800 ["2024-01-01"; "2024-01-02"] 2
                   "2024-01-03T10:00:00"))
       interrupted_dir)
  = Returned (∅, [], ∅).
Proof.
  apply load_incremental_progress_other_range.
  right. right. eexists. split; [reflexivity|].
  intros [Hs _]. vm_compute in Hs. discriminate.
Defined.

(** What the interrupted run leaves in its directory: a checkpoint for the
    first two dates, keyed by [%Y-%m-%d], and three lines in each log, keyed
    by the date followed by [T00:00:00Z]. *)
Lemma interrupted_dir_content :
  checkpoint_file interrupted_dir
  = JsonDoc (checkpoint_data mar_1 mar_3 ["2024-03-01"; "2024-03-02"] 2 "2024-03-04T09:00:00")
  ∧ progress_sessions interrupted_dir
    = Some [JsonLine (sessions_entry "2024-03-01T00:00:00Z" [session_on "2024-03-01T00:00:00Z" 7]);
            JsonLine (sessions_entry "2024-03-02T00:00:00Z" [session_on "2024-03-02T00:00:00Z" 7]);
            JsonLine (sessions_entry "2024-03-03T00:00:00Z" [session_on "2024-03-03T00:00:00Z" 7])]
  ∧ progress_players interrupted_dir
    = Some [JsonLine (players_entry "2024-03-01T00:00:00Z" [player_10]);
            JsonLine (players_entry "2024-03-02T00:00:00Z" [player_10]);
            JsonLine (players_entry "2024-03-03T00:00:00Z" [player_10])].
Proof. repeat split; vm_compute; reflexivity. Qed.

(** C1 fails on the directories that the program writes: resumed on the
    directory of the interrupted run, with the same range,
    [load_incremental_progress] returns the two processed dates and none of
    their sessions or player details, because the lines of the logs are keyed
    by [date + "T00:00:00Z"] and looked up in a set of [%Y-%m-%d] dates. *)
Theorem load_incremental_progress_loses_sessions :
  load_incremental_progress mar_1 mar_3 interrupted_dir
  = Returned ({[KStr "2024-03-01"; KStr "2024-03-02"]}, [], ∅).
Proof. vm_compute. reflexivity. Qed.

(** ** Writing the checkpoint *)

Section Checkpoint.

Lemma update_checkpoint_run range_start range_end dates total w :
  let data := checkpoint_data range_start range_end dates total (utcnow w) in
  update_checkpoint range_start range_end dates total w
  = (Returned tt,
     if can_write (files w) CHECKPOINT_FILE_NAME then
       if can_complete (files w) CHECKPOINT_FILE_NAME
       then with_files (with_checkpoint (JsonDoc data) (files w))
              [Truncated CHECKPOINT_FILE_NAME; Written CHECKPOINT_FILE_NAME data] w
       else with_files (with_checkpoint NotJson (files w))
              [Truncated CHECKPOINT_FILE_NAME; WriteFailed CHECKPOINT_FILE_NAME data] w
     else with_files (files w) [OpenFailed CHECKPOINT_FILE_NAME (Some data)] w).
Proof.
  intros data.
  unfold update_checkpoint, try_except, write_checkpoint, mbind, M_bind,
    open_checkpoint, dump_checkpoint.
  fold data.
  destruct (can_write (files w) CHECKPOINT_FILE_NAME); [|done].
  cbn [files with_files with_checkpoint can_complete].
  destruct (can_complete (files w) CHECKPOINT_FILE_NAME);
    cbn [is_Exception mret M_ret]; unfold with_files; cbn; by rewrite <- app_assoc.
Qed.

(** C7 (as amended): [update_checkpoint] writes the checkpoint in place. It
    opens [checkpoint.json] for writing, which cuts the file to length zero,
    and then writes the new document into it: every event of the call is
    about [checkpoint.json], there is no other file and no rename, and the
    logs are untouched. From the moment the file is open the old document is
    gone, the file is not a JSON document, and a reader finds no checkpoint
    at all ([load_incremental_progress] returns the empty state); the rest of
    the call starts from that state. When the write completes, the call
    returns with the whole new document in the file. When the write fails,
    the exception is caught and the call returns with the file cut: neither
    the old document nor the new one. When the file cannot be opened, the
    directory is left as it was. The call does not raise in any case. *)
Theorem update_checkpoint_in_place range_start range_end dates total w :
  let data := checkpoint_data range_start range_end dates total (utcnow w) in
  let w1 := (open_checkpoint data w).2 in
  let w' := (update_checkpoint range_start range_end dates total w).2 in
  (update_checkpoint range_start range_end dates total w).1 = Returned tt
  ∧ progress_sessions (files w') = progress_sessions (files w)
  ∧ progress_players (files w') = progress_players (files w)
  ∧ (∃ evs, io_trace w' = io_trace w ++ evs
            ∧ Forall (λ ev, event_file ev = CHECKPOINT_FILE_NAME) evs)
  ∧ (can_write (files w) CHECKPOINT_FILE_NAME = false → files w' = files w)
  ∧ (can_write (files w) CHECKPOINT_FILE_NAME = true →
       checkpoint_file (files w1) = NotJson
       ∧ io_trace w1 = io_trace w ++ [Truncated CHECKPOINT_FILE_NAME]
       ∧ w' = (try_except (dump_checkpoint data) (λ _, mret tt) w1).2
       ∧ (∀ start_date end_date,
            load_incremental_progress start_date end_date (files w1) = Returned (∅, [], ∅))
       ∧ (can_complete (files w) CHECKPOINT_FILE_NAME = true →
            files w' = with_checkpoint (JsonDoc data) (files w))
       ∧ (can_complete (files w) CHECKPOINT_FILE_NAME = false →
            files w' = with_checkpoint NotJson (files w)
            ∧ ∀ start_date end_date,
                load_incremental_progress start_date end_date (files w')
                = Returned (∅, [], ∅))).
Proof.
  intros data w1 w'. subst w1 w'. rewrite update_checkpoint_run. fold data.
  unfold open_checkpoint, try_except, dump_checkpoint.
  destruct (can_write (files w) CHECKPOINT_FILE_NAME) eqn:Hw; cbn [fst snd].
  - cbn [files with_files can_complete with_checkpoint].
    destruct (can_complete (files w) CHECKPOINT_FILE_NAME) eqn:Hc;
      cbn [fst snd is_Exception mret M_ret].
    + split; [done|]. split; [done|]. split; [done|].
      split; [eexists; split; [done|]; by repeat constructor|].
      split; [done|]. intros _.
      split; [done|]. split; [done|].
      split; [unfold with_files; cbn; by rewrite <- app_assoc|].
      split; [intros; apply load_incremental_progress_no_checkpoint; by right|].
      split; [done|]. done.
    + split; [done|]. split; [done|]. split; [done|].
      split; [eexists; split; [done|]; by repeat constructor|].
      split; [done|]. intros _.
      split; [done|]. split; [done|].
      split; [unfold with_files; cbn; by rewrite <- app_assoc|].
      split; [intros; apply load_incremental_progress_no_checkpoint; by right|].
      split; [done|]. intros _. split; [done|].
      intros; apply load_incremental_progress_no_checkpoint; by right.
  - split; [done|]. split; [done|]. split; [done|].
    split; [eexists; split; [done|]; by repeat constructor|].
    split; [done|]. done.
Qed.

End Checkpoint.

Lemma update_checkpoint_in_place_witness :
  let w := world_of one_session_a_day interrupted_dir in
  can_write (files w) CHECKPOINT_FILE_NAME = true
  ∧ can_complete (files w) CHECKPOINT_FILE_NAME = true
  ∧ files (update_checkpoint mar_1 mar_3 ["2024-03-01"; "2024-03-02"; "2024-03-03"] 3 w).2
    = with_checkpoint
        (JsonDoc (checkpoint_data mar_1 mar_3 ["2024-03-01"; "2024-03-02"; "2024-03-03"] 3
                    (utcnow w)))
        (files w).
Proof.
  intros w. split; [reflexivity|]. split; [reflexivity|].
  destruct (update_checkpoint_in_place mar_1 mar_3
              ["2024-03-01"; "2024-03-02"; "2024-03-03"]%string 3 w)
    as (_ & _ & _ & _ & _ & Hok).
  destruct (Hok eq_refl) as (_ & _ & _ & _ & Hfiles & _). exact (Hfiles eq_refl).
Defined.

(** C7 (as stated) fails: there is no temporary file, and the old document
    is destroyed before the new one is written. On a disk without room, the
    call that is to replace the checkpoint of the interrupted run opens the
    file, fails to write, and returns: the file then holds neither the old
    document nor the new one, and the two dates that a resumed run would
    have loaded before the call are lost to it after the call. Where the
    write completes, the call passes through the same state. *)
Lemma update_checkpoint_not_atomic_counterexample :
  let old := checkpoint_data mar_1 mar_3 ["2024-03-01"; "2024-03-02"] 2 "2024-03-04T09:00:00" in
  let new := checkpoint_data mar_1 mar_3 ["2024-03-01"; "2024-03-02"; "2024-03-03"] 3
               "2024-03-04T09:00:00" in
  let w := world_of one_session_a_day full_disk_dir in
  let call := update_checkpoint mar_1 mar_3 ["2024-03-01"; "2024-03-02"; "2024-03-03"] 3 in
  checkpoint_file (files w) = JsonDoc old
  ∧ load_incremental_progress mar_1 mar_3 (files w)
    = Returned ({[KStr "2024-03-01"; KStr "2024-03-02"]}, [], ∅)
  ∧ (call w).1 = Returned tt
  ∧ io_trace (call w).2
    = [Truncated CHECKPOINT_FILE_NAME; WriteFailed CHECKPOINT_FILE_NAME new]
  ∧ checkpoint_file (files (call w).2) = NotJson
  ∧ checkpoint_file (files (call w).2) ≠ JsonDoc old
  ∧ checkpoint_file (files (call w).2) ≠ JsonDoc new
  ∧ load_incremental_progress mar_1 mar_3 (files (call w).2) = Returned (∅, [], ∅)
  ∧ checkpoint_file
      (files (open_checkpoint new (world_of one_session_a_day interrupted_dir)).2)
    = NotJson.
Proof.
  intros old new w call.
  assert (checkpoint_file (files (call w).2) = NotJson) as Hcut by (vm_compute; reflexivity).
  split; [vm_compute; reflexivity|]. split; [vm_compute; reflexivity|].
  split; [vm_compute; reflexivity|]. split; [vm_compute; reflexivity|].
  split; [exact Hcut|]. rewrite Hcut.
  split; [discriminate|]. split; [discriminate|].
  split; [|vm_compute; reflexivity].
  apply load_incremental_progress_no_checkpoint. by right.
Qed.

(** ** The run directory during a run *)

Section Store.

Lemma same_store_refl w : same_store w w.
Proof. done. Qed.

Lemma same_store_trans w1 w2 w3 : same_store w1 w2 → same_store w2 w3 → same_store w1 w3.
Proof. unfold same_store. intros (-> & -> & ->) (-> & -> & ->). done. Qed.

Lemma keeps_store_ret {A} (a : A) : keeps_store (mret a).
Proof. intros w. apply same_store_refl. Qed.

Lemma keeps_store_raise {A} e : keeps_store (raise (A := A) e).
Proof. intros w. apply same_store_refl. Qed.

Lemma keeps_store_lift {A} (o : outcome A) : keeps_store (lift_outcome o).
Proof. intros w. apply same_store_refl. Qed.

Lemma keeps_store_bind {A B} (m : M A) (f : A → M B) :
  keeps_store m → (∀ a, keeps_store (f a)) → keeps_store (m ≫= f).
Proof.
  intros Hm Hf w. unfold mbind, M_bind. specialize (Hm w).
  destruct (m w) as [[a|e] w1]; cbn in *; [|done].
  eapply same_store_trans; [done|apply Hf].
Qed.

Lemma keeps_store_try_except {A} (body : M A) handler :
  keeps_store body → (∀ e, keeps_store (handler e)) → keeps_store (try_except body handler).
Proof.
  intros Hm Hh w. unfold try_except. specialize (Hm w).
  destruct (body w) as [[a|e] w1]; cbn in *; [done|].
  destruct (is_Exception e); [|done].
  eapply same_store_trans; [done|apply Hh].
Qed.

Lemma keeps_store_try_finally {A} (body : M A) final :
  keeps_store body → keeps_store final → keeps_store (try_finally body final).
Proof.
  intros Hm Hf w. unfold try_finally. specialize (Hm w).
  destruct (body w) as [o w1]. specialize (Hf w1).
  destruct (final w1) as [[[]|e] w2]; cbn in *; by eapply same_store_trans.
Qed.

Lemma keeps_store_post req : keeps_store (post req).
Proof. intros w. unfold post. by destruct (api w _ _ _). Qed.

Lemma keeps_store_get_full_sessions start_date end_date :
  keeps_store (get_full_sessions start_date end_date).
Proof.
  apply keeps_store_try_except; [|intros; apply keeps_store_ret].
  apply keeps_store_bind; [apply keeps_store_post|intros; apply keeps_store_ret].
Qed.

Lemma keeps_store_get_player_details session_date :
  keeps_store (get_player_details session_date).
Proof.
  apply keeps_store_try_except; [apply keeps_store_post|intros; apply keeps_store_ret].
Qed.

Lemma keeps_store_set_timeout t : keeps_store (set_timeout t).
Proof. done. Qed.

Lemma keeps_store_has_data_for_day strptime_ymd date_str :
  keeps_store (has_data_for_day strptime_ymd date_str).
Proof.
  apply keeps_store_bind; [done|intros original_timeout].
  apply keeps_store_bind.
  { intros w. unfold getenv_discovery_timeout. by destruct (discovery_timeout_env w). }
  intros d. apply keeps_store_try_finally; [|apply keeps_store_set_timeout].
  apply keeps_store_try_except; [|intros; apply keeps_store_ret].
  apply keeps_store_bind; [apply keeps_store_set_timeout|intros _].
  apply keeps_store_bind.
  { destruct (strptime_ymd date_str); [apply keeps_store_ret|apply keeps_store_raise]. }
  intros day_start.
  apply keeps_store_bind; [apply keeps_store_get_full_sessions|intros; apply keeps_store_ret].
Qed.

Lemma keeps_store_hourly_sweep ranges all_day_sessions :
  keeps_store (hourly_sweep ranges all_day_sessions).
Proof.
  revert all_day_sessions.
  induction ranges as [|[hour_start hour_end] rest IH]; intros acc; [apply keeps_store_ret|].
  cbn [hourly_sweep]. apply keeps_store_bind; [|intros; apply IH].
  apply keeps_store_try_except; [|intros; apply keeps_store_ret].
  apply keeps_store_bind; [apply keeps_store_get_full_sessions|intros; apply keeps_store_ret].
Qed.

Lemma keeps_store_extract_day strptime_ymd day_start day_end date_str :
  keeps_store (extract_day_with_smart_fallback strptime_ymd day_start day_end date_str).
Proof.
  apply keeps_store_bind; [apply keeps_store_get_full_sessions|].
  intros [[|s l]|]; [apply keeps_store_ret..|].
  apply keeps_store_bind; [apply keeps_store_has_data_for_day|].
  intros [|]; cbn; [|apply keeps_store_ret].
  apply keeps_store_bind; [apply keeps_store_lift|intros; apply keeps_store_hourly_sweep].
Qed.

End Store.

Section Run.

Context (dumps_sort_keys : json → string).
Context (strptime_ymd : string → option datetime).

Local Abbreviation process_day := (process_day dumps_sort_keys strptime_ymd).
Local Abbreviation process_days := (process_days dumps_sort_keys strptime_ymd).
Local Abbreviation extract_all_data_directly :=
  (extract_all_data_directly dumps_sort_keys strptime_ymd).

(** *** What the appends leave *)

Lemma with_log_frame name change dir :
  can_write (with_log name change dir) = can_write dir
  ∧ can_complete (with_log name change dir) = can_complete dir
  ∧ checkpoint_file (with_log name change dir) = checkpoint_file dir.
Proof. unfold with_log. by repeat case_decide. Qed.

Lemma appended_dir_frame name line dir :
  can_write (appended_dir name line dir) = can_write dir
  ∧ can_complete (appended_dir name line dir) = can_complete dir
  ∧ checkpoint_file (appended_dir name line dir) = checkpoint_file dir.
Proof.
  unfold appended_dir, with_line, with_cut_line.
  destruct (can_write dir name); [|done].
  destruct (can_complete dir name); apply with_log_frame.
Qed.

Lemma append_line_run name line w :
  append_line name line w
  = (if can_write (files w) name && can_complete (files w) name
     then Returned tt else Raised OSError,
     with_files (appended_dir name line (files w)) [append_event name line (files w)] w).
Proof.
  unfold append_line, appended_dir, append_event.
  destruct (can_write (files w) name); [|done].
  by destruct (can_complete (files w) name).
Qed.

Lemma append_event_attempt name line dir : append_attempt name line (append_event name line dir).
Proof.
  unfold append_attempt, append_event.
  destruct (can_write dir name); [|by right; left].
  destruct (can_complete dir name); [by left|by right; right].
Qed.

Lemma append_event_appended name line dir :
  can_write dir name = true → can_complete dir name = true →
  append_event name line dir = Appended name line.
Proof. unfold append_event. by intros -> ->. Qed.

Lemma append_event_not_marked name line dir :
  name ≠ CHECKPOINT_FILE_NAME → marked_dates (append_event name line dir) = None.
Proof.
  intros Hname. unfold append_event.
  destruct (can_write dir name); [|done].
  destruct (can_complete dir name); done.
Qed.

(** What [append_day_progress] leaves: for each log, what [append_line]
    leaves of it, and its event in the trace. The call returns in every
    case. *)
Lemma append_day_progress_run date_key sessions players w :
  let line_s := sessions_entry date_key sessions in
  let line_p := players_entry date_key players in
  let dir1 := appended_dir PROGRESS_SESSIONS_NAME line_s (files w) in
  let dir2 := appended_dir PROGRESS_PLAYERS_NAME line_p dir1 in
  append_day_progress date_key sessions players w
  = (Returned tt,
     with_files dir2
       [append_event PROGRESS_SESSIONS_NAME line_s (files w);
        append_event PROGRESS_PLAYERS_NAME line_p (files w)] w).
Proof.
  intros line_s line_p dir1 dir2.
  unfold append_day_progress, mbind, M_bind, try_except.
  fold line_s line_p. rewrite append_line_run.
  assert (append_event PROGRESS_PLAYERS_NAME line_p dir1
          = append_event PROGRESS_PLAYERS_NAME line_p (files w)) as Hev.
  { unfold append_event. subst dir1.
    by destruct (appended_dir_frame PROGRESS_SESSIONS_NAME line_s (files w)) as (-> & -> & _). }
  destruct (can_write (files w) PROGRESS_SESSIONS_NAME
            && can_complete (files w) PROGRESS_SESSIONS_NAME);
    cbn [is_Exception mret M_ret]; rewrite append_line_run;
    cbn [files with_files]; fold dir1 dir2; rewrite Hev;
    destruct (can_write dir1 PROGRESS_PLAYERS_NAME && can_complete dir1 PROGRESS_PLAYERS_NAME);
    cbn [is_Exception mret M_ret]; unfold with_files; cbn; by rewrite <- app_assoc.
Qed.

(** The two events are the attempts of [append_day_progress] for
    [date_key], and the lines written where [dir] lets the logs be
    written. *)
Definition day_attempts_of (dir : run_dir) (date_key : string) (a b : io_event) : Prop :=
  sessions_attempt date_key a
  ∧ players_attempt date_key b
  ∧ (can_write dir PROGRESS_SESSIONS_NAME = true →
     can_complete dir PROGRESS_SESSIONS_NAME = true →
     ∃ sessions, a = Appended PROGRESS_SESSIONS_NAME (sessions_entry date_key sessions))
  ∧ (can_write dir PROGRESS_PLAYERS_NAME = true →
     can_complete dir PROGRESS_PLAYERS_NAME = true →
     ∃ players, b = Appended PROGRESS_PLAYERS_NAME (players_entry date_key players)).

Lemma day_attempts_of_ext dir dir' date_key a b :
  can_write dir' = can_write dir → can_complete dir' = can_complete dir →
  day_attempts_of dir' date_key a b → day_attempts_of dir date_key a b.
Proof. unfold day_attempts_of. by intros -> ->. Qed.

Lemma append_events_attempts dir date_key sessions players :
  day_attempts_of dir date_key
    (append_event PROGRESS_SESSIONS_NAME (sessions_entry date_key sessions) dir)
    (append_event PROGRESS_PLAYERS_NAME (players_entry date_key players) dir).
Proof.
  split; [eexists; apply append_event_attempt|].
  split; [eexists; apply append_event_attempt|].
  split; intros Hw Hc; eexists; by apply append_event_appended.
Qed.

(** The three ways a day of the loop can go: the date is skipped; an
    exception leaves the loop before anything is written; or the logs are
    appended to, the date joins the set, and the checkpoint is written,
    unless the dates cannot be sorted. *)
Lemma process_day_cases start_date end_date st day_start day_end w :
  let date_str := strftime_ymd day_start in
  let date_key_full := date_str +:+ "T00:00:00Z" in
  let dates' := {[KStr date_str]} ∪ processed_dates st in
  (KStr date_str ∈ processed_dates st
   ∧ process_day start_date end_date st (day_start, day_end) w = (Returned st, w))
  ∨ ((KStr date_str ∉ processed_dates st)
     ∧ ∃ e w', process_day start_date end_date st (day_start, day_end) w = (Raised e, w')
               ∧ same_store w w')
  ∨ ((KStr date_str ∉ processed_dates st)
     ∧ ∃ w1 day_sessions players,
         same_store w w1
         ∧ (let w2 := (append_day_progress date_key_full day_sessions players w1).2 in
            (sorted_dates dates' = Raised TypeError
             ∧ process_day start_date end_date st (day_start, day_end) w
               = (Raised TypeError, w2))
            ∨ (∃ dates st',
                 sorted_dates dates' = Returned dates
                 ∧ processed_dates st' = dates'
                 ∧ process_day start_date end_date st (day_start, day_end) w
                   = (Returned st',
                      (update_checkpoint start_date end_date dates
                         (Z.of_nat (length (all_sessions st'))) w2).2)))).
Proof.
  intros date_str date_key_full dates'.
  unfold process_day. fold date_str. fold date_key_full.
  destruct (decide (KStr date_str ∈ processed_dates st)) as [Hin|Hout]; [left; done|].
  right. unfold mbind, M_bind, lift_outcome. fold dates'.
  pose proof (keeps_store_extract_day strptime_ymd day_start day_end date_str w) as H1.
  destruct (extract_day_with_smart_fallback strptime_ymd day_start day_end date_str w)
    as [[fetched|e] w1]; cbn [snd] in H1; [|left; split; [done|]; by exists e, w1].
  set (day_sessions := dedup_day_sessions dumps_sort_keys fetched).
  assert (keeps_store (match day_sessions with
                       | [] => mret []
                       | _ :: _ => get_player_details date_key_full
                       end)) as Hkeep.
  { destruct day_sessions; [apply keeps_store_ret|apply keeps_store_get_player_details]. }
  specialize (Hkeep w1).
  destruct ((match day_sessions with
             | [] => mret []
             | _ :: _ => get_player_details date_key_full
             end) w1) as [[players|e] w1'];
    cbn [snd] in Hkeep;
    [|left; split; [done|]; exists e, w1'; split; [done|by eapply same_store_trans]].
  right. split; [done|]. exists w1', day_sessions, players.
  split; [by eapply same_store_trans|]. cbv zeta.
  pose proof (append_day_progress_run date_key_full day_sessions players w1') as Happ.
  cbv zeta in Happ. rewrite Happ. cbn [snd].
  destruct (sorted_dates dates') as [dates|e] eqn:Hsorted.
  - right.
    exists dates,
      {| processed_dates := dates';
         all_sessions := all_sessions st ++ (JObj <$> day_sessions);
         all_player_details :=
           match players with
           | [] => all_player_details st
           | _ :: _ => <[KStr date_key_full := JArr (JObj <$> players)]>
                         (all_player_details st)
           end |}.
    split; [done|]. split; [done|]. cbn [all_sessions].
    by rewrite update_checkpoint_run.
  - left. unfold sorted_dates in Hsorted.
    destruct (mapM key_string (elements dates')); [done|]. by injection Hsorted as <-.
Qed.

Lemma io_trace_with_files dir evs w :
  io_trace (with_files dir evs w) = io_trace w ++ evs.
Proof. done. Qed.

Lemma files_with_files dir evs w : files (with_files dir evs w) = dir.
Proof. done. Qed.

Lemma utcnow_with_files dir evs w : utcnow (with_files dir evs w) = utcnow w.
Proof. done. Qed.

Lemma marked_dates_checkpoint_data start_date end_date dates total now :
  marked_dates (Written CHECKPOINT_FILE_NAME
                  (checkpoint_data start_date end_date dates total now)) = Some dates.
Proof.
  unfold marked_dates, checkpoint_data. rewrite decide_True by done.
  cbn [dict_lookup]. rewrite !decide_False by done. rewrite decide_True by done.
  induction dates as [|d dates IH]; [done|].
  cbn [fmap list_fmap mapM]. cbn [json_string]. by rewrite IH.
Qed.

(** The strings that [sorted(list(_))] returns are those of the set. *)
Lemma sorted_dates_elem processed dates x :
  sorted_dates processed = Returned dates → x ∈ dates ↔ KStr x ∈ processed.
Proof.
  unfold sorted_dates.
  destruct (mapM key_string (elements processed)) as [l|] eqn:Hl; [|done].
  intros [= <-]. rewrite merge_sort_Permutation.
  apply mapM_Some in Hl. rewrite <- elem_of_elements.
  induction Hl as [|k s ks l Hk _ IH]; [by rewrite !elem_of_nil|].
  rewrite !elem_of_cons, IH.
  destruct k; cbn in Hk; try done. injection Hk as ->.
  split; (intros [|]; [left; congruence|by right]).
Qed.

(** What [update_checkpoint] adds to the trace, and to the marks. *)
Lemma update_checkpoint_trace start_date end_date dates total w :
  let w' := (update_checkpoint start_date end_date dates total w).2 in
  ∃ cp,
    io_trace w' = io_trace w ++ cp
    ∧ can_write (files w') = can_write (files w)
    ∧ can_complete (files w') = can_complete (files w)
    ∧ (omap marked_dates cp = [] ∨ omap marked_dates cp = [dates]).
Proof.
  intros w'. subst w'. rewrite update_checkpoint_run. cbv zeta. cbn [snd].
  destruct (can_write (files w) CHECKPOINT_FILE_NAME);
    [destruct (can_complete (files w) CHECKPOINT_FILE_NAME)|];
    eexists; (split; [apply io_trace_with_files|]); (split; [done|]); (split; [done|]).
  - right. cbn [omap list_omap].
    rewrite marked_dates_checkpoint_data.
    by change (marked_dates (Truncated CHECKPOINT_FILE_NAME)) with (@None (list string)).
  - by left.
  - by left.
Qed.

(** What a day adds to the trace. Either nothing; or the attempt on the
    sessions log, the attempt on the players log and then, unless the dates
    cannot be sorted, what [update_checkpoint] adds: the write, when it
    completes, of a checkpoint that lists the dates processed so far and the
    date of the day. *)
Lemma process_day_trace start_date end_date st day_start day_end w :
  let date_str := strftime_ymd day_start in
  let date_key_full := date_str +:+ "T00:00:00Z" in
  let o := (process_day start_date end_date st (day_start, day_end) w).1 in
  let w' := (process_day start_date end_date st (day_start, day_end) w).2 in
  ∃ evs,
    io_trace w' = io_trace w ++ evs
    ∧ can_write (files w') = can_write (files w)
    ∧ can_complete (files w') = can_complete (files w)
    ∧ (∀ st', o = Returned st' →
         processed_dates st' = processed_dates st
         ∨ ((KStr date_str ∉ processed_dates st)
            ∧ processed_dates st' = {[KStr date_str]} ∪ processed_dates st
            ∧ evs ≠ []))
    ∧ (evs = []
       ∨ ∃ ev_s ev_p cp,
           evs = ev_s :: ev_p :: cp
           ∧ day_attempts_of (files w) date_key_full ev_s ev_p
           ∧ marked_dates ev_s = None
           ∧ marked_dates ev_p = None
           ∧ (omap marked_dates cp = []
              ∨ ∃ dates st',
                  omap marked_dates cp = [dates]
                  ∧ o = Returned st'
                  ∧ (∀ x, x ∈ dates ↔ KStr x ∈ processed_dates st')
                  ∧ processed_dates st' = {[KStr date_str]} ∪ processed_dates st)).
Proof.
  intros date_str date_key_full o w'. subst o w' date_key_full date_str.
  destruct (process_day_cases start_date end_date st day_start day_end w)
    as [[Hin ->]|[(Hout & e & w1 & -> & (Hf & Ht & Hn))
                 |(Hout & w1 & day_sessions & players & (Hf & Ht & Hn) & Hrest)]];
    set (date_str := strftime_ymd day_start) in *;
    set (date_key_full := date_str +:+ "T00:00:00Z") in *; cbn [fst snd].
  - exists []. rewrite app_nil_r. split; [done|]. split; [done|]. split; [done|].
    split; [|by left]. intros st' [= <-]. by left.
  - exists []. rewrite app_nil_r, Ht, Hf. split; [done|]. split; [done|]. split; [done|].
    split; [done|by left].
  - cbv zeta in Hrest.
    pose proof (append_day_progress_run date_key_full day_sessions players w1) as Happ.
    cbv zeta in Happ. rewrite Happ in Hrest. cbn [snd] in Hrest. clear Happ.
    set (line_s := sessions_entry date_key_full day_sessions) in *.
    set (line_p := players_entry date_key_full players) in *.
    set (ev_s := append_event PROGRESS_SESSIONS_NAME line_s (files w1)) in *.
    set (ev_p := append_event PROGRESS_PLAYERS_NAME line_p (files w1)) in *.
    set (dir2 := appended_dir PROGRESS_PLAYERS_NAME line_p
                   (appended_dir PROGRESS_SESSIONS_NAME line_s (files w1))) in *.
    assert (can_write dir2 = can_write (files w)
            ∧ can_complete dir2 = can_complete (files w)) as [Hcw Hcc].
    { subst dir2. rewrite <- Hf.
      destruct (appended_dir_frame PROGRESS_PLAYERS_NAME line_p
                  (appended_dir PROGRESS_SESSIONS_NAME line_s (files w1))) as (-> & -> & _).
      by destruct (appended_dir_frame PROGRESS_SESSIONS_NAME line_s (files w1))
        as (-> & -> & _). }
    assert (day_attempts_of (files w) date_key_full ev_s ev_p) as Hatt.
    { rewrite <- Hf. apply append_events_attempts. }
    assert (marked_dates ev_s = None ∧ marked_dates ev_p = None) as [Hms Hmp].
    { split; by apply append_event_not_marked. }
    destruct Hrest as [[Hsorted ->]|(dates & st' & Hsorted & Hst' & ->)]; cbn [fst snd].
    + exists [ev_s; ev_p]. rewrite io_trace_with_files, files_with_files, Ht.
      split; [done|]. split; [done|]. split; [done|]. split; [done|].
      right. exists ev_s, ev_p, []. repeat split; try done; try apply Hatt. by left.
    + destruct (update_checkpoint_trace start_date end_date dates
                  (Z.of_nat (length (all_sessions st')))
                  (with_files dir2 [ev_s; ev_p] w1)) as (cp & Htr & Hcw' & Hcc' & Hmarks).
      cbv zeta in Htr, Hcw', Hcc'.
      exists (ev_s :: ev_p :: cp).
      rewrite Htr, Hcw', Hcc', io_trace_with_files, files_with_files, Ht.
      split; [by rewrite <- app_assoc|]. split; [done|]. split; [done|].
      split; [intros st'' [= <-]; by right|].
      right. exists ev_s, ev_p, cp.
      split; [done|]. split; [done|]. split; [done|]. split; [done|].
      destruct Hmarks as [Hm|Hm]; [by left|right].
      exists dates, st'. split; [done|]. split; [done|]. split; [|done].
      intros x. rewrite Hst'. by apply sorted_dates_elem.
Qed.

(** The attempts on the two logs for the date [d] come, in this order,
    before the event [i] of [evs]. *)
Definition attempts_before (dir : run_dir) (evs : list io_event) (i : nat) (d : string)
  : Prop :=
  ∃ (j k : nat) a b,
    (j < k < i)%nat ∧ evs !! j = Some a ∧ evs !! k = Some b
    ∧ day_attempts_of dir (d +:+ "T00:00:00Z") a b.

(** The invariants of the loop over the days. *)
Lemma process_days_trace start_date end_date daily_ranges st w :
  let o := (process_days start_date end_date daily_ranges st w).1 in
  let w' := (process_days start_date end_date daily_ranges st w).2 in
  ∃ evs,
    io_trace w' = io_trace w ++ evs
    ∧ can_write (files w') = can_write (files w)
    ∧ can_complete (files w') = can_complete (files w)
    ∧ (∀ st', o = Returned st' → processed_dates st ⊆ processed_dates st')
    ∧ StronglySorted (⊆) (omap marked_dates evs)
    ∧ (∀ dates x, dates ∈ omap marked_dates evs → KStr x ∈ processed_dates st → x ∈ dates)
    ∧ (∀ (i : nat) ev dates d,
         evs !! i = Some ev → marked_dates ev = Some dates → d ∈ dates →
         KStr d ∈ processed_dates st ∨ attempts_before (files w) evs i d).
Proof.
  revert st w. induction daily_ranges as [|[day_start day_end] rest IH]; intros st w.
  { exists []. cbn. rewrite app_nil_r. repeat split; try done.
    - by intros st' [= <-].
    - constructor.
    - intros dates x Hd. by apply elem_of_nil in Hd. }
  cbv zeta. cbn [process_days]. unfold mbind, M_bind.
  destruct (process_day_trace start_date end_date st day_start day_end w)
    as (evs1 & Htrace1 & Hcw1 & Hcc1 & Hstate1 & Hevents1).
  set (date_str := strftime_ymd day_start) in *.
  destruct (process_day start_date end_date st (day_start, day_end) w) as [[st1|e] w1];
    cbn [fst snd] in *.
  - (* the day returned: the rest of the loop runs *)
    destruct (IH st1 w1)
      as (evs2 & Htrace2 & Hcw2 & Hcc2 & Hstate2 & Hsorted2 & Hlow2 & Hord2).
    destruct (process_days start_date end_date rest st1 w1) as [o2 w2]; cbn [fst snd] in *.
    assert (processed_dates st ⊆ processed_dates st1) as Hsub1.
    { destruct (Hstate1 st1 eq_refl) as [->|(_ & -> & _)]; set_solver. }
    (* the marks of the day *)
    assert (omap marked_dates evs1 = []
            ∨ ∃ dates1, omap marked_dates evs1 = [dates1]
                        ∧ ∀ x, x ∈ dates1 ↔ KStr x ∈ processed_dates st1) as Hmarks1.
    { destruct Hevents1 as [->|(ev_s & ev_p & cp & -> & _ & Hms & Hmp & Hcp)];
        [by left|].
      cbn [omap list_omap]. rewrite Hms, Hmp.
      destruct Hcp as [->|(dates & st' & -> & [= <-] & Hdates & _)]; [by left|].
      right. by exists dates. }
    (* the attempts on the logs, when the date of the day was added *)
    assert (∀ d, KStr d ∈ processed_dates st1 →
                 KStr d ∈ processed_dates st
                 ∨ ∃ a b cp, evs1 = a :: b :: cp
                             ∧ marked_dates a = None ∧ marked_dates b = None
                             ∧ day_attempts_of (files w) (d +:+ "T00:00:00Z") a b)
      as Hattempt1.
    { intros d Hd.
      destruct (Hstate1 st1 eq_refl) as [Heq|(_ & Heq & Hne)]; rewrite Heq in Hd;
        [by left|].
      apply elem_of_union in Hd as [Hd|Hd]; [|by left].
      apply elem_of_singleton in Hd. injection Hd as ->. right.
      destruct Hevents1 as [->|(ev_s & ev_p & cp & -> & Hatt & Hms & Hmp & _)]; [done|].
      by exists ev_s, ev_p, cp. }
    exists (evs1 ++ evs2).
    split; [by rewrite Htrace2, Htrace1, app_assoc|].
    split; [by rewrite Hcw2|]. split; [by rewrite Hcc2|].
    split; [intros st' Hst'; etrans; [done|by apply Hstate2]|].
    rewrite omap_app.
    split; [|split].
    + apply StronglySorted_app.
      split; [|split; [|done]];
        [|by destruct Hmarks1 as [->|(? & -> & _)]; repeat constructor].
      intros a b Ha Hb.
      destruct Hmarks1 as [Hnil|(dates1 & Hone & Hdates1)]; rewrite ?Hnil, ?Hone in Ha;
        [by apply elem_of_nil in Ha|].
      apply list_elem_of_singleton in Ha as ->.
      intros x Hx. apply (Hlow2 b x Hb). by apply Hdates1.
    + intros dates x Hd Hx. apply elem_of_app in Hd as [Hd|Hd].
      * destruct Hmarks1 as [Hnil|(dates1 & Hone & Hdates1)]; rewrite ?Hnil, ?Hone in Hd;
          [by apply elem_of_nil in Hd|].
        apply list_elem_of_singleton in Hd as ->. apply Hdates1. by apply Hsub1.
      * apply (Hlow2 dates x Hd). by apply Hsub1.
    + intros i ev dates d Hi Hev Hd.
      apply lookup_app_Some in Hi as [Hi|[Hlen Hi]].
      * (* a checkpoint of the day itself *)
        destruct Hmarks1 as [Hnil|(dates1 & Hone & Hdates1)].
        { assert (dates ∈ omap marked_dates evs1) as Hin
            by (apply list_elem_of_omap; exists ev; split;
                [by eapply list_elem_of_lookup_2|done]).
          rewrite Hnil in Hin. by apply elem_of_nil in Hin. }
        assert (dates = dates1) as ->.
        { assert (dates ∈ omap marked_dates evs1) as Hin
            by (apply list_elem_of_omap; exists ev; split;
                [by eapply list_elem_of_lookup_2|done]).
          rewrite Hone in Hin. by apply list_elem_of_singleton in Hin. }
        apply Hdates1 in Hd.
        destruct (Hattempt1 d Hd) as [?|(a & b & cp & -> & Hma & Hmb & Hatt)]; [by left|].
        right. exists 0%nat, 1%nat, a, b.
        split; [|done].
        destruct i as [|[|i]]; [| |lia].
        -- cbn in Hi. injection Hi as <-. congruence.
        -- cbn in Hi. injection Hi as <-. congruence.
      * destruct (Hord2 _ ev dates d Hi Hev Hd)
          as [Hin|(j & k & a & b & Hjk & Ha & Hb & Hatt)].
        -- destruct (Hattempt1 d Hin) as [?|(a & b & cp & -> & _ & _ & Hatt)]; [by left|].
           right. exists 0%nat, 1%nat, a, b.
           cbn [length] in Hlen. split; [lia|]. done.
        -- right. exists (length evs1 + j)%nat, (length evs1 + k)%nat, a, b.
           split; [lia|].
           split; [by rewrite lookup_app_r, Nat.add_comm, Nat.add_sub by lia|].
           split; [by rewrite lookup_app_r, Nat.add_comm, Nat.add_sub by lia|].
           by apply (day_attempts_of_ext _ (files w1)).
  - (* the day raised: the loop ends here *)
    assert (omap marked_dates evs1 = []) as Hnil.
    { destruct Hevents1 as [->|(ev_s & ev_p & cp & -> & _ & Hms & Hmp & Hcp)]; [done|].
      cbn [omap list_omap]. rewrite Hms, Hmp.
      by destruct Hcp as [->|(dates & st' & _ & [=] & _)]. }
    exists evs1. rewrite Hnil.
    split; [done|]. split; [done|]. split; [done|]. split; [done|]. split; [constructor|].
    split.
    + intros dates x Hd. by apply elem_of_nil in Hd.
    + intros i ev dates d Hi Hev Hd.
      assert (dates ∈ omap marked_dates evs1) as Hin
        by (apply list_elem_of_omap; exists ev; split;
            [by eapply list_elem_of_lookup_2|done]).
      rewrite Hnil in Hin. by apply elem_of_nil in Hin.
Qed.

Lemma initial_progress_world start_date end_date resume w :
  (initial_progress start_date end_date resume w).2 = w.
Proof.
  unfold initial_progress. destruct resume; [|done].
  by destruct (load_incremental_progress start_date end_date (files w)) as [[[? ?] ?]|].
Qed.

(** [extract_all_data_directly], from the loaded progress and the plan on. *)
Lemma extract_all_data_directly_run start_date end_date resume w :
  extract_all_data_directly start_date end_date resume w
  = match initial_progress start_date end_date resume w with
    | (Returned st0, _) =>
        if decide (plan_fits start_date end_date Day) then
          match process_days start_date end_date (date_windows start_date end_date Day)
                  st0 w with
          | (Returned st, w') => (Returned (all_sessions st, all_player_details st), w')
          | (Raised e, w') => (Raised e, w')
          end
        else (Raised OverflowError, w)
    | (Raised e, _) => (Raised e, w)
    end.
Proof.
  unfold extract_all_data_directly, mbind, M_bind, lift_outcome.
  pose proof (initial_progress_world start_date end_date resume w) as Hw.
  destruct (initial_progress start_date end_date resume w) as [[st0|e] w0];
    cbn [snd] in Hw; subst w0; [|done].
  rewrite get_date_ranges_run. case_decide; [|done].
  by destruct (process_days _ _ _ st0 w) as [[st|e] w'].
Qed.

(** The invariants of the loop, for the whole function. *)
Lemma extract_all_data_directly_trace start_date end_date resume w :
  ∃ evs,
    io_trace (extract_all_data_directly start_date end_date resume w).2 = io_trace w ++ evs
    ∧ StronglySorted (⊆) (omap marked_dates evs)
    ∧ (∀ dates x,
         dates ∈ omap marked_dates evs →
         KStr x ∈ dates_at_start start_date end_date resume w → x ∈ dates)
    ∧ (∀ (i : nat) ev dates d,
         evs !! i = Some ev → marked_dates ev = Some dates → d ∈ dates →
         KStr d ∈ dates_at_start start_date end_date resume w
         ∨ attempts_before (files w) evs i d).
Proof.
  rewrite extract_all_data_directly_run. unfold dates_at_start.
  assert (∃ evs : list io_event,
            io_trace w = io_trace w ++ evs
            ∧ StronglySorted (⊆) (omap marked_dates evs)
            ∧ (∀ dates (x : string), dates ∈ omap marked_dates evs → False)
            ∧ (∀ (i : nat) ev, evs !! i = Some ev → False)) as (evs0 & Htr0 & Hs0 & Hl0 & Ho0).
  { exists []. rewrite app_nil_r. split; [done|]. split; [constructor|].
    split; [intros dates x Hd; by apply elem_of_nil in Hd|].
    intros i ev Hi. by rewrite lookup_nil in Hi. }
  destruct (initial_progress start_date end_date resume w) as [[st0|e] w0]; cbn [snd].
  - case_decide.
    + destruct (process_days_trace start_date end_date
                  (date_windows start_date end_date Day) st0 w)
        as (evs & Htrace & _ & _ & _ & Hsorted & Hlow & Hord).
      exists evs.
      destruct (process_days start_date end_date _ st0 w) as [[st|e] w']; cbn [fst snd] in *;
        done.
    + exists evs0. split; [done|]. split; [done|].
      split; [intros dates x Hd; destruct (Hl0 dates x Hd)|].
      intros i ev dates d Hi. destruct (Ho0 i ev Hi).
  - exists evs0. split; [done|]. split; [done|].
    split; [intros dates x Hd; destruct (Hl0 dates x Hd)|].
    intros i ev dates d Hi. destruct (Ho0 i ev Hi).
Qed.

(** C9: a day of the loop leaves the set of processed dates as it is (the
    date is skipped) or adds to it one date that it did not hold; and in a run
    of [extract_all_data_directly], the dates listed by each checkpoint that
    is written are all listed by every checkpoint written after it, and
    include the dates that were processed when the run started. *)
Theorem processed_dates_grow start_date end_date :
  (∀ st day w st' w',
     process_day start_date end_date st day w = (Returned st', w') →
     processed_dates st' = processed_dates st
     ∨ ∃ d, (KStr d ∉ processed_dates st)
            ∧ processed_dates st' = {[KStr d]} ∪ processed_dates st)
  ∧ (∀ resume w,
       ∃ evs,
         io_trace (extract_all_data_directly start_date end_date resume w).2
         = io_trace w ++ evs
         ∧ StronglySorted (⊆) (omap marked_dates evs)
         ∧ (∀ dates x,
              dates ∈ omap marked_dates evs →
              KStr x ∈ dates_at_start start_date end_date resume w → x ∈ dates)).
Proof.
  split.
  - intros st [day_start day_end] w st' w' Hday.
    destruct (process_day_trace start_date end_date st day_start day_end w)
      as (evs & _ & _ & _ & Hstate & _).
    rewrite Hday in Hstate. cbn [fst] in Hstate.
    destruct (Hstate st' eq_refl) as [?|(Hnew & Heq & _)]; [by left|].
    right. by eexists.
  - intros resume w.
    destruct (extract_all_data_directly_trace start_date end_date resume w)
      as (evs & Htrace & Hsorted & Hlow & _).
    by exists evs.
Qed.

(** C8 (as amended): in every run of [extract_all_data_directly], when a
    checkpoint is written that lists a date [d] which was not processed when
    the run started, [append_day_progress] has been called for [d] and has
    returned before: earlier in the trace of the run there are, in this
    order, the attempt to append the sessions of [d] to the sessions log and
    the attempt to append the player details of [d] to the players log, both
    under the key [d + "T00:00:00Z"]. Where a log can be opened and written,
    the attempt is the line written to it. Where it cannot, the attempt is
    the failure to open the log or the failed write, which is caught, and
    the checkpoint lists [d] all the same. *)
Theorem append_attempted_before_checkpoint start_date end_date resume w :
  ∃ evs,
    io_trace (extract_all_data_directly start_date end_date resume w).2 = io_trace w ++ evs
    ∧ (∀ (i : nat) ev dates d,
         evs !! i = Some ev → marked_dates ev = Some dates → d ∈ dates →
         KStr d ∈ dates_at_start start_date end_date resume w
         ∨ ∃ (j k : nat) a b,
             (j < k < i)%nat ∧ evs !! j = Some a ∧ evs !! k = Some b
             ∧ sessions_attempt (d +:+ "T00:00:00Z") a
             ∧ players_attempt (d +:+ "T00:00:00Z") b
             ∧ (can_write (files w) PROGRESS_SESSIONS_NAME = true →
                can_complete (files w) PROGRESS_SESSIONS_NAME = true →
                ∃ sessions,
                  a = Appended PROGRESS_SESSIONS_NAME
                        (sessions_entry (d +:+ "T00:00:00Z") sessions))
             ∧ (can_write (files w) PROGRESS_PLAYERS_NAME = true →
                can_complete (files w) PROGRESS_PLAYERS_NAME = true →
                ∃ players,
                  b = Appended PROGRESS_PLAYERS_NAME
                        (players_entry (d +:+ "T00:00:00Z") players))).
Proof.
  destruct (extract_all_data_directly_trace start_date end_date resume w)
    as (evs & Htrace & _ & _ & Hord).
  exists evs. split; [done|].
  intros i ev dates d Hi Hev Hd.
  destruct (Hord i ev dates d Hi Hev Hd)
    as [?|(j & k & a & b & Hjk & Ha & Hb & Hs & Hp & Hws & Hwp)]; [by left|].
  right. by exists j, k, a, b.
Qed.

Lemma exists_fmap {A B} (f : A → B) (l : list B) :
  (∀ x, x ∈ l → ∃ a, x = f a) → ∃ l', l = f <$> l'.
Proof.
  induction l as [|x l IH]; intros Hl; [by exists []|].
  destruct (Hl x) as [a ->]; [left|].
  destruct IH as [l' ->]; [intros y Hy; apply Hl; by right|].
  by exists (a :: l').
Qed.

Lemma line_added_Forall (P : log_line → Prop) line lines :
  P (JsonLine line) → P NotJsonLine → Forall P lines → Forall P (line_added line lines).
Proof.
  intros Hline Hnot. induction 1 as [|first rest Hfirst Hrest IH].
  - by repeat constructor.
  - cbn. destruct first; try (by constructor).
    destruct rest; [by repeat constructor|by constructor].
Qed.

Lemma line_cut_Forall (P : log_line → Prop) lines :
  P CutLine → Forall P lines → Forall P (line_cut lines).
Proof.
  intros Hcut. induction 1 as [|first rest Hfirst Hrest IH].
  - by repeat constructor.
  - cbn. destruct first; try (by constructor).
    destruct rest; [by repeat constructor|by constructor].
Qed.

(** The appends of a day keep the logs what [append_day_progress] leaves. *)
Lemma appended_dir_written_logs dir t sessions players :
  written_logs dir →
  written_logs (appended_dir PROGRESS_SESSIONS_NAME
                  (sessions_entry (strftime_ymd t +:+ "T00:00:00Z") sessions) dir)
  ∧ written_logs (appended_dir PROGRESS_PLAYERS_NAME
                    (players_entry (strftime_ymd t +:+ "T00:00:00Z") players) dir).
Proof.
  intros [Hs Hp]. unfold appended_dir, with_line, with_cut_line, with_log.
  rewrite !(decide_True (P := PROGRESS_SESSIONS_NAME = PROGRESS_SESSIONS_NAME)) by done.
  rewrite !(decide_False (P := PROGRESS_PLAYERS_NAME = PROGRESS_SESSIONS_NAME)) by done.
  rewrite !(decide_True (P := PROGRESS_PLAYERS_NAME = PROGRESS_PLAYERS_NAME)) by done.
  split.
  - destruct (can_write dir PROGRESS_SESSIONS_NAME); [|done].
    destruct (can_complete dir PROGRESS_SESSIONS_NAME); (split; [|done]);
      cbn [progress_sessions default].
    + apply line_added_Forall; [right; by eexists _, _|by left|done].
    + apply line_cut_Forall; [by left|done].
  - destruct (can_write dir PROGRESS_PLAYERS_NAME); [|done].
    destruct (can_complete dir PROGRESS_PLAYERS_NAME); (split; [done|]);
      cbn [progress_players default].
    + apply line_added_Forall; [right; by eexists _, _|by left|done].
    + apply line_cut_Forall; [by left|done].
Qed.

(** What the loop over the days leaves in the run directory: logs of written
    lines, and the checkpoint it found, a cut one, or one that lists dates. *)
Lemma process_days_written_dir start_date end_date daily_ranges st w :
  dates_only (processed_dates st) →
  written_logs (files w) →
  let o := (process_days start_date end_date daily_ranges st w).1 in
  let w' := (process_days start_date end_date daily_ranges st w).2 in
  written_logs (files w')
  ∧ (checkpoint_file (files w') = checkpoint_file (files w)
     ∨ checkpoint_file (files w') = NotJson
     ∨ ∃ days total now,
         checkpoint_file (files w')
         = JsonDoc (checkpoint_data start_date end_date (strftime_ymd <$> days) total now)).
Proof.
  revert st w. induction daily_ranges as [|[day_start day_end] rest IH];
    intros st w Hdates Hlogs; [split; [done|by left]|].
  cbv zeta. cbn [process_days]. unfold mbind, M_bind.
  assert (let o1 := (process_day start_date end_date st (day_start, day_end) w).1 in
          let w1 := (process_day start_date end_date st (day_start, day_end) w).2 in
          written_logs (files w1)
          ∧ (checkpoint_file (files w1) = checkpoint_file (files w)
             ∨ checkpoint_file (files w1) = NotJson
             ∨ ∃ days total now,
                 checkpoint_file (files w1)
                 = JsonDoc (checkpoint_data start_date end_date
                              (strftime_ymd <$> days) total now))
          ∧ ∀ st1, o1 = Returned st1 → dates_only (processed_dates st1)) as Hday.
  { destruct (process_day_cases start_date end_date st day_start day_end w)
      as [[Hin ->]|[(Hout & e & w1 & -> & (Hf & Ht & Hn))
                   |(Hout & w1 & day_sessions & players & (Hf & Ht & Hn) & Hrest)]];
      cbn [fst snd].
    - split; [done|]. split; [by left|]. by intros st1 [= <-].
    - rewrite Hf. split; [done|]. split; [by left|]. done.
    - cbv zeta in Hrest.
      pose proof (append_day_progress_run
                    (strftime_ymd day_start +:+ "T00:00:00Z") day_sessions players w1)
        as Happ.
      cbv zeta in Happ. rewrite Happ in Hrest. cbn [snd] in Hrest. clear Happ.
      set (dir1 := appended_dir PROGRESS_SESSIONS_NAME _ (files w1)) in *.
      set (dir2 := appended_dir PROGRESS_PLAYERS_NAME _ dir1) in *.
      assert (written_logs dir2 ∧ checkpoint_file dir2 = checkpoint_file (files w))
        as [Hlogs2 Hck2].
      { rewrite <- Hf in Hlogs |- *. subst dir2 dir1. split.
        - by apply appended_dir_written_logs, appended_dir_written_logs.
        - destruct (appended_dir_frame PROGRESS_PLAYERS_NAME
                      (players_entry (strftime_ymd day_start +:+ "T00:00:00Z") players)
                      (appended_dir PROGRESS_SESSIONS_NAME
                         (sessions_entry (strftime_ymd day_start +:+ "T00:00:00Z")
                            day_sessions) (files w1))) as (_ & _ & ->).
          by destruct (appended_dir_frame PROGRESS_SESSIONS_NAME
                         (sessions_entry (strftime_ymd day_start +:+ "T00:00:00Z")
                            day_sessions) (files w1)) as (_ & _ & ->). }
      assert (dates_only ({[KStr (strftime_ymd day_start)]} ∪ processed_dates st)) as Hdates'.
      { intros k [Hk|Hk]%elem_of_union; [|by apply Hdates].
        apply elem_of_singleton in Hk as ->. by eexists. }
      destruct Hrest as [[Hsorted ->]|(dates & st' & Hsorted & Hst' & ->)]; cbn [fst snd].
      + rewrite files_with_files. split; [done|]. split; [by left|]. done.
      + rewrite update_checkpoint_run. cbv zeta. cbn [snd]. rewrite !files_with_files.
        split; [|split].
        * destruct (can_write dir2 CHECKPOINT_FILE_NAME);
            [destruct (can_complete dir2 CHECKPOINT_FILE_NAME)|];
            by rewrite files_with_files.
        * destruct (can_write dir2 CHECKPOINT_FILE_NAME);
            [destruct (can_complete dir2 CHECKPOINT_FILE_NAME)|];
            rewrite files_with_files; [|by right; left|by left].
          right. right.
          destruct (exists_fmap strftime_ymd dates) as [days ->].
          { intros x Hx. apply (sorted_dates_elem _ _ x Hsorted) in Hx.
            destruct (Hdates' _ Hx) as [t [= ->]]. by exists t. }
          by eexists days, _, _.
        * intros st1 [= <-]. by rewrite Hst'. }
  cbv zeta in Hday.
  destruct (process_day start_date end_date st (day_start, day_end) w) as [[st1|e] w1];
    cbn [fst snd] in *.
  - destruct Hday as (Hlogs1 & Hck1 & Hdates1).
    destruct (IH st1 w1 (Hdates1 st1 eq_refl) Hlogs1) as [Hlogs' Hck'].
    split; [done|].
    destruct Hck' as [Heq|?]; [|by right]. rewrite Heq. done.
  - destruct Hday as (Hlogs1 & Hck1 & _). done.
Qed.

(** From a directory without checkpoint, whatever the API returns and
    whatever becomes of the writes: when the function is called again on the
    directory that a run leaves, with the same range, the progress it loads
    has no session and no player details. *)
Lemma resume_restores_nothing start_date end_date resume w :
  checkpoint_file (files w) = NoFile →
  written_logs (files w) →
  ∃ processed,
    load_incremental_progress start_date end_date
      (files (extract_all_data_directly start_date end_date resume w).2)
    = Returned (processed, [], ∅).
Proof.
  intros Hck Hlogs.
  rewrite extract_all_data_directly_run.
  assert (∀ st0, (initial_progress start_date end_date resume w).1 = Returned st0 →
                 dates_only (processed_dates st0)) as Hstart.
  { unfold initial_progress. destruct resume; cbn [fst].
    - rewrite load_incremental_progress_no_checkpoint by (by left). cbn [fst].
      intros st0 [= <-]. rewrite decide_False by (by intros []). by intros k ?%elem_of_empty.
    - intros st0 [= <-]. by intros k ?%elem_of_empty. }
  assert (∀ w' : world,
            written_logs (files w') →
            (checkpoint_file (files w') = checkpoint_file (files w)
             ∨ checkpoint_file (files w') = NotJson
             ∨ ∃ days total now,
                 checkpoint_file (files w')
                 = JsonDoc (checkpoint_data start_date end_date
                              (strftime_ymd <$> days) total now)) →
            ∃ processed,
              load_incremental_progress start_date end_date (files w')
              = Returned (processed, [], ∅)) as Hload.
  { intros w' Hlogs' [Heq|[Hcut|(days & total & now & Hdoc)]].
    - exists ∅. apply load_incremental_progress_no_checkpoint. left. congruence.
    - exists ∅. apply load_incremental_progress_no_checkpoint. by right.
    - eexists. by apply (load_incremental_progress_written_dir _ _ days total now). }
  destruct (initial_progress start_date end_date resume w) as [[st0|e] w0];
    cbn [fst snd] in *.
  - case_decide; [|apply Hload; [done|by left]].
    destruct (process_days_written_dir start_date end_date
                (date_windows start_date end_date Day) st0 w (Hstart st0 eq_refl) Hlogs)
      as [Hlogs' Hck'].
    destruct (process_days start_date end_date _ st0 w) as [[st|e] w'];
      cbn [fst snd] in *; by apply Hload.
  - apply Hload; [done|by left].
Qed.

End Run.

Lemma processed_dates_grow_witness :
  let w := world_of one_session_a_day fresh_run_dir in
  (process_day print_json parse_ymd mar_1 mar_3 no_progress (mar_1, mar_1 + 86399) w).1
  = Returned day_1_progress
  ∧ (processed_dates day_1_progress = processed_dates no_progress
     ∨ ∃ d, (KStr d ∉ processed_dates no_progress)
            ∧ processed_dates day_1_progress = {[KStr d]} ∪ processed_dates no_progress).
Proof.
  intros w.
  assert ((process_day print_json parse_ymd mar_1 mar_3 no_progress
             (mar_1, mar_1 + 86399) w).1 = Returned day_1_progress) as Hret
    by (vm_compute; reflexivity).
  split; [exact Hret|].
  destruct (processed_dates_grow print_json parse_ymd mar_1 mar_3) as [Hstep _].
  revert Hret. generalize (Hstep no_progress (mar_1, mar_1 + 86399) w).
  destruct (process_day print_json parse_ymd mar_1 mar_3 no_progress
              (mar_1, mar_1 + 86399) w) as [o w'].
  cbn [fst]. intros Hday ->. exact (Hday _ _ eq_refl).
Defined.

Lemma append_attempted_before_checkpoint_witness :
  ∃ trace,
    io_trace (extract_all_data_directly print_json parse_ymd mar_1 mar_1 true
                (world_of one_session_a_day fresh_run_dir)).2 = trace
    ∧ trace !! 3%nat
      = Some (Written CHECKPOINT_FILE_NAME
                (checkpoint_data mar_1 mar_1 ["2024-03-01"] 1 "2024-03-04T09:00:00"))
    ∧ ∃ (j k : nat) a b,
        (j < k < 3)%nat ∧ trace !! j = Some a ∧ trace !! k = Some b
        ∧ sessions_attempt "2024-03-01T00:00:00Z" a
        ∧ players_attempt "2024-03-01T00:00:00Z" b.
Proof.
  assert (io_trace (extract_all_data_directly print_json parse_ymd mar_1 mar_1 true
                      (world_of one_session_a_day fresh_run_dir)).2 !! 3%nat
          = Some (Written CHECKPOINT_FILE_NAME
                    (checkpoint_data mar_1 mar_1 ["2024-03-01"] 1 "2024-03-04T09:00:00")))
    as Hwritten by (vm_compute; reflexivity).
  assert (KStr "2024-03-01"
          ∉ dates_at_start mar_1 mar_1 true (world_of one_session_a_day fresh_run_dir))
    as Hstart by (vm_compute; discriminate).
  assert (marked_dates
            (Written CHECKPOINT_FILE_NAME
               (checkpoint_data mar_1 mar_1 ["2024-03-01"] 1 "2024-03-04T09:00:00"))
          = Some ["2024-03-01"%string]) as Hmarked by (vm_compute; reflexivity).
  destruct (append_attempted_before_checkpoint print_json parse_ymd mar_1 mar_1 true
              (world_of one_session_a_day fresh_run_dir)) as (evs & Htrace & Hord).
  change (io_trace (world_of one_session_a_day fresh_run_dir)) with (@nil io_event)
    in Htrace.
  rewrite app_nil_l in Htrace. rewrite Htrace in Hwritten.
  exists evs. split; [exact Htrace|]. split; [exact Hwritten|].
  destruct (Hord 3%nat _ ["2024-03-01"%string] "2024-03-01"%string Hwritten Hmarked
              (list_elem_of_here _ _))
    as [Hin|(j & k & a & b & Hjk & Ha & Hb & Hs & Hp & _)].
  - destruct (Hstart Hin).
  - exists j, k, a, b. split; [exact Hjk|]. split; [exact Ha|]. split; [exact Hb|].
    split; [exact Hs|exact Hp].
Defined.

(** C8 (as stated) fails when the logs cannot be opened for appending: the
    failure is caught in [append_day_progress], and the run over 2024-03-01
    ends with a checkpoint that lists the date while neither log holds, or
    has ever held, a line for it. *)
Lemma checkpoint_without_log_entry_counterexample :
  let w := world_of one_session_a_day checkpoint_only_dir in
  let w' := (extract_all_data_directly print_json parse_ymd mar_1 mar_1 true w).2 in
  checkpoint_file (files w')
  = JsonDoc (checkpoint_data mar_1 mar_1 ["2024-03-01"] 1 "2024-03-04T09:00:00")
  ∧ progress_sessions (files w') = None
  ∧ progress_players (files w') = None
  ∧ io_trace w'
    = [OpenFailed PROGRESS_SESSIONS_NAME
         (Some (sessions_entry "2024-03-01T00:00:00Z" [session_on "2024-03-01T00:00:00Z" 7]));
       OpenFailed PROGRESS_PLAYERS_NAME
         (Some (players_entry "2024-03-01T00:00:00Z" [player_10]));
       Truncated CHECKPOINT_FILE_NAME;
       Written CHECKPOINT_FILE_NAME
         (checkpoint_data mar_1 mar_1 ["2024-03-01"] 1 "2024-03-04T09:00:00")].
Proof. repeat split; vm_compute; reflexivity. Qed.

(* ===================================================================== *)
(** * Part III. Further properties of the code                            *)
(* ===================================================================== *)

(** ** The duplicate filter of [combine_runs.py] *)

Section RemoveDuplicates.

Implicit Types (df : DataFrame) (r : gmap string cell).

Lemma available_cols_columns df1 df2 :
  columns df1 = columns df2 → available_cols df1 = available_cols df2.
Proof. unfold available_cols. by intros ->. Qed.

Lemma remove_duplicate_sessions_columns df :
  columns (remove_duplicate_sessions df) = columns df.
Proof. unfold remove_duplicate_sessions. by destruct (available_cols df). Qed.

(** X1: [remove_duplicate_sessions] compares the rows on the key columns that
    the table has, and on all columns when it has none of them. It keeps the
    columns; its rows are a subsequence of the rows of the table in which no
    two rows agree on the compared columns; every row of the table has a row
    in the result that agrees with it on them; and applied to its own result
    it changes nothing. *)
Theorem remove_duplicate_sessions_idempotent df :
  let cols := match available_cols df with
              | [] => columns df
              | _ :: _ => available_cols df
              end in
  columns (remove_duplicate_sessions df) = columns df
  ∧ rows (remove_duplicate_sessions df) `sublist_of` rows df
  ∧ NoDup (row_key cols <$> rows (remove_duplicate_sessions df))
  ∧ (∀ r, r ∈ rows df →
       row_key cols r ∈ row_key cols <$> rows (remove_duplicate_sessions df))
  ∧ remove_duplicate_sessions (remove_duplicate_sessions df) = remove_duplicate_sessions df.
Proof.
  intros cols.
  assert (rows (remove_duplicate_sessions df) = first_by (row_key cols) [] (rows df)) as Hrows.
  { subst cols. unfold remove_duplicate_sessions. by destruct (available_cols df). }
  split; [apply remove_duplicate_sessions_columns|].
  rewrite Hrows.
  split; [apply first_by_sublist|]. split; [apply first_by_NoDup|].
  split; [intros r Hr; apply first_by_keys; [done|apply not_elem_of_nil]|].
  pose proof (available_cols_columns _ _ (remove_duplicate_sessions_columns df)) as Hcols.
  unfold remove_duplicate_sessions at 1. rewrite Hcols.
  destruct (available_cols df) as [|col cols'] eqn:Hav.
  - unfold remove_duplicate_sessions. rewrite Hav.
    unfold drop_duplicates_all, drop_duplicates. cbn [columns rows].
    by rewrite first_by_idemp.
  - unfold remove_duplicate_sessions. rewrite Hav.
    unfold drop_duplicates. cbn [columns rows].
    by rewrite first_by_idemp.
Qed.

End RemoveDuplicates.

(** ** Merging the same run twice *)

Section MergeAgain.

Context (sort_values : string → list (gmap string cell) → list (gmap string cell)).
Hypothesis sort_values_perm : ∀ col l, sort_values col l ≡ₚ l.

Implicit Types (df existing_df new_df : DataFrame) (r : gmap string cell).

Lemma first_by_all_seen {A K} `{EqDecision K} (key : A → K) seen (l : list A) :
  (∀ x, x ∈ l → key x ∈ seen) → first_by key seen l = [].
Proof.
  induction l as [|x l IH]; intros Hall; [done|].
  cbn [first_by]. rewrite decide_True by (apply Hall; left).
  apply IH. intros y Hy. apply Hall. by right.
Qed.

Lemma combine_and_deduplicate_columns newest_run existing_df new_df :
  columns (combine_and_deduplicate sort_values newest_run existing_df new_df)
  = columns (concat (track_existing existing_df) (track_new newest_run new_df)).
Proof.
  unfold combine_and_deduplicate.
  destruct (available_cols _); by case_decide.
Qed.

Lemma track_new_source newest_run new_df :
  "source_run"%string ∈ columns (track_new newest_run new_df).
Proof.
  unfold track_new. destruct newest_run; apply set_column_columns; by right.
Qed.

(** The table that the merge returns is not labelled again, and merging the
    same new table into it compares the same columns. *)
Lemma combine_and_deduplicate_again_cols newest_run existing_df new_df :
  let out := combine_and_deduplicate sort_values newest_run existing_df new_df in
  track_existing out = out
  ∧ available_cols (concat (track_existing out) (track_new newest_run new_df))
    = available_cols (concat (track_existing existing_df) (track_new newest_run new_df)).
Proof.
  intros out.
  assert ("source_run"%string ∈ columns out) as Hsrc.
  { subst out. rewrite combine_and_deduplicate_columns, concat_columns.
    right. apply track_new_source. }
  assert (track_existing out = out) as Hout.
  { unfold track_existing. by rewrite decide_False by (by intros []). }
  split; [done|]. rewrite Hout.
  unfold available_cols. apply list_filter_iff. intros col.
  subst out. rewrite !concat_columns, combine_and_deduplicate_columns, concat_columns.
  tauto.
Qed.

(** X2: merging the same new table a second time, into the result of the
    first merge, adds no row when one of the three key columns is present: the
    second result has the rows of the first. When none is present, the new
    rows are added once more. *)
Theorem combine_and_deduplicate_again newest_run existing_df new_df :
  let cols := available_cols (concat (track_existing existing_df)
                                     (track_new newest_run new_df)) in
  let out := combine_and_deduplicate sort_values newest_run existing_df new_df in
  let again := combine_and_deduplicate sort_values newest_run out new_df in
  (cols ≠ [] → rows again ≡ₚ rows out ∧ length (rows again) = length (rows out))
  ∧ (cols = [] →
       rows again = rows out ++ rows (track_new newest_run new_df)
       ∧ length (rows again) = (length (rows out) + length (rows new_df))%nat).
Proof.
  intros cols out again.
  destruct (combine_and_deduplicate_again_cols newest_run existing_df new_df)
    as [Hout Hcols]. fold out cols in Hout, Hcols.
  pose proof (combine_and_deduplicate_rows sort_values sort_values_perm
                newest_run existing_df new_df) as Hrows1.
  pose proof (combine_and_deduplicate_rows sort_values sort_values_perm
                newest_run out new_df) as Hrows2.
  cbv zeta in Hrows1, Hrows2. fold out again cols in Hrows1, Hrows2.
  rewrite Hcols, Hout in Hrows2. fold cols in Hrows2.
  set (E := rows (track_existing existing_df)) in *.
  set (N := rows (track_new newest_run new_df)) in *.
  split.
  - intros Hne.
    assert (rows again ≡ₚ rows out) as Hperm; [|split; [done|by rewrite Hperm]].
    destruct cols as [|col cols'] eqn:Hc; [done|]. clear Hne.
    rewrite Hrows2, first_by_app.
    assert (NoDup (row_key (col :: cols') <$> rows out)) as Hnd.
    { rewrite Hrows1. apply first_by_NoDup. }
    rewrite (first_by_id _ [] (rows out)) by (done || intros; apply not_elem_of_nil).
    rewrite first_by_all_seen; [by rewrite app_nil_r|].
    intros r Hr. rewrite app_nil_r, Hrows1.
    apply first_by_keys; [|apply not_elem_of_nil].
    apply elem_of_app. by right.
  - intros Hnil. rewrite Hnil in *.
    assert (rows again = rows out ++ N) as Hagain.
    { subst again. unfold combine_and_deduplicate. cbv zeta. rewrite Hcols, Hout.
      rewrite decide_False; [done|].
      intros Hdate.
      assert ("session_date"%string
              ∈ available_cols (concat (track_existing out) (track_new newest_run new_df)))
        as Hin.
      { apply available_cols_elem. rewrite Hout. split; [done|]. unfold duplicate_cols. left. }
      rewrite Hcols in Hin. by apply elem_of_nil in Hin. }
    split; [done|]. rewrite Hagain, length_app. subst N.
    by rewrite track_new_length.
Qed.

End MergeAgain.

Lemma combine_and_deduplicate_again_witness :
  let cols := available_cols (concat (track_existing existing_100)
                                     (track_new (Some "20240615_070000"%string) new_20)) in
  let out := combine_and_deduplicate merge_sort_values
               (Some "20240615_070000"%string) existing_100 new_20 in
  cols ≠ []
  ∧ length (rows (combine_and_deduplicate merge_sort_values
                    (Some "20240615_070000"%string) out new_20))
    = length (rows out).
Proof.
  intros cols out.
  assert (cols ≠ []) as Hne by (vm_compute; discriminate).
  split; [exact Hne|].
  destruct (combine_and_deduplicate_again merge_sort_values merge_sort_values_perm
              (Some "20240615_070000"%string) existing_100 new_20) as [Hkeyed _].
  exact (proj2 (Hkeyed Hne)).
Defined.

(** ** What [load_incremental_progress] reads *)

Section LoadFurther.

Implicit Types (dir : run_dir) (dates : list string).

Lemma elem_of_dates_set (k : string) dates :
  KStr k ∈@{gset pykey} list_to_set (KStr <$> dates) ↔ k ∈ dates.
Proof.
  rewrite elem_of_list_to_set, list_elem_of_fmap. split.
  - by intros (k' & [= ->] & Hk).
  - intros Hk. by exists k.
Qed.

(** A checkpoint written for the dates [dates], read for a range with the
    same two calendar dates: the dates come back as a set, and the logs are
    read for that set. *)
Lemma load_incremental_progress_checkpoint_data range_start range_end dates total now dir
    start_date end_date :
  checkpoint_file dir = JsonDoc (checkpoint_data range_start range_end dates total now) →
  strftime_ymd start_date = strftime_ymd range_start →
  strftime_ymd end_date = strftime_ymd range_end →
  load_incremental_progress start_date end_date dir
  = Returned (load_logs (list_to_set (KStr <$> dates)) dir).
Proof.
  intros Hdoc Hs He. unfold load_incremental_progress. rewrite Hdoc.
  cbn [_safe_read_json].
  destruct (checkpoint_data_fields range_start range_end dates total now)
    as (-> & -> & -> & ->).
  unfold mbind, outcome_bind, mret, outcome_ret.
  cbn [eq_str]. rewrite Hs, He, !bool_decide_eq_true_2 by done.
  by rewrite py_set_strings.
Qed.

(** X3: what [update_checkpoint] writes, [load_incremental_progress] reads
    back. After a call that could open the file and write it to the end, a
    load for a range with the same start and end dates returns the dates of
    that call as processed dates, whatever the checkpoint held before; a load
    for a range of which the start or the end is another calendar date
    returns the empty state. After a call that could open the file and could
    not write it to the end, the file is cut, and a load for any range
    returns the empty state. *)
Theorem update_checkpoint_load_round_trip range_start range_end dates total w :
  can_write (files w) CHECKPOINT_FILE_NAME = true →
  let dir' := files (update_checkpoint range_start range_end dates total w).2 in
  (can_complete (files w) CHECKPOINT_FILE_NAME = true →
   (∀ start_date end_date,
      strftime_ymd start_date = strftime_ymd range_start →
      strftime_ymd end_date = strftime_ymd range_end →
      ∃ sessions players,
        load_incremental_progress start_date end_date dir'
        = Returned (list_to_set (KStr <$> dates), sessions, players))
   ∧ (∀ start_date end_date,
        strftime_ymd start_date ≠ strftime_ymd range_start
        ∨ strftime_ymd end_date ≠ strftime_ymd range_end →
        load_incremental_progress start_date end_date dir' = Returned (∅, [], ∅)))
  ∧ (can_complete (files w) CHECKPOINT_FILE_NAME = false →
     checkpoint_file dir' = NotJson
     ∧ ∀ start_date end_date,
         load_incremental_progress start_date end_date dir' = Returned (∅, [], ∅)).
Proof.
  intros Hw dir'. split; intros Hc.
  - assert (checkpoint_file dir'
            = JsonDoc (checkpoint_data range_start range_end dates total (utcnow w)))
      as Hdoc.
    { subst dir'. rewrite update_checkpoint_run. cbv zeta. by rewrite Hw, Hc. }
    split.
    + intros start_date end_date Hs He.
      rewrite (load_incremental_progress_checkpoint_data _ _ _ _ _ _ _ _ Hdoc Hs He).
      unfold load_logs. by eexists _, _.
    + intros start_date end_date Hne.
      unfold load_incremental_progress. rewrite Hdoc. cbn [_safe_read_json].
      destruct (checkpoint_data_fields range_start range_end dates total (utcnow w))
        as (-> & -> & -> & _).
      unfold mbind, outcome_bind, mret, outcome_ret. cbn [eq_str].
      destruct Hne as [Hne|Hne].
      * rewrite (bool_decide_eq_false_2 (strftime_ymd range_start = _)) by congruence. done.
      * case_bool_decide; [|done].
        rewrite (bool_decide_eq_false_2 (strftime_ymd range_end = _)) by congruence. done.
  - assert (checkpoint_file dir' = NotJson) as Hcut.
    { subst dir'. rewrite update_checkpoint_run. cbv zeta. by rewrite Hw, Hc. }
    split; [done|]. intros start_date end_date.
    apply load_incremental_progress_no_checkpoint. by right.
Qed.

(** The sessions log, entry by entry. *)
Lemma read_sessions_entries dates (entries : list (string * list record)) all_sessions :
  read_sessions (list_to_set (KStr <$> dates)) (sessions_lines entries) all_sessions
  = all_sessions
    ++ mjoin ((λ entry, JObj <$> entry.2) <$> filter (λ entry, entry.1 ∈ dates) entries).
Proof.
  revert all_sessions. induction entries as [|[k sessions] entries IH]; intros acc.
  { cbn. by rewrite app_nil_r. }
  unfold sessions_lines in *. cbn [fmap list_fmap read_sessions fst snd].
  unfold sessions_of_line, sessions_entry, dict_get.
  cbn [dict_lookup]. rewrite decide_True by done. cbn [hashable].
  rewrite filter_cons. cbn [fst].
  destruct (decide (k ∈ dates)) as [Hin|Hout].
  - rewrite decide_True by (by apply elem_of_dates_set).
    rewrite decide_False by done. rewrite decide_True by done.
    cbn [py_iter mbind option_bind].
    cbn [fmap list_fmap mjoin list_join snd]. rewrite IH. by rewrite app_assoc.
  - rewrite decide_False by (by rewrite elem_of_dates_set). apply IH.
Qed.

(** The players log, entry by entry: an entry replaces what an earlier entry
    left under its key. *)
Lemma read_players_entries dates (entries : list (string * list record)) all_player_details :
  read_players (list_to_set (KStr <$> dates)) (players_lines entries) all_player_details
  = foldl (λ details entry, <[KStr entry.1 := JArr (JObj <$> entry.2)]> details)
      all_player_details (filter (λ entry, entry.1 ∈ dates) entries).
Proof.
  revert all_player_details. induction entries as [|[k players] entries IH]; intros acc.
  { done. }
  unfold players_lines in *. cbn [fmap list_fmap read_players fst snd].
  unfold players_of_line, players_entry, dict_get.
  cbn [dict_lookup]. rewrite decide_True by done. cbn [hashable].
  rewrite filter_cons. cbn [fst].
  destruct (decide (k ∈ dates)) as [Hin|Hout].
  - rewrite decide_True by (by apply elem_of_dates_set).
    rewrite decide_False by done. rewrite decide_True by done.
    cbn [foldl fst snd]. apply IH.
  - rewrite decide_False by (by rewrite elem_of_dates_set). apply IH.
Qed.

Lemma foldl_insert_list_to_map {K V} `{Countable K} (l : list (K * V)) :
  foldl (λ (m : gmap K V) kv, <[kv.1 := kv.2]> m) ∅ l = list_to_map (reverse l).
Proof.
  induction l as [|kv l IH] using rev_ind; [done|].
  by rewrite foldl_app, reverse_app, IH.
Qed.

Lemma filter_no_dates {A} (l : list (string * A)) :
  filter (λ entry, entry.1 ∈ @nil string) l = [].
Proof.
  induction l as [|entry l IH]; [done|].
  by rewrite filter_cons_False by apply not_elem_of_nil.
Qed.

(** X4: from a checkpoint for the range of the call, [load_incremental_progress]
    returns the listed dates, the sessions of the log entries whose [date] is
    one of the listed dates, in the order of the log, and the player details
    of the entries of the players log whose [date] is listed, under that key,
    the last entry of a key replacing the earlier ones. Entries under any
    other key are left out. *)
Theorem load_incremental_progress_selects range_start range_end dates total now dir
    (sessions_log players_log : list (string * list record)) :
  checkpoint_file dir = JsonDoc (checkpoint_data range_start range_end dates total now) →
  progress_sessions dir = Some (sessions_lines sessions_log) →
  progress_players dir = Some (players_lines players_log) →
  load_incremental_progress range_start range_end dir
  = Returned
      (list_to_set (KStr <$> dates),
       mjoin ((λ entry, JObj <$> entry.2)
                <$> filter (λ entry, entry.1 ∈ dates) sessions_log),
       list_to_map
         (reverse ((λ entry, (KStr entry.1, JArr (JObj <$> entry.2)))
                     <$> filter (λ entry, entry.1 ∈ dates) players_log))).
Proof.
  intros Hdoc Hsessions Hplayers.
  rewrite (load_incremental_progress_checkpoint_data _ _ _ _ _ _ _ _ Hdoc eq_refl eq_refl).
  unfold load_logs. rewrite Hsessions, Hplayers. do 2 f_equal; [f_equal|].
  - case_decide as Hne.
    + by rewrite read_sessions_entries.
    + assert (dates = []) as -> by (destruct dates; [done|set_solver]).
      by rewrite filter_no_dates.
  - case_decide as Hne.
    + rewrite read_players_entries, <- foldl_insert_list_to_map.
      by rewrite foldl_fmap.
    + assert (dates = []) as -> by (destruct dates; [done|set_solver]).
      by rewrite filter_no_dates.
Qed.

(** Lines without a document do not count. *)
Lemma read_sessions_documents processed lines all_sessions :
  read_sessions processed (filter (λ line, is_document line) lines) all_sessions
  = read_sessions processed lines all_sessions.
Proof.
  revert all_sessions. induction lines as [|[| | |rec] lines IH]; intros acc; [done|..].
  - rewrite filter_cons_False by (by intros []). apply IH.
  - rewrite filter_cons_False by (by intros []). apply IH.
  - rewrite filter_cons_False by (by intros []). apply IH.
  - rewrite filter_cons_True by done. cbn [read_sessions].
    destruct (sessions_of_line processed rec acc); [apply IH|done].
Qed.

(** The reading ends at a line on which the body of the loop raises. *)
Lemma read_sessions_stops processed lines rec rest all_sessions :
  (∀ acc, sessions_of_line processed rec acc = None) →
  read_sessions processed (lines ++ JsonLine rec :: rest) all_sessions
  = read_sessions processed lines all_sessions.
Proof.
  intros Hbad. revert all_sessions.
  induction lines as [|[| | |rec'] lines IH]; intros acc; cbn [app read_sessions].
  - by rewrite Hbad.
  - apply IH.
  - apply IH.
  - apply IH.
  - destruct (sessions_of_line processed rec' acc); [apply IH|done].
Qed.

Lemma load_incremental_progress_sessions_log range_start range_end dir log1 log2 :
  progress_sessions dir = Some log1 →
  (∀ processed, read_sessions processed log1 [] = read_sessions processed log2 []) →
  load_incremental_progress range_start range_end dir
  = load_incremental_progress range_start range_end (with_sessions_log (Some log2) dir).
Proof.
  intros Hlog Hread. unfold load_incremental_progress.
  change (checkpoint_file (with_sessions_log (Some log2) dir)) with (checkpoint_file dir).
  assert (∀ processed, load_logs processed dir
                       = load_logs processed (with_sessions_log (Some log2) dir)) as Hlogs.
  { intros processed. unfold load_logs. cbn [with_sessions_log progress_sessions progress_players].
    rewrite Hlog. by rewrite Hread. }
  destruct (truthy _); [|by rewrite Hlogs].
  destruct (py_get _ "range_start" JNull) as [recorded_start|]; [|done].
  unfold mbind, outcome_bind, mret, outcome_ret.
  destruct (if eq_str recorded_start (strftime_ymd range_start) then _ else _)
    as [[|]|]; [|done..].
  destruct (py_get _ "processed_dates" (JArr [])) as [listed|]; [|done].
  destruct (py_set listed) as [processed|]; [|done].
  by rewrite Hlogs.
Qed.

(** X5: in the sessions log, blank lines and lines that are not JSON are
    skipped: the load returns what it returns for the log without them. A line
    that holds a JSON document which is not an object ends the reading of the
    log without an error: the load returns what it returns for the lines
    before it, and the entries after it are lost. *)
Theorem load_incremental_progress_skips_and_stops range_start range_end dir :
  (∀ lines,
     progress_sessions dir = Some lines →
     load_incremental_progress range_start range_end dir
     = load_incremental_progress range_start range_end
         (with_sessions_log (Some (filter (λ line, is_document line) lines)) dir))
  ∧ (∀ lines rec rest,
       progress_sessions dir = Some (lines ++ JsonLine rec :: rest) →
       (∀ d, rec ≠ JObj d) →
       load_incremental_progress range_start range_end dir
       = load_incremental_progress range_start range_end
           (with_sessions_log (Some lines) dir)).
Proof.
  split.
  - intros lines Hlog.
    apply (load_incremental_progress_sessions_log _ _ _ lines); [done|].
    intros processed. by rewrite read_sessions_documents.
  - intros lines rec rest Hlog Hrec.
    apply (load_incremental_progress_sessions_log _ _ _ _ lines Hlog).
    intros processed. apply read_sessions_stops.
    intros acc. destruct rec; try done. by destruct (Hrec fields).
Qed.

End LoadFurther.

Lemma update_checkpoint_load_round_trip_witness :
  let w := world_of one_session_a_day interrupted_dir in
  let dates := ["2024-03-01"; "2024-03-02"; "2024-03-03"]%string in
  can_write (files w) CHECKPOINT_FILE_NAME = true
  ∧ can_complete (files w) CHECKPOINT_FILE_NAME = true
  ∧ strftime_ymd (mar_1 + 3600) = strftime_ymd mar_1
  ∧ ∃ sessions players,
      load_incremental_progress (mar_1 + 3600) mar_3
        (files (update_checkpoint mar_1 mar_3 dates 3 w).2)
      = Returned (list_to_set (KStr <$> dates), sessions, players).
Proof.
  intros w dates.
  assert (can_write (files w) CHECKPOINT_FILE_NAME = true) as Hw by reflexivity.
  assert (strftime_ymd (mar_1 + 3600) = strftime_ymd mar_1) as Hs by (vm_compute; reflexivity).
  split; [exact Hw|]. split; [reflexivity|]. split; [exact Hs|].
  destruct (update_checkpoint_load_round_trip mar_1 mar_3 dates 3 w Hw) as [Hdone _].
  destruct (Hdone eq_refl) as [Hsame _].
  exact (Hsame (mar_1 + 3600) mar_3 Hs eq_refl).
Defined.

Lemma load_incremental_progress_selects_witness :
  ∃ processed details,
    load_incremental_progress mar_1 mar_3 date_keyed_dir
    = Returned (processed,
                [JObj (session_on "2024-03-01T00:00:00Z" 7);
                 JObj (session_on "2024-03-02T00:00:00Z" 7)],
                details)
    ∧ details !! KStr "2024-03-02" = Some (JArr [JObj player_10])
    ∧ details !! KStr "2024-03-03" = None.
Proof.
  eexists _, _. split.
  - exact (load_incremental_progress_selects mar_1 mar_3 ["2024-03-01"; "2024-03-02"]%string
             2 "2024-03-04T09:00:00" date_keyed_dir _ _ eq_refl eq_refl eq_refl).
  - split; vm_compute; reflexivity.
Defined.

Lemma load_incremental_progress_skips_and_stops_witness :
  load_incremental_progress mar_1 mar_3 broken_log_dir
  = load_incremental_progress mar_1 mar_3 (with_sessions_log (Some [Blank]) broken_log_dir).
Proof.
  destruct (load_incremental_progress_skips_and_stops mar_1 mar_3 broken_log_dir)
    as [_ Hstop].
  apply (Hstop [Blank] (JArr [])
           (sessions_lines [("2024-03-01"%string, [session_on "2024-03-01T00:00:00Z" 7])]));
    [reflexivity|discriminate].
Defined.

(** ** A checkpoint that cannot be used *)

Section LoadRaises.

Context (dumps_sort_keys : json → string).
Context (strptime_ymd : string → option datetime).

Local Abbreviation extract_all_data_directly :=
  (extract_all_data_directly dumps_sort_keys strptime_ymd).

Lemma py_set_raises listed e : py_set listed = Raised e → e = TypeError.
Proof.
  unfold py_set. destruct (py_iter listed) as [items|]; [|by intros [= <-]].
  destruct (mapM hashable items); [done|by intros [= <-]].
Qed.

(** X6: a checkpoint file that cannot be parsed is taken as no checkpoint,
    and so is one that holds a false value ([null], [0], an empty string, list
    or object). A file that holds any other JSON value that is not an object
    makes [load_incremental_progress] raise [AttributeError]; a checkpoint for
    the range of the call whose [processed_dates] cannot be iterated, or holds
    a list or an object, makes it raise [TypeError]. It raises nothing else,
    and [extract_all_data_directly] called with [resume] then raises the same
    exception before it sends a request or writes a file. *)
Theorem load_incremental_progress_raises range_start range_end dir :
  (checkpoint_file dir = NotJson →
     load_incremental_progress range_start range_end dir = Returned (∅, [], ∅))
  ∧ (∀ doc, checkpoint_file dir = JsonDoc doc → truthy doc = false →
       load_incremental_progress range_start range_end dir = Returned (∅, [], ∅))
  ∧ (∀ doc, checkpoint_file dir = JsonDoc doc → truthy doc = true → (∀ d, doc ≠ JObj d) →
       load_incremental_progress range_start range_end dir = Raised AttributeError)
  ∧ (∀ d listed,
       checkpoint_file dir = JsonDoc (JObj d) →
       dict_lookup d "range_start" = Some (JStr (strftime_ymd range_start)) →
       dict_lookup d "range_end" = Some (JStr (strftime_ymd range_end)) →
       dict_lookup d "processed_dates" = Some listed →
       py_iter listed = None
       ∨ (∃ items item, py_iter listed = Some items ∧ item ∈ items ∧ hashable item = None) →
       load_incremental_progress range_start range_end dir = Raised TypeError)
  ∧ (∀ e, load_incremental_progress range_start range_end dir = Raised e →
       (e = AttributeError ∨ e = TypeError)
       ∧ ∀ w, files w = dir →
           extract_all_data_directly range_start range_end true w = (Raised e, w)).
Proof.
  split; [intros Hno; apply load_incremental_progress_no_checkpoint; by right|].
  split.
  { intros doc Hdoc Hfalse. unfold load_incremental_progress.
    rewrite Hdoc. cbn [_safe_read_json]. rewrite Hfalse. by rewrite load_logs_empty. }
  split.
  { intros doc Hdoc Htrue Hobj. unfold load_incremental_progress.
    rewrite Hdoc. cbn [_safe_read_json]. rewrite Htrue.
    destruct doc; try done. by destruct (Hobj fields). }
  split.
  { intros d listed Hdoc Hs He Hlisted Hbad. unfold load_incremental_progress.
    rewrite Hdoc. cbn [_safe_read_json].
    assert (truthy (JObj d) = true) as -> by (by destruct d).
    unfold py_get, mbind, outcome_bind, mret, outcome_ret.
    apply eq_str_dict_get in Hs, He. rewrite Hs, He.
    unfold dict_get at 1. rewrite Hlisted. unfold py_set.
    destruct Hbad as [->|(items & item & -> & Hin & Hitem)]; [done|].
    rewrite (mapM_None_2 hashable items); [done|].
    apply Exists_exists. by exists item. }
  intros e Hload. split.
  - unfold load_incremental_progress in Hload.
    unfold mbind, outcome_bind, mret, outcome_ret, py_get in Hload.
    destruct (_safe_read_json (checkpoint_file dir) (JObj [])) as [|b|n|s|items|d];
      try (destruct (truthy _); [injection Hload as <-; by left|done]).
    destruct (truthy _); [|done].
    destruct (eq_str _ (strftime_ymd range_start)); [|done].
    destruct (eq_str _ (strftime_ymd range_end)); [|done].
    destruct (py_set _) as [processed|e'] eqn:Hset; [done|].
    injection Hload as <-. right. by eapply py_set_raises.
  - intros w Hw. unfold extract_all_data_directly, mbind, M_bind, initial_progress.
    by rewrite Hw, Hload.
Qed.

End LoadRaises.

Lemma load_incremental_progress_raises_witness :
  load_incremental_progress mar_1 mar_3 list_checkpoint_dir = Raised AttributeError.
Proof.
  destruct (load_incremental_progress_raises print_json parse_ymd mar_1 mar_3
              list_checkpoint_dir) as (_ & _ & Hattr & _).
  apply (Hattr (JArr [JStr "2024-03-01"])); [reflexivity|reflexivity|discriminate].
Defined.

(** ** What the extraction of a day does to the client *)

Section Footprint.

Lemma keeps_timeout_ret {A} (a : A) : keeps_timeout (mret a).
Proof. done. Qed.

Lemma keeps_timeout_raise {A} e : keeps_timeout (raise (A := A) e).
Proof. done. Qed.

Lemma keeps_timeout_lift {A} (o : outcome A) : keeps_timeout (lift_outcome o).
Proof. done. Qed.

Lemma keeps_timeout_bind {A B} (m : M A) (f : A → M B) :
  keeps_timeout m → (∀ a, keeps_timeout (f a)) → keeps_timeout (m ≫= f).
Proof.
  intros Hm Hf w. unfold mbind, M_bind. specialize (Hm w).
  destruct (m w) as [[a|e] w1]; cbn in *; [|done]. by rewrite Hf.
Qed.

Lemma keeps_timeout_try_except {A} (body : M A) handler :
  keeps_timeout body → (∀ e, keeps_timeout (handler e)) →
  keeps_timeout (try_except body handler).
Proof.
  intros Hm Hh w. unfold try_except. specialize (Hm w).
  destruct (body w) as [[a|e] w1]; cbn in *; [done|].
  destruct (is_Exception e); [|done]. by rewrite Hh.
Qed.

Lemma keeps_timeout_post req : keeps_timeout (post req).
Proof. intros w. unfold post. by destruct (api w _ _ _). Qed.

Lemma keeps_timeout_get_full_sessions start_date end_date :
  keeps_timeout (get_full_sessions start_date end_date).
Proof.
  apply keeps_timeout_try_except; [|intros; apply keeps_timeout_ret].
  apply keeps_timeout_bind; [apply keeps_timeout_post|intros; apply keeps_timeout_ret].
Qed.

Lemma keeps_timeout_get_player_details session_date :
  keeps_timeout (get_player_details session_date).
Proof.
  apply keeps_timeout_try_except; [apply keeps_timeout_post|intros; apply keeps_timeout_ret].
Qed.

(** The probe sets the timeout and sets it back. *)
Lemma keeps_timeout_has_data_for_day strptime_ymd date_str :
  keeps_timeout (has_data_for_day strptime_ymd date_str).
Proof.
  intros w. unfold has_data_for_day, mbind, M_bind, get_timeout, getenv_discovery_timeout.
  destruct (discovery_timeout_env w); cbn; [apply try_finally_set_timeout..|done].
Qed.

Lemma keeps_timeout_hourly_sweep ranges all_day_sessions :
  keeps_timeout (hourly_sweep ranges all_day_sessions).
Proof.
  revert all_day_sessions.
  induction ranges as [|[hour_start hour_end] rest IH]; intros acc; [apply keeps_timeout_ret|].
  cbn [hourly_sweep]. apply keeps_timeout_bind; [|intros; apply IH].
  apply keeps_timeout_try_except; [|intros; apply keeps_timeout_ret].
  apply keeps_timeout_bind;
    [apply keeps_timeout_get_full_sessions|intros; apply keeps_timeout_ret].
Qed.

Lemma keeps_timeout_extract_day strptime_ymd day_start day_end date_str :
  keeps_timeout (extract_day_with_smart_fallback strptime_ymd day_start day_end date_str).
Proof.
  apply keeps_timeout_bind; [apply keeps_timeout_get_full_sessions|].
  intros [[|s l]|]; [apply keeps_timeout_ret..|].
  apply keeps_timeout_bind; [apply keeps_timeout_has_data_for_day|].
  intros [|]; cbn; [|apply keeps_timeout_ret].
  apply keeps_timeout_bind; [apply keeps_timeout_lift|intros; apply keeps_timeout_hourly_sweep].
Qed.

(** *** Counting the requests *)

Lemma sends_weaken {A} (Q : request → Prop) lo hi lo' hi' (m : M A) :
  sends Q lo hi m → (lo' ≤ lo)%nat → (hi ≤ hi')%nat → sends Q lo' hi' m.
Proof.
  intros Hm Hlo Hhi w. destruct (Hm w) as (rs & Hrs & Hlen & HQ).
  exists rs. split; [done|]. split; [lia|done].
Qed.

Lemma sends_nothing {A} (Q : request → Prop) (m : M A) :
  (∀ w, requests (m w).2 = requests w) → sends Q 0 0 m.
Proof.
  intros Hm w. exists []. rewrite app_nil_r. split; [done|]. split; [cbn; lia|constructor].
Qed.

Lemma sends_ret {A} Q (a : A) : sends Q 0 0 (mret a).
Proof. by apply sends_nothing. Qed.

Lemma sends_raise {A} Q e : sends Q 0 0 (raise (A := A) e).
Proof. by apply sends_nothing. Qed.

Lemma sends_bind {A B} Q lo hi hi' (m : M A) (f : A → M B) :
  sends Q lo hi m → (∀ a, sends Q 0 hi' (f a)) → sends Q lo (hi + hi') (m ≫= f).
Proof.
  intros Hm Hf w. unfold mbind, M_bind.
  destruct (Hm w) as (rs & Hrs & Hlen & HQ).
  destruct (m w) as [[a|e] w1]; cbn [snd] in *.
  - destruct (Hf a w1) as (rs' & Hrs' & Hlen' & HQ').
    exists (rs ++ rs'). rewrite Hrs', Hrs, app_assoc. split; [done|].
    rewrite length_app. split; [lia|]. by apply Forall_app.
  - exists rs. split; [done|]. split; [lia|done].
Qed.

Lemma sends_try_except {A} Q lo hi (body : M A) handler :
  sends Q lo hi body → (∀ e, sends Q 0 0 (handler e)) → sends Q lo hi (try_except body handler).
Proof.
  intros Hm Hh w. unfold try_except.
  destruct (Hm w) as (rs & Hrs & Hlen & HQ).
  destruct (body w) as [[a|e] w1]; cbn [snd] in *; [by exists rs|].
  destruct (is_Exception e); [|by exists rs].
  destruct (Hh e w1) as (rs' & Hrs' & Hlen' & _).
  assert (rs' = []) as -> by (destruct rs'; [done|cbn in Hlen'; lia]).
  exists rs. by rewrite Hrs', app_nil_r.
Qed.

Lemma sends_try_finally {A} Q lo hi (body : M A) final :
  sends Q lo hi body → sends Q 0 0 final → sends Q lo hi (try_finally body final).
Proof.
  intros Hm Hf w. unfold try_finally.
  destruct (Hm w) as (rs & Hrs & Hlen & HQ).
  destruct (body w) as [o w1]; cbn [snd] in *.
  destruct (Hf w1) as (rs' & Hrs' & Hlen' & _).
  assert (rs' = []) as -> by (destruct rs'; [done|cbn in Hlen'; lia]).
  rewrite app_nil_r in Hrs'.
  destruct (final w1) as [[[]|e] w2]; cbn [snd] in *; exists rs; by rewrite Hrs'.
Qed.

Lemma sends_post (Q : request → Prop) req : Q req → sends Q 1 1 (post req).
Proof.
  intros HQ w. exists [(req, timeout w)]. unfold post.
  split; [by destruct (api w _ _ _)|]. split; [cbn; lia|]. by constructor.
Qed.

Lemma sends_get_full_sessions start_date end_date :
  sends sessions_request 1 1 (get_full_sessions start_date end_date).
Proof.
  apply sends_try_except; [|intros; apply sends_ret].
  apply (sends_bind _ 1 1 0); [by apply sends_post|intros; apply sends_ret].
Qed.

Lemma sends_has_data_for_day strptime_ymd date_str :
  sends sessions_request 0 1 (has_data_for_day strptime_ymd date_str).
Proof.
  apply (sends_bind _ 0 0 1); [by apply sends_nothing|intros original_timeout].
  apply (sends_bind _ 0 0 1).
  { apply sends_nothing. intros w. unfold getenv_discovery_timeout.
    by destruct (discovery_timeout_env w). }
  intros d. apply sends_try_finally; [|by apply sends_nothing].
  apply sends_try_except; [|intros; apply sends_ret].
  apply (sends_bind _ 0 0 1); [by apply sends_nothing|intros _].
  apply (sends_bind _ 0 0 1).
  { destruct (strptime_ymd date_str); [apply sends_ret|apply sends_raise]. }
  intros day_start.
  apply (sends_bind _ 0 1 0); [|intros; apply sends_ret].
  eapply sends_weaken; [apply sends_get_full_sessions|lia..].
Qed.

Lemma sends_hourly_sweep ranges all_day_sessions :
  sends sessions_request 0 (length ranges) (hourly_sweep ranges all_day_sessions).
Proof.
  revert all_day_sessions.
  induction ranges as [|[hour_start hour_end] rest IH]; intros acc; [apply sends_ret|].
  cbn [hourly_sweep length]. apply (sends_bind _ 0 1 (length rest)); [|intros; apply IH].
  apply sends_try_except; [|intros; apply sends_ret].
  apply (sends_bind _ 0 1 0); [|intros; apply sends_ret].
  eapply sends_weaken; [apply sends_get_full_sessions|lia..].
Qed.

(** The hourly sweep of a day, from the plan on: one request at most for
    each hourly period that [get_date_ranges] returns, none when it raises. *)
Lemma sends_planned_sweep day_start day_end :
  sends sessions_request 0
    (match get_date_ranges day_start day_end Hour with
     | Returned hourly_ranges => length hourly_ranges
     | Raised _ => 0
     end)
    (lift_outcome (get_date_ranges day_start day_end Hour)
     ≫= λ hourly_ranges, hourly_sweep hourly_ranges []).
Proof.
  destruct (get_date_ranges day_start day_end Hour) as [hourly_ranges|e].
  - intros w. apply sends_hourly_sweep.
  - apply (sends_raise _ e).
Qed.

Lemma sends_extract_day strptime_ymd day_start day_end date_str :
  sends sessions_request 1
    (2 + match get_date_ranges day_start day_end Hour with
         | Returned hourly_ranges => length hourly_ranges
         | Raised _ => 0
         end)
    (extract_day_with_smart_fallback strptime_ymd day_start day_end date_str).
Proof.
  apply (sends_bind _ 1 1 (1 + _)); [apply sends_get_full_sessions|].
  intros [[|s l]|]; [eapply sends_weaken; [apply sends_ret|lia..]..|].
  apply (sends_bind _ 0 1 _); [apply sends_has_data_for_day|].
  intros [|]; cbn [negb]; [apply sends_planned_sweep|].
  eapply sends_weaken; [apply sends_ret|lia..].
Qed.

(** A period of at most one day has at most twenty-four hourly periods. *)
Lemma date_windows_hours_at_most day_start day_end :
  day_end - day_start ≤ 86399 →
  (length (date_windows day_start day_end Hour) ≤ 24)%nat.
Proof.
  intros Hday. destruct (decide (day_start ≤ day_end)) as [Hle|Hgt].
  - pose proof (date_windows_length day_start day_end Hour Hle) as Hlen.
    unfold window_count, delta_of, SECONDS_PER_HOUR in Hlen.
    assert ((day_end - day_start) `div` 3600 < 24); [|lia].
    apply Z.div_lt_upper_bound; lia.
  - rewrite date_windows_nil by lia. cbn. lia.
Qed.

Lemma get_date_ranges_hours_at_most day_start day_end :
  day_end - day_start ≤ 86399 →
  (match get_date_ranges day_start day_end Hour with
   | Returned hourly_ranges => length hourly_ranges
   | Raised _ => 0
   end ≤ 24)%nat.
Proof.
  intros Hday. rewrite get_date_ranges_run. case_decide; [|lia].
  by apply date_windows_hours_at_most.
Qed.

(** X7: whatever the API answers and whatever the environment holds,
    [extract_day_with_smart_fallback] leaves [client.timeout] and the run
    directory as it found them, and it sends the full-day request and at most
    one request more than the day has hourly periods, all of them for
    sessions: for a period of at most one day, between one and twenty-six
    requests. The hourly periods are those that [get_date_ranges] returns;
    when it raises, no hourly request is sent. *)
Theorem extract_day_with_smart_fallback_footprint strptime_ymd
    day_start day_end date_str w :
  let w' := (extract_day_with_smart_fallback strptime_ymd day_start day_end date_str w).2 in
  timeout w' = timeout w
  ∧ same_store w w'
  ∧ ∃ rs, requests w' = requests w ++ rs
          ∧ (1 ≤ length rs
             ≤ 2 + match get_date_ranges day_start day_end Hour with
                   | Returned hourly_ranges => length hourly_ranges
                   | Raised _ => 0
                   end)%nat
          ∧ Forall (λ r, sessions_request r.1) rs
          ∧ (day_end - day_start ≤ 86399 → (length rs ≤ 26)%nat).
Proof.
  intros w'. split; [apply keeps_timeout_extract_day|].
  split; [apply keeps_store_extract_day|].
  destruct (sends_extract_day strptime_ymd day_start day_end date_str w)
    as (rs & Hrs & Hlen & HQ).
  exists rs. split; [done|]. split; [done|]. split; [done|].
  intros Hday%get_date_ranges_hours_at_most. lia.
Qed.

End Footprint.

Lemma extract_day_with_smart_fallback_footprint_witness :
  let w := world_of (scripted sweep_script (Json [])) fresh_run_dir in
  mar_2 + 86399 - mar_2 ≤ 86399
  ∧ ∃ rs, requests (extract_day_with_smart_fallback parse_ymd mar_2 (mar_2 + 86399)
                      "2024-03-02" w).2 = requests w ++ rs
          ∧ (length rs ≤ 26)%nat.
Proof.
  intros w.
  assert (mar_2 + 86399 - mar_2 ≤ 86399) as Hday by lia.
  split; [exact Hday|].
  destruct (extract_day_with_smart_fallback_footprint parse_ymd mar_2 (mar_2 + 86399)
              "2024-03-02" w) as (_ & _ & rs & Hrs & _ & _ & Hlen).
  exists rs. split; [exact Hrs|exact (Hlen Hday)].
Defined.

(** ** A day of the run, step by step *)

Section Days.

Context (dumps_sort_keys : json → string).
Context (strptime_ymd : string → option datetime).

Local Abbreviation process_day := (process_day dumps_sort_keys strptime_ymd).
Local Abbreviation process_days := (process_days dumps_sort_keys strptime_ymd).
Local Abbreviation extract_all_data_directly :=
  (extract_all_data_directly dumps_sort_keys strptime_ymd).
Local Abbreviation extract_day_with_smart_fallback :=
  (extract_day_with_smart_fallback strptime_ymd).

(** A day that returns was skipped, or went through all the steps of the
    body of the loop. *)
Lemma process_day_inv start_date end_date st day_start day_end w st' w' :
  let date_str := strftime_ymd day_start in
  let date_key_full := date_str +:+ "T00:00:00Z" in
  process_day start_date end_date st (day_start, day_end) w = (Returned st', w') →
  (KStr date_str ∈ processed_dates st ∧ st' = st ∧ w' = w)
  ∨ ((KStr date_str ∉ processed_dates st)
     ∧ ∃ fetched w1 players w2 dates,
         let day_sessions := dedup_day_sessions dumps_sort_keys fetched in
         extract_day_with_smart_fallback day_start day_end date_str w = (Returned fetched, w1)
         ∧ (match day_sessions with
            | [] => mret []
            | _ :: _ => get_player_details date_key_full
            end) w1 = (Returned players, w2)
         ∧ sorted_dates ({[KStr date_str]} ∪ processed_dates st) = Returned dates
         ∧ st' = {| processed_dates := {[KStr date_str]} ∪ processed_dates st;
                    all_sessions := all_sessions st ++ (JObj <$> day_sessions);
                    all_player_details :=
                      match players with
                      | [] => all_player_details st
                      | _ :: _ => <[KStr date_key_full := JArr (JObj <$> players)]>
                                    (all_player_details st)
                      end |}
         ∧ w' = (update_checkpoint start_date end_date dates
                   (Z.of_nat (length (all_sessions st ++ (JObj <$> day_sessions))))
                   (append_day_progress date_key_full day_sessions players w2).2).2).
Proof.
  intros date_str date_key_full. unfold process_day. fold date_str date_key_full.
  destruct (decide (KStr date_str ∈ processed_dates st)) as [Hin|Hout].
  { intros [= <- <-]. by left. }
  right. split; [done|]. revert H.
  unfold mbind, M_bind, lift_outcome.
  destruct (extract_day_with_smart_fallback day_start day_end date_str w)
    as [[fetched|e] w1]; [|done].
  set (day_sessions := dedup_day_sessions dumps_sort_keys fetched).
  destruct ((match day_sessions with
             | [] => mret []
             | _ :: _ => get_player_details date_key_full
             end) w1) as [[players|e] w2] eqn:Hplayers; [|done].
  pose proof (append_day_progress_run date_key_full day_sessions players w2) as Happ.
  cbv zeta in Happ. rewrite Happ.
  destruct (sorted_dates ({[KStr date_str]} ∪ processed_dates st)) as [dates|e] eqn:Hsorted;
    [|done].
  rewrite update_checkpoint_run. cbv zeta.
  intros Hret. exists fetched, w1, players, w2, dates.
  cbv zeta. fold day_sessions. rewrite Happ, update_checkpoint_run. cbv zeta. cbn [snd].
  split; [done|]. split; [done|]. split; [done|].
  destruct (can_write _ CHECKPOINT_FILE_NAME); [destruct (can_complete _ CHECKPOINT_FILE_NAME)|];
    by injection Hret as <- <-.
Qed.

(** What the two writes of a day leave in the world. *)
Lemma day_writes_world start_date end_date date_key sessions players dates total w :
  let w' := (update_checkpoint start_date end_date dates total
               (append_day_progress date_key sessions players w).2).2 in
  timeout w' = timeout w
  ∧ requests w' = requests w
  ∧ utcnow w' = utcnow w
  ∧ can_write (files w') = can_write (files w)
  ∧ can_complete (files w') = can_complete (files w)
  ∧ checkpoint_file (files w')
    = if can_write (files w) CHECKPOINT_FILE_NAME
      then if can_complete (files w) CHECKPOINT_FILE_NAME
           then JsonDoc (checkpoint_data start_date end_date dates total (utcnow w))
           else NotJson
      else checkpoint_file (files w).
Proof.
  intros w'. subst w'.
  pose proof (append_day_progress_run date_key sessions players w) as Happ.
  cbv zeta in Happ. rewrite Happ. cbn [snd]. rewrite update_checkpoint_run. cbv zeta.
  rewrite !files_with_files, utcnow_with_files.
  set (dir2 := appended_dir PROGRESS_PLAYERS_NAME _ _).
  assert (can_write dir2 = can_write (files w)
          ∧ can_complete dir2 = can_complete (files w)
          ∧ checkpoint_file dir2 = checkpoint_file (files w)) as (Hcw & Hcc & Hck).
  { subst dir2.
    destruct (appended_dir_frame PROGRESS_PLAYERS_NAME
                (players_entry date_key players)
                (appended_dir PROGRESS_SESSIONS_NAME
                   (sessions_entry date_key sessions) (files w))) as (-> & -> & ->).
    apply appended_dir_frame. }
  rewrite Hcw, Hcc.
  destruct (can_write (files w) CHECKPOINT_FILE_NAME);
    [destruct (can_complete (files w) CHECKPOINT_FILE_NAME)|]; cbn [snd];
    rewrite ?files_with_files; done.
Qed.

(** *** The whole run and the client *)

Lemma sends_impl {A} (Q Q' : request → Prop) lo hi (m : M A) :
  (∀ req, Q req → Q' req) → sends Q lo hi m → sends Q' lo hi m.
Proof.
  intros HQ Hm w. destruct (Hm w) as (rs & Hrs & Hlen & Hall).
  exists rs. split; [done|]. split; [done|].
  eapply Forall_impl; [done|]. intros r. apply HQ.
Qed.

Lemma keeps_timeout_day_writes start_date end_date date_key sessions players dates total :
  keeps_timeout (append_day_progress date_key sessions players;;
                 update_checkpoint start_date end_date dates total).
Proof.
  intros w. unfold mbind, M_bind.
  pose proof (day_writes_world start_date end_date date_key sessions players dates total w)
    as (Ht & _).
  pose proof (append_day_progress_run date_key sessions players w) as Happ.
  cbv zeta in Happ. rewrite Happ in Ht |- *. done.
Qed.

Lemma sends_day_writes Q start_date end_date date_key sessions players dates total :
  sends Q 0 0 (append_day_progress date_key sessions players;;
               update_checkpoint start_date end_date dates total).
Proof.
  apply sends_nothing. intros w. unfold mbind, M_bind.
  pose proof (day_writes_world start_date end_date date_key sessions players dates total w)
    as (_ & Hr & _).
  pose proof (append_day_progress_run date_key sessions players w) as Happ.
  cbv zeta in Happ. rewrite Happ in Hr |- *. done.
Qed.

(** The body of the loop, with its two writes taken together. *)
Lemma process_day_steps start_date end_date st day_start day_end :
  let date_str := strftime_ymd day_start in
  let date_key_full := date_str +:+ "T00:00:00Z" in
  ∀ w,
  process_day start_date end_date st (day_start, day_end) w
  = (if decide (KStr date_str ∈ processed_dates st) then mret st
    else
      fetched ← extract_day_with_smart_fallback day_start day_end date_str;
      let day_sessions := dedup_day_sessions dumps_sort_keys fetched in
      player_details ← (match day_sessions with
                        | [] => mret []
                        | _ :: _ => get_player_details date_key_full
                        end);
      let all_sessions := all_sessions st ++ (JObj <$> day_sessions) in
      let processed_dates := {[KStr date_str]} ∪ processed_dates st in
      match sorted_dates processed_dates with
      | Raised e => append_day_progress date_key_full day_sessions player_details;; raise e
      | Returned dates =>
          (append_day_progress date_key_full day_sessions player_details;;
           update_checkpoint start_date end_date dates (Z.of_nat (length all_sessions)));;
          mret {| processed_dates := processed_dates;
                  all_sessions := all_sessions;
                  all_player_details :=
                    match player_details with
                    | [] => all_player_details st
                    | _ :: _ => <[KStr date_key_full := JArr (JObj <$> player_details)]>
                                  (all_player_details st)
                    end |}
      end) w.
Proof.
  intros date_str date_key_full w. unfold process_day. fold date_str date_key_full.
  case_decide; [done|].
  unfold mbind, M_bind.
  destruct (extract_day_with_smart_fallback _ _ _ w) as [[fetched|e] w1]; [|done].
  destruct (match dedup_day_sessions dumps_sort_keys fetched with
            | [] => mret []
            | _ :: _ => get_player_details date_key_full
            end w1) as [[players|e] w2]; [|done].
  cbv zeta. unfold lift_outcome, raise.
  destruct (sorted_dates _) as [dates|e];
    by destruct (append_day_progress _ _ _ w2) as [[[]|e'] w3].
Qed.

Lemma keeps_timeout_ext {A} (m m' : M A) :
  (∀ w, m w = m' w) → keeps_timeout m' → keeps_timeout m.
Proof. intros Hext Hm w. rewrite Hext. apply Hm. Qed.

Lemma sends_ext {A} Q lo hi (m m' : M A) :
  (∀ w, m w = m' w) → sends Q lo hi m' → sends Q lo hi m.
Proof. intros Hext Hm w. rewrite Hext. apply Hm. Qed.

Lemma keeps_timeout_append_day_progress date_key sessions players :
  keeps_timeout (append_day_progress date_key sessions players).
Proof.
  intros w. pose proof (append_day_progress_run date_key sessions players w) as Happ.
  cbv zeta in Happ. by rewrite Happ.
Qed.

Lemma sends_append_day_progress Q date_key sessions players :
  sends Q 0 0 (append_day_progress date_key sessions players).
Proof.
  apply sends_nothing. intros w.
  pose proof (append_day_progress_run date_key sessions players w) as Happ.
  cbv zeta in Happ. by rewrite Happ.
Qed.

Lemma keeps_timeout_process_day start_date end_date st day :
  keeps_timeout (process_day start_date end_date st day).
Proof.
  destruct day as [day_start day_end].
  eapply keeps_timeout_ext; [apply process_day_steps|]. cbv zeta.
  case_decide; [apply keeps_timeout_ret|].
  apply keeps_timeout_bind; [apply keeps_timeout_extract_day|intros fetched].
  apply keeps_timeout_bind.
  { destruct (dedup_day_sessions _ _);
      [apply keeps_timeout_ret|apply keeps_timeout_get_player_details]. }
  intros players. destruct (sorted_dates _).
  - apply keeps_timeout_bind; [apply keeps_timeout_day_writes|intros; apply keeps_timeout_ret].
  - apply keeps_timeout_bind;
      [apply keeps_timeout_append_day_progress|intros; apply keeps_timeout_raise].
Qed.

Lemma sends_process_day start_date end_date st day :
  day.2 - day.1 ≤ 86399 →
  sends (λ _, True) 0 27 (process_day start_date end_date st day).
Proof.
  destruct day as [day_start day_end]. cbn [fst snd]. intros Hday.
  eapply sends_ext; [apply process_day_steps|]. cbv zeta.
  case_decide; [eapply sends_weaken; [apply sends_ret|lia..]|].
  apply (sends_bind _ 0 26 1).
  { eapply sends_impl; [done|].
    eapply sends_weaken; [apply sends_extract_day|lia|].
    apply get_date_ranges_hours_at_most in Hday. lia. }
  intros fetched. apply (sends_bind _ 0 1 0).
  { destruct (dedup_day_sessions _ _); [eapply sends_weaken; [apply sends_ret|lia..]|].
    apply (sends_weaken _ 1 1); [|lia..].
    apply sends_try_except; [by apply sends_post|intros; apply sends_ret]. }
  intros players. destruct (sorted_dates _).
  - apply (sends_bind _ 0 0 0); [apply sends_day_writes|intros; apply sends_ret].
  - apply (sends_bind _ 0 0 0); [apply sends_append_day_progress|intros; apply sends_raise].
Qed.

Lemma keeps_timeout_process_days start_date end_date daily_ranges st :
  keeps_timeout (process_days start_date end_date daily_ranges st).
Proof.
  revert st. induction daily_ranges as [|day rest IH]; intros st; [apply keeps_timeout_ret|].
  cbn [process_days].
  apply keeps_timeout_bind; [apply keeps_timeout_process_day|intros; apply IH].
Qed.

Lemma sends_process_days start_date end_date daily_ranges st :
  Forall (λ day, day.2 - day.1 ≤ 86399) daily_ranges →
  sends (λ _, True) 0 (27 * length daily_ranges) (process_days start_date end_date daily_ranges st).
Proof.
  intros Hdays. revert st. induction Hdays as [|day rest Hday _ IH]; intros st.
  { apply sends_ret. }
  cbn [process_days length].
  eapply sends_weaken; [|lia|]; [apply (sends_bind _ 0 27 (27 * length rest))|lia].
  - by apply sends_process_day.
  - intros st1. apply IH.
Qed.

(** A day period is never longer than a day. *)
Lemma date_windows_day_lengths start_date end_date :
  Forall (λ day, day.2 - day.1 ≤ 86399) (date_windows start_date end_date Day).
Proof.
  apply Forall_forall. intros day [i Hi]%list_elem_of_lookup.
  apply date_windows_lookup in Hi as [-> _].
  unfold window, delta_of, SECONDS_PER_DAY. cbn [fst snd]. lia.
Qed.

(** X8: a run of [extract_all_data_directly], however it ends, leaves
    [client.timeout] as it found it, and sends at most twenty-seven requests
    for each day period of the range: the full-day request, the probe,
    twenty-four hourly requests and the request for the player details. The
    day periods are those that [get_date_ranges] returns; when it raises, no
    request is sent. *)
Theorem extract_all_data_directly_footprint start_date end_date resume w :
  let w' := (extract_all_data_directly start_date end_date resume w).2 in
  timeout w' = timeout w
  ∧ ∃ rs, requests w' = requests w ++ rs
          ∧ (length rs
             ≤ 27 * match get_date_ranges start_date end_date Day with
                    | Returned daily_ranges => length daily_ranges
                    | Raised _ => 0
                    end)%nat
          ∧ (start_date ≤ end_date →
             Z.of_nat (length rs) ≤ 27 * ((end_date - start_date) `div` 86400 + 1)).
Proof.
  intros w'. subst w'. rewrite extract_all_data_directly_run, get_date_ranges_run.
  assert (∀ n, timeout w = timeout w
          ∧ ∃ rs, requests w = requests w ++ rs
                  ∧ (length rs ≤ 27 * n)%nat
                  ∧ (start_date ≤ end_date →
                     Z.of_nat (length rs) ≤ 27 * ((end_date - start_date) `div` 86400 + 1)))
    as Hnone.
  { intros n. split; [done|]. exists []. rewrite app_nil_r. split; [done|].
    split; [cbn; lia|].
    intros Hle. pose proof (Z.div_pos (end_date - start_date) 86400). cbn. lia. }
  destruct (initial_progress _ _ _ w) as [[st0|e] w0]; [|apply Hnone].
  case_decide; [|apply Hnone].
  pose proof (keeps_timeout_process_days start_date end_date
                (date_windows start_date end_date Day) st0 w) as Ht.
  destruct (sends_process_days start_date end_date
              (date_windows start_date end_date Day) st0
              (date_windows_day_lengths start_date end_date) w)
    as (rs & Hrs & Hlen & _).
  destruct (process_days start_date end_date _ st0 w) as [[st|e] w1]; cbn [snd] in *.
  + split; [done|]. exists rs. split; [done|]. split; [apply Hlen|].
    intros Hle. pose proof (date_windows_length start_date end_date Day Hle) as Hn.
    unfold window_count, delta_of, SECONDS_PER_DAY, period, datetime in *. lia.
  + split; [done|]. exists rs. split; [done|]. split; [apply Hlen|].
    intros Hle. pose proof (date_windows_length start_date end_date Day Hle) as Hn.
    unfold window_count, delta_of, SECONDS_PER_DAY, period, datetime in *. lia.
Qed.

End Days.

Lemma extract_all_data_directly_footprint_witness :
  let w := world_of one_session_a_day fresh_run_dir in
  mar_1 ≤ mar_3
  ∧ ∃ rs, requests (extract_all_data_directly print_json parse_ymd mar_1 mar_3 true w).2
          = requests w ++ rs
          ∧ Z.of_nat (length rs) ≤ 81.
Proof.
  intros w. assert (mar_1 ≤ mar_3) as Hle by (unfold mar_1, mar_3; lia).
  split; [exact Hle|].
  destruct (extract_all_data_directly_footprint print_json parse_ymd mar_1 mar_3 true w)
    as (_ & rs & Hrs & _ & Hlen).
  exists rs. split; [exact Hrs|exact (Hlen Hle)].
Defined.

(** ** How a run goes *)

Section RunOutcome.

Context (dumps_sort_keys : json → string).
Context (strptime_ymd : string → option datetime).

Local Abbreviation process_day := (process_day dumps_sort_keys strptime_ymd).
Local Abbreviation process_days := (process_days dumps_sort_keys strptime_ymd).
Local Abbreviation extract_all_data_directly :=
  (extract_all_data_directly dumps_sort_keys strptime_ymd).
Local Abbreviation extract_day_with_smart_fallback :=
  (extract_day_with_smart_fallback strptime_ymd).

(** X9: the variable [STATSPORTS_DISCOVERY_TIMEOUT_SECS] is read only after a
    full-day request has failed. When it does not hold an integer, a day
    whose full-day request is answered is extracted as usual; a day whose
    full-day request fails raises [ValueError] after that one request, with
    the timeout as it was, and the run ends there: the date is not marked,
    nothing is written, the days after it are not tried. *)
Theorem extract_day_malformed_discovery_timeout day_start day_end w :
  discovery_timeout_env w = EnvMalformed →
  let full_day := GetFullSessionsByDateRange day_start day_end in
  let answer := api w (length (requests w)) full_day (timeout w) in
  let w1 := with_request (full_day, timeout w) w in
  (∀ date_str records,
     answer = Json records →
     extract_day_with_smart_fallback day_start day_end date_str w = (Returned records, w1))
  ∧ (∀ date_str e,
       answer = Fails e → is_Exception e = true →
       extract_day_with_smart_fallback day_start day_end date_str w = (Raised ValueError, w1))
  ∧ (∀ start_date end_date st rest e,
       answer = Fails e → is_Exception e = true →
       KStr (strftime_ymd day_start) ∉ processed_dates st →
       process_days start_date end_date ((day_start, day_end) :: rest) st w
       = (Raised ValueError, w1)).
Proof.
  intros Henv full_day answer w1.
  assert (∀ date_str e,
            answer = Fails e → is_Exception e = true →
            extract_day_with_smart_fallback day_start day_end date_str w
            = (Raised ValueError, w1)) as Hfail.
  { intros date_str e Hans He.
    unfold extract_day_with_smart_fallback, mbind, M_bind.
    rewrite get_full_sessions_run. fold full_day answer w1. rewrite Hans.
    cbn [full_sessions_outcome]. rewrite He.
    unfold has_data_for_day, mbind, M_bind, get_timeout, getenv_discovery_timeout.
    change (discovery_timeout_env w1) with (discovery_timeout_env w).
    by rewrite Henv. }
  split; [|split; [exact Hfail|]].
  - intros date_str records Hans.
    unfold extract_day_with_smart_fallback, mbind, M_bind.
    rewrite get_full_sessions_run. fold full_day answer w1. rewrite Hans.
    cbn [full_sessions_outcome]. by destruct records.
  - intros start_date end_date st rest e Hans He Hout.
    cbn [process_days]. unfold mbind at 1, M_bind at 1.
    unfold process_day. rewrite decide_False by done.
    unfold mbind at 1, M_bind at 1. by rewrite (Hfail _ e Hans He).
Qed.

(** *** Days that are already processed *)

Lemma process_days_all_processed start_date end_date daily_ranges st w :
  Forall (λ day, KStr (strftime_ymd day.1) ∈ processed_dates st) daily_ranges →
  process_days start_date end_date daily_ranges st w = (Returned st, w).
Proof.
  induction 1 as [|[day_start day_end] rest Hday _ IH]; [done|].
  cbn [process_days]. unfold mbind, M_bind.
  unfold process_day. cbn [fst] in Hday. by rewrite decide_True by done.
Qed.

Lemma date_windows_head start_date end_date p :
  start_date ≤ end_date →
  ∃ first_end rest, date_windows start_date end_date p = (start_date, first_end) :: rest.
Proof. intros Hle. rewrite date_windows_step by done. by eexists _, _. Qed.

(** X10: when the progress loaded from the run directory lists the date of
    every day period of the range, [extract_all_data_directly] called with
    [resume] returns the loaded sessions and player details as they are, and
    neither sends a request nor writes a file. The day periods are the list
    that [get_date_ranges] returns; when it raises [OverflowError] instead,
    so does the run, and no request is sent and no file written either. *)
Theorem extract_all_data_directly_nothing_left start_date end_date w
    processed sessions details :
  start_date ≤ end_date →
  load_incremental_progress start_date end_date (files w)
  = Returned (processed, sessions, details) →
  (∀ daily_ranges,
     get_date_ranges start_date end_date Day = Returned daily_ranges →
     Forall (λ day, KStr (strftime_ymd day.1) ∈ processed) daily_ranges →
     extract_all_data_directly start_date end_date true w = (Returned (sessions, details), w))
  ∧ (Forall (λ day, KStr (strftime_ymd day.1) ∈ processed)
       (date_windows start_date end_date Day) →
     extract_all_data_directly start_date end_date true w
     = (if decide (plan_fits start_date end_date Day)
        then Returned (sessions, details) else Raised OverflowError, w)).
Proof.
  intros Hle Hload.
  assert (Forall (λ day, KStr (strftime_ymd day.1) ∈ processed)
            (date_windows start_date end_date Day) →
          extract_all_data_directly start_date end_date true w
          = (if decide (plan_fits start_date end_date Day)
             then Returned (sessions, details) else Raised OverflowError, w)) as Hrun.
  { intros Hall. rewrite extract_all_data_directly_run. unfold initial_progress.
    rewrite Hload.
    assert (processed ≠ ∅) as Hne.
    { destruct (date_windows_head start_date end_date Day Hle) as (first_end & rest & Heq).
      rewrite Heq in Hall. apply Forall_cons in Hall as [Hfirst _]. set_solver. }
    rewrite (decide_True (P := processed ≠ ∅)) by done.
    case_decide; [|done]. by rewrite process_days_all_processed. }
  split; [|exact Hrun].
  intros daily_ranges [Hfits ->]%get_date_ranges_returned Hall.
  rewrite (Hrun Hall). by rewrite decide_True.
Qed.

(** *** The checkpoint at the end of a run *)

#[local] Instance string_le_total : Total string_le.
Proof. intros a b. apply String.leb_total. Qed.

Lemma sorted_dates_sorted processed dates :
  sorted_dates processed = Returned dates → Sorted string_le dates ∧ NoDup dates.
Proof.
  unfold sorted_dates.
  destruct (mapM key_string (elements processed)) as [l|] eqn:Hl; [|done].
  intros [= <-]. split.
  - apply (Sorted_merge_sort string_le).
  - rewrite merge_sort_Permutation.
    apply (NoDup_fmap_1 KStr).
    rewrite (mapM_fmap_Some_inv key_string KStr _ _ Hl).
    + apply NoDup_elements.
    + intros [] ?; cbn; congruence.
Qed.

Lemma process_days_checkpoint start_date end_date daily_ranges st w st' w' :
  can_write (files w) CHECKPOINT_FILE_NAME = true →
  can_complete (files w) CHECKPOINT_FILE_NAME = true →
  process_days start_date end_date daily_ranges st w = (Returned st', w') →
  (processed_dates st'
   = processed_dates st ∪ list_to_set ((λ day, KStr (strftime_ymd day.1)) <$> daily_ranges))
  ∧ utcnow w' = utcnow w
  ∧ (checkpoint_of start_date end_date (utcnow w) st (files w)
     ∨ Exists (λ day, KStr (strftime_ymd day.1) ∉ processed_dates st) daily_ranges →
     checkpoint_of start_date end_date (utcnow w) st' (files w')).
Proof.
  revert st w. induction daily_ranges as [|[day_start day_end] rest IH]; intros st w Hcw Hcc.
  { intros [= <- <-]. split; [set_solver|]. split; [done|].
    intros [?|Hex]; [done|by apply Exists_nil in Hex]. }
  cbn [process_days]. unfold mbind at 1, M_bind at 1.
  destruct (process_day start_date end_date st (day_start, day_end) w) as [[st1|e] w1] eqn:Hday;
    [|done].
  intros Hrest.
  apply process_day_inv in Hday
    as [(Hin & -> & ->)|(Hout & fetched & w0 & players & w2 & dates & Hx & Hp & Hs & -> & ->)].
  - destruct (IH st w Hcw Hcc Hrest) as (Hdates & Hnow & Hck).
    split; [|split; [done|]].
    + rewrite Hdates. cbn [fmap list_fmap fst]. rewrite list_to_set_cons.
      revert Hin.
      generalize (processed_dates st), (KStr (strftime_ymd day_start)).
      generalize (list_to_set ((λ day : period, KStr (strftime_ymd day.1)) <$> rest)
                    : gset pykey).
      clear. intros X Y k Hin. set_solver.
    + intros [Hst|Hex]; apply Hck; [by left|].
      apply Exists_cons in Hex as [Hd|Hex]; [done|by right].
  - cbv zeta in Hrest.
    pose proof (keeps_store_extract_day strptime_ymd day_start day_end
                  (strftime_ymd day_start) w) as (Hf0 & _ & Hn0).
    rewrite Hx in Hf0, Hn0. cbn [snd] in Hf0, Hn0.
    assert (same_store w0 w2) as (Hf2 & _ & Hn2).
    { destruct (dedup_day_sessions dumps_sort_keys fetched).
      - injection Hp as <- <-. apply same_store_refl.
      - pose proof (keeps_store_get_player_details
                      (strftime_ymd day_start +:+ "T00:00:00Z") w0) as Hk.
        by rewrite Hp in Hk. }
    set (st1 := {| processed_dates := {[KStr (strftime_ymd day_start)]} ∪ processed_dates st;
                   all_sessions := _; all_player_details := _ |}) in *.
    set (total := Z.of_nat (length (all_sessions st1))) in *.
    destruct (day_writes_world start_date end_date
                (strftime_ymd day_start +:+ "T00:00:00Z")
                (dedup_day_sessions dumps_sort_keys fetched) players dates total w2)
      as (_ & _ & Hn3 & Hcw3 & Hcc3 & Hck3).
    set (w3 := (update_checkpoint _ _ _ _ _).2) in *.
    assert (can_write (files w3) CHECKPOINT_FILE_NAME = true) as Hcw3'
      by (by rewrite Hcw3, Hf2, Hf0).
    assert (can_complete (files w3) CHECKPOINT_FILE_NAME = true) as Hcc3'
      by (by rewrite Hcc3, Hf2, Hf0).
    assert (utcnow w3 = utcnow w) as Hnow3 by (by rewrite Hn3, Hn2, Hn0).
    destruct (IH st1 w3 Hcw3' Hcc3' Hrest) as (Hdates & Hnow & Hck).
    split; [|split; [by rewrite Hnow|]].
    + rewrite Hdates. subst st1. cbn [fmap list_fmap fst processed_dates].
      rewrite list_to_set_cons.
      generalize (processed_dates st), (KStr (strftime_ymd day_start)).
      generalize (list_to_set ((λ day : period, KStr (strftime_ymd day.1)) <$> rest)
                    : gset pykey).
      clear. intros X Y k. set_solver.
    + intros _. rewrite <- Hnow3. apply Hck. left.
      exists dates. split; [done|].
      rewrite Hck3, Hf2, Hf0, Hcw, Hcc, Hn2, Hn0, Hnow3. done.
Qed.

(** X11: when a run that starts without processed dates returns, and the
    checkpoint can be opened and written to the end, the checkpoint it leaves
    is the one of its range: it lists the date of every day period of the
    range and nothing else, in increasing order and without repetition, and
    its [total_sessions] is the number of sessions that the run returns. *)
Theorem extract_all_data_directly_final_checkpoint start_date end_date resume w
    sessions details :
  start_date ≤ end_date →
  can_write (files w) CHECKPOINT_FILE_NAME = true →
  can_complete (files w) CHECKPOINT_FILE_NAME = true →
  (initial_progress start_date end_date resume w).1 = Returned no_progress →
  (extract_all_data_directly start_date end_date resume w).1 = Returned (sessions, details) →
  ∃ dates daily_ranges,
    get_date_ranges start_date end_date Day = Returned daily_ranges
    ∧ checkpoint_file (files (extract_all_data_directly start_date end_date resume w).2)
      = JsonDoc (checkpoint_data start_date end_date dates
                   (Z.of_nat (length sessions)) (utcnow w))
    ∧ (∀ x, x ∈ dates ↔ ∃ day, day ∈ daily_ranges ∧ x = strftime_ymd day.1)
    ∧ Sorted string_le dates
    ∧ NoDup dates.
Proof.
  intros Hle Hcw Hcc Hinit. rewrite extract_all_data_directly_run, get_date_ranges_run.
  pose proof (initial_progress_world start_date end_date resume w) as Hw.
  destruct (initial_progress start_date end_date resume w) as [o w0].
  cbn [fst snd] in Hinit, Hw. subst o w0.
  case_decide; [|done].
  destruct (process_days start_date end_date (date_windows start_date end_date Day)
              no_progress w) as [[st|e] w'] eqn:Hdays; [|done].
  cbn [fst snd]. intros [= <- <-].
  destruct (process_days_checkpoint _ _ _ _ _ _ _ Hcw Hcc Hdays) as (Hdates & Hnow & Hck).
  destruct Hck as (dates & Hsorted & Hdoc).
  { right. destruct (date_windows_head start_date end_date Day Hle)
      as (first_end & rest & ->).
    apply Exists_cons. left. cbn. set_solver. }
  exists dates, (date_windows start_date end_date Day). split; [done|]. split; [done|].
  destruct (sorted_dates_sorted _ _ Hsorted) as [Hs Hnd].
  split; [|done].
  intros x. rewrite (sorted_dates_elem _ _ x Hsorted), Hdates. cbn [processed_dates].
  rewrite elem_of_union, elem_of_list_to_set, list_elem_of_fmap. split.
  - intros [Hin|(day & [= ->] & Hday)]; [set_solver|by exists day].
  - intros (day & Hday & ->). right. by exists day.
Qed.

(** *** Player details *)

(** X12: a day of the loop asks for player details only when it has found
    sessions. The requests of a day that adds no session are all requests for
    sessions; a day that adds sessions sends, after its requests for
    sessions, one request for the player details of [date + "T00:00:00Z"],
    with the timeout of the client. *)
Theorem process_day_player_details start_date end_date st day_start day_end w st' :
  (process_day start_date end_date st (day_start, day_end) w).1 = Returned st' →
  ∃ rs, requests (process_day start_date end_date st (day_start, day_end) w).2
        = requests w ++ rs
        ∧ (all_sessions st' = all_sessions st → Forall (λ r, sessions_request r.1) rs)
        ∧ (all_sessions st' ≠ all_sessions st →
           ∃ rs1, rs = rs1 ++ [(GetPlayerDetails (strftime_ymd day_start +:+ "T00:00:00Z"),
                                timeout w)]
                  ∧ Forall (λ r, sessions_request r.1) rs1).
Proof.
  destruct (process_day start_date end_date st (day_start, day_end) w) as [o w'] eqn:Hday.
  cbn [fst snd]. intros ->.
  apply process_day_inv in Hday
    as [(Hin & -> & ->)|(Hout & fetched & w0 & players & w2 & dates & Hx & Hp & Hs & -> & ->)].
  { exists []. rewrite app_nil_r. split; [done|]. split; [by constructor|done]. }
  destruct (sends_extract_day strptime_ymd day_start day_end (strftime_ymd day_start) w)
    as (rs & Hrs & _ & HQ).
  pose proof (keeps_timeout_extract_day strptime_ymd day_start day_end
                (strftime_ymd day_start) w) as Ht.
  rewrite Hx in Hrs, Ht. cbn [snd] in Hrs, Ht.
  destruct (day_writes_world start_date end_date
              (strftime_ymd day_start +:+ "T00:00:00Z")
              (dedup_day_sessions dumps_sort_keys fetched) players dates
              (Z.of_nat (length (all_sessions st
                                   ++ (JObj <$> dedup_day_sessions dumps_sort_keys fetched))))
              w2) as (_ & Hr3 & _).
  cbv zeta. rewrite Hr3. cbn [all_sessions].
  destruct (dedup_day_sessions dumps_sort_keys fetched) as [|s day_sessions] eqn:Hdedup.
  - injection Hp as <- <-. exists rs. rewrite app_nil_r.
    split; [done|]. split; [done|]. by intros [].
  - assert (requests w2
            = requests w0 ++ [(GetPlayerDetails (strftime_ymd day_start +:+ "T00:00:00Z"),
                               timeout w0)]) as Hr2.
    { revert Hp. unfold get_player_details, try_except, post, mret, M_ret.
      destruct (api w0 _ _ _) as [records|e]; [by intros [= <- <-]|].
      destruct (is_Exception e); [by intros [= <- <-]|done]. }
    exists (rs ++ [(GetPlayerDetails (strftime_ymd day_start +:+ "T00:00:00Z"), timeout w)]).
    rewrite Hr2, Hrs, Ht, app_assoc. split; [done|]. split.
    + intros Heq. apply (f_equal length) in Heq. rewrite length_app in Heq. cbn in Heq. lia.
    + intros _. by exists rs.
Qed.

End RunOutcome.

Lemma extract_day_malformed_discovery_timeout_witness :
  discovery_timeout_env malformed_env_world = EnvMalformed
  ∧ extract_day_with_smart_fallback parse_ymd mar_2 (mar_2 + 86399) "2024-03-02"
      malformed_env_world
    = (Raised ValueError,
       with_request (GetFullSessionsByDateRange mar_2 (mar_2 + 86399), 60)
         malformed_env_world).
Proof.
  split; [reflexivity|].
  destruct (extract_day_malformed_discovery_timeout print_json parse_ymd mar_2 (mar_2 + 86399)
              malformed_env_world eq_refl) as (_ & Hfail & _).
  exact (Hfail "2024-03-02"%string RequestError eq_refl eq_refl).
Defined.

Lemma extract_all_data_directly_nothing_left_witness :
  let w := world_of one_session_a_day finished_dir in
  mar_1 ≤ mar_2
  ∧ get_date_ranges mar_1 mar_2 Day = Returned [(mar_1, mar_1 + 86399); (mar_2, mar_2)]
  ∧ ∃ sessions details,
      extract_all_data_directly print_json parse_ymd mar_1 mar_2 true w
      = (Returned (sessions, details), w)
      ∧ sessions = [JObj (session_on "2024-03-01T00:00:00Z" 7);
                    JObj (session_on "2024-03-02T00:00:00Z" 7)].
Proof.
  intros w.
  assert (mar_1 ≤ mar_2) as Hle by (unfold mar_1, mar_2; lia).
  assert (get_date_ranges mar_1 mar_2 Day
          = Returned [(mar_1, mar_1 + 86399); (mar_2, mar_2)]) as Hplan
    by (vm_compute; reflexivity).
  pose proof (load_incremental_progress_checkpoint_data mar_1 mar_2
                ["2024-03-01"; "2024-03-02"]%string 2 "2024-03-04T09:00:00" finished_dir
                mar_1 mar_2 eq_refl eq_refl eq_refl) as Hload.
  unfold load_logs in Hload.
  assert (Forall (λ day : period,
                    KStr (strftime_ymd day.1)
                    ∈@{gset pykey} list_to_set (KStr <$> ["2024-03-01"; "2024-03-02"]%string))
            [(mar_1, mar_1 + 86399); (mar_2, mar_2)]) as Hall.
  { apply Forall_cons_2; [|apply Forall_cons_2; [|apply Forall_nil_2]];
      apply elem_of_dates_set; cbn [fst].
    - assert (strftime_ymd mar_1 = "2024-03-01"%string) as -> by (vm_compute; reflexivity).
      left.
    - assert (strftime_ymd mar_2 = "2024-03-02"%string) as -> by (vm_compute; reflexivity).
      right. left. }
  split; [exact Hle|]. split; [exact Hplan|].
  eexists _, _. split.
  - destruct (extract_all_data_directly_nothing_left print_json parse_ymd mar_1 mar_2 w
                _ _ _ Hle Hload) as [Hrun _].
    exact (Hrun _ Hplan Hall).
  - vm_compute. reflexivity.
Defined.

Lemma extract_all_data_directly_final_checkpoint_witness :
  let w := world_of (scripted two_days_script (Json [])) fresh_run_dir in
  mar_1 ≤ mar_2
  ∧ can_write (files w) CHECKPOINT_FILE_NAME = true
  ∧ can_complete (files w) CHECKPOINT_FILE_NAME = true
  ∧ ∃ dates daily_ranges,
      get_date_ranges mar_1 mar_2 Day = Returned daily_ranges
      ∧ checkpoint_file (files (extract_all_data_directly print_json parse_ymd
                                  mar_1 mar_2 true w).2)
        = JsonDoc (checkpoint_data mar_1 mar_2 dates 2 "2024-03-04T09:00:00")
      ∧ (∀ x, x ∈ dates ↔ ∃ day, day ∈ daily_ranges ∧ x = strftime_ymd day.1)
      ∧ Sorted string_le dates
      ∧ NoDup dates.
Proof.
  intros w.
  assert (mar_1 ≤ mar_2) as Hle by (unfold mar_1, mar_2; lia).
  assert ((initial_progress mar_1 mar_2 true w).1 = Returned no_progress) as Hinit
    by (vm_compute; reflexivity).
  assert ((extract_all_data_directly print_json parse_ymd mar_1 mar_2 true w).1
          = Returned ([JObj (session_on "2024-03-01T00:00:00Z" 7);
                       JObj (session_on "2024-03-02T00:00:00Z" 7)], ∅))
    as Hret by (vm_compute; reflexivity).
  split; [exact Hle|]. split; [reflexivity|]. split; [reflexivity|].
  exact (extract_all_data_directly_final_checkpoint print_json parse_ymd mar_1 mar_2 true w
           _ _ Hle eq_refl eq_refl Hinit Hret).
Defined.

Lemma process_day_player_details_witness :
  let w := world_of one_session_a_day fresh_run_dir in
  ∃ rs1,
    requests (process_day print_json parse_ymd mar_1 mar_3 no_progress
                (mar_1, mar_1 + 86399) w).2
    = requests w ++ rs1 ++ [(GetPlayerDetails "2024-03-01T00:00:00Z", 60)]
    ∧ Forall (λ r, sessions_request r.1) rs1.
Proof.
  intros w.
  assert ((process_day print_json parse_ymd mar_1 mar_3 no_progress
             (mar_1, mar_1 + 86399) w).1 = Returned day_1_progress) as Hret
    by (vm_compute; reflexivity).
  destruct (process_day_player_details print_json parse_ymd mar_1 mar_3 no_progress
              mar_1 (mar_1 + 86399) w day_1_progress Hret) as (rs & Hrs & _ & Hadd).
  assert (all_sessions day_1_progress ≠ all_sessions no_progress) as Hne by discriminate.
  destruct (Hadd Hne) as (rs1 & Hrs1 & Hall).
  exists rs1. split; [|exact Hall].
  subst rs. exact Hrs.
Defined.

(** ** Dictionaries *)

Section Dicts.

Implicit Types (d other : record) (key k : string) (value v : json).

Lemma dict_lookup_set d key value k :
  dict_lookup (dict_set d key value) k
  = if decide (k = key) then Some value else dict_lookup d k.
Proof.
  induction d as [|[k' v'] d IH]; cbn.
  - destruct (decide (key = k)), (decide (k = key)); congruence.
  - destruct (decide (k' = key)) as [->|Hne]; cbn.
    + destruct (decide (key = k)), (decide (k = key)); congruence.
    + destruct (decide (k' = k)) as [->|Hne'].
      * by rewrite decide_False by congruence.
      * apply IH.
Qed.

Lemma dict_set_keys d key value k :
  k ∈ (dict_set d key value).*1 ↔ k = key ∨ k ∈ d.*1.
Proof.
  induction d as [|[k' v'] d IH]; cbn.
  - rewrite list_elem_of_singleton, elem_of_nil. tauto.
  - destruct (decide (k' = key)) as [->|Hne]; cbn; rewrite !elem_of_cons, ?IH; tauto.
Qed.

Lemma dict_set_NoDup d key value : NoDup d.*1 → NoDup (dict_set d key value).*1.
Proof.
  induction d as [|[k' v'] d IH]; cbn; intros Hnd.
  - repeat constructor. apply not_elem_of_nil.
  - apply NoDup_cons in Hnd as [Hk Hnd].
    destruct (decide (k' = key)) as [->|Hne]; cbn; apply NoDup_cons; [done|].
    split; [|by apply IH]. rewrite dict_set_keys. intros [|]; congruence.
Qed.

Lemma dict_lookup_elem d k : is_Some (dict_lookup d k) ↔ k ∈ d.*1.
Proof.
  induction d as [|[k' v'] d IH]; cbn.
  - rewrite elem_of_nil. split; [by intros []|done].
  - rewrite elem_of_cons. destruct (decide (k' = k)) as [->|Hne].
    + split; [by left|by eexists].
    + rewrite IH. split; [by right|]. intros [|]; congruence.
Qed.

(** After [d.update(other)], a key of [other] has the value that [other]
    gives it, and any other key has the value it had. *)
Lemma dict_lookup_update d other k :
  NoDup other.*1 →
  dict_lookup (dict_update d other) k
  = match dict_lookup other k with
    | Some v => Some v
    | None => dict_lookup d k
    end.
Proof.
  unfold dict_update. revert d.
  induction other as [|[k' v'] other IH]; intros d Hnd; [done|].
  cbn in Hnd. apply NoDup_cons in Hnd as [Hk Hnd].
  cbn [foldl fst snd dict_lookup]. rewrite IH by done.
  destruct (decide (k' = k)) as [->|Hne].
  - destruct (dict_lookup other k) as [v|] eqn:Hv.
    + destruct Hk. apply dict_lookup_elem. by eexists.
    + rewrite dict_lookup_set. by rewrite decide_True.
  - destruct (dict_lookup other k); [done|].
    rewrite dict_lookup_set. by rewrite decide_False by congruence.
Qed.

End Dicts.

(** ** The client *)

Section Client.

Import StatsportsClient.

Implicit Types (self : client) (payload extra : option record) (net : network).

(** X13: in [body] mode, [_inject_auth_body] returns a payload that always
    carries [thirdPartyApiId]: the value that the caller gave it, and the key
    of the client only when the caller gave none; every other key keeps its
    value. In any other mode the payload is returned as it is. A payload that
    carries the field already, like the ones that [get_full_sessions] and
    [get_player_details] build, is left as it is in every mode, so these
    requests carry the key in their body in [headers] mode as well; and the
    function does nothing to its own result. *)
Theorem _inject_auth_body_setdefault self payload :
  let given := default [] payload in
  let out := _inject_auth_body self payload in
  (auth_mode self = "body"%string →
     dict_lookup out "thirdPartyApiId"
     = Some (dict_get given "thirdPartyApiId" (JStr (api_key self)))
     ∧ ∀ k, k ≠ "thirdPartyApiId"%string → dict_lookup out k = dict_lookup given k)
  ∧ (auth_mode self ≠ "body"%string → out = given)
  ∧ (is_Some (dict_lookup given "thirdPartyApiId") → out = given)
  ∧ (∀ req, _inject_auth_body self (Some (payload_of (api_key self) req))
            = payload_of (api_key self) req)
  ∧ _inject_auth_body self (Some out) = out.
Proof.
  intros given out.
  assert (is_Some (dict_lookup given "thirdPartyApiId") → out = given) as Hkeep.
  { intros [v Hv]. subst out. unfold _inject_auth_body. fold given.
    case_decide; [|done]. unfold dict_setdefault. by rewrite Hv. }
  split; [|split; [|split; [done|split]]].
  - intros Hmode. subst out. unfold _inject_auth_body. fold given.
    rewrite decide_True by done. unfold dict_setdefault, dict_get.
    destruct (dict_lookup given "thirdPartyApiId") as [v|] eqn:Hv.
    + by rewrite Hv.
    + rewrite dict_lookup_set, decide_True by done. split; [done|].
      intros k Hk. by rewrite dict_lookup_set, decide_False.
  - intros Hmode. subst out. unfold _inject_auth_body. by rewrite decide_False.
  - intros req. unfold _inject_auth_body. cbn [default from_option id].
    case_decide; [|done]. unfold dict_setdefault. by destruct req.
  - destruct (decide (auth_mode self = "body"%string)) as [Hmode|Hmode].
    + assert (is_Some (dict_lookup out "thirdPartyApiId")) as [v Hv].
      { subst out. unfold _inject_auth_body. fold given. rewrite decide_True by done.
        unfold dict_setdefault.
        destruct (dict_lookup given "thirdPartyApiId") as [v|] eqn:Hin; [by rewrite Hin|].
        rewrite dict_lookup_set, decide_True by done. by eexists. }
      clearbody out. unfold _inject_auth_body. cbn [default from_option id].
      rewrite decide_True by done. unfold dict_setdefault. by rewrite Hv.
    + clearbody out. unfold _inject_auth_body. cbn [default from_option id].
      by rewrite decide_False.
Qed.

(** X14: the headers that [_build_headers] returns. A header of [extra] has
    the value that [extra] gives it, whatever the client would have sent. Any
    other header is [api-version], [Content-Type], [X-API-KEY] or
    [X-API-SECRET], with the version of the client and [application/json];
    the key is sent as a header in [headers] mode only, and the secret only
    in [headers] mode and when it is not empty. *)
Theorem _build_headers_precedence self extra :
  NoDup (default [] extra).*1 →
  let out := _build_headers self extra in
  let by_headers := bool_decide (auth_mode self = "headers"%string) in
  (∀ k v, dict_lookup (default [] extra) k = Some v → dict_lookup out k = Some v)
  ∧ (∀ k, dict_lookup (default [] extra) k = None →
       dict_lookup out k
       = if decide (k = "api-version"%string) then Some (JStr (api_version self))
         else if decide (k = "Content-Type"%string) then Some (JStr "application/json")
         else if decide (k = "X-API-KEY"%string)
              then (if by_headers then Some (JStr (api_key self)) else None)
         else if decide (k = "X-API-SECRET"%string)
              then (if by_headers && bool_decide (api_secret self ≠ EmptyString)
                    then Some (JStr (api_secret self)) else None)
         else None).
Proof.
  intros Hnd out by_headers.
  set (own := if decide (auth_mode self = "headers"%string)
              then let headers := dict_update [("api-version"%string, JStr (api_version self));
                                               ("Content-Type"%string, JStr "application/json")]
                                    [("X-API-KEY"%string, JStr (api_key self))] in
                   if decide (api_secret self ≠ EmptyString)
                   then dict_set headers "X-API-SECRET" (JStr (api_secret self))
                   else headers
              else [("api-version"%string, JStr (api_version self));
                    ("Content-Type"%string, JStr "application/json")]).
  assert (∀ k, dict_lookup out k
               = match dict_lookup (default [] extra) k with
                 | Some v => Some v
                 | None => dict_lookup own k
                 end) as Hout.
  { intros k. subst out. unfold _build_headers. fold own.
    destruct extra as [[|kv extra']|]; [done| |done].
    by rewrite dict_lookup_update. }
  split.
  - intros k v Hk. by rewrite Hout, Hk.
  - intros k Hk. rewrite Hout, Hk. subst own by_headers.
    destruct (decide (auth_mode self = "headers"%string)) as [Hmode|Hmode].
    + rewrite bool_decide_eq_true_2 by done. cbv zeta.
      destruct (decide (api_secret self ≠ EmptyString)) as [Hs|Hs].
      * rewrite bool_decide_eq_true_2 by done.
        rewrite dict_lookup_set, dict_lookup_update by (cbn; repeat constructor; set_solver).
        cbn [dict_lookup andb].
        repeat (case_decide; subst; try done; try congruence).
      * rewrite bool_decide_eq_false_2 by done.
        rewrite dict_lookup_update by (cbn; repeat constructor; set_solver).
        cbn [dict_lookup andb].
        repeat (case_decide; subst; try done; try congruence).
    + rewrite bool_decide_eq_false_2 by done. cbn [dict_lookup andb].
      repeat (case_decide; subst; try done; try congruence).
Qed.

(** *** The retries *)

Lemma retry_loop_step req retry attempt net :
  retry_loop req retry attempt net
  = match attempt_result (server net (length (sent net)) req) with
    | inl ended => (ended, with_sent req net)
    | inr error =>
        if decide (attempt ≤ retry)
        then retry_loop req retry (attempt + 1) (with_sleep attempt (with_sent req net))
        else (inr error, with_sent req net)
    end.
Proof.
  rewrite retry_loop_equation_1.
  destruct (attempt_result _) as [ended|error]; cbn; [done|].
  by destruct (decide (attempt ≤ retry)).
Qed.

Lemma after_attempts_one req attempt net :
  after_attempts req attempt 1 net = with_sent req net.
Proof. unfold after_attempts, with_sent. cbn. by rewrite app_nil_r. Qed.

Lemma after_attempts_succ req attempt k net :
  after_attempts req (attempt + 1) (S k) (with_sleep attempt (with_sent req net))
  = after_attempts req attempt (S (S k)) net.
Proof.
  unfold after_attempts, with_sleep, with_sent. cbn [server sent slept]. f_equal.
  - rewrite <- app_assoc. f_equal.
  - rewrite <- app_assoc. f_equal.
    replace (Z.of_nat (S (S k)) - 1) with (Z.succ (Z.of_nat (S k) - 1)) by lia.
    rewrite (seqZ_cons attempt) by lia. cbn. do 2 f_equal; lia.
Qed.



(** However the answers go, the request is sent at least once and at most
    once more than the counter allows. *)
Lemma retry_loop_bound req retry attempt net :
  ∃ k, (1 ≤ k)%nat
       ∧ Z.of_nat k ≤ Z.max 0 (retry + 1 - attempt) + 1
       ∧ (retry_loop req retry attempt net).2 = after_attempts req attempt k net.
Proof.
  remember (Z.to_nat (retry + 1 - attempt)) as m eqn:Hm.
  revert attempt net Hm. induction m as [m IH] using lt_wf_ind. intros attempt net Hm.
  rewrite retry_loop_step.
  destruct (attempt_result _) as [ended|error].
  { exists 1%nat. rewrite after_attempts_one. split; [lia|]. split; [lia|done]. }
  destruct (decide (attempt ≤ retry)) as [Hle|Hgt].
  - destruct (IH (Z.to_nat (retry + 1 - (attempt + 1))) ltac:(lia) (attempt + 1)
                (with_sleep attempt (with_sent req net)) eq_refl) as (k & Hk & Hmax & Hnet).
    destruct k as [|k]; [lia|].
    exists (S (S k)). rewrite Hnet, after_attempts_succ. split; [lia|]. split; [lia|done].
  - exists 1%nat. rewrite after_attempts_one. split; [lia|]. split; [lia|done].
Qed.

(** X15: whatever the server does, a call of [post] or [get] sends its
    request at least once and at most [retry + 1] times (once when [retry] is
    negative), the same request each time: the URL is the base URL, a slash
    and the path without its leading slashes, and [post] sends the payload
    that [_inject_auth_body] returns. Between two attempts the client sleeps
    [backoff ** 1], [backoff ** 2], ... seconds, and it does not sleep after
    the last attempt. *)
Theorem post_attempts_bounded self path json params headers retry net :
  (∃ k, (1 ≤ k ≤ Z.to_nat retry + 1)%nat
        ∧ (post self path json params headers retry net).2
          = after_attempts (post_request self path json params headers) 1 k net)
  ∧ (∃ k, (1 ≤ k ≤ Z.to_nat retry + 1)%nat
          ∧ (get self path params headers retry net).2
            = after_attempts (get_request self path params headers) 1 k net).
Proof.
  split.
  - destruct (retry_loop_bound (post_request self path json params headers) retry 1 net)
      as (k & Hk & Hmax & Hnet).
    exists k. split; [lia|]. exact Hnet.
  - destruct (retry_loop_bound (get_request self path params headers) retry 1 net)
      as (k & Hk & Hmax & Hnet).
    exists k. split; [lia|]. exact Hnet.
Qed.


(** X17: what a request of the extractor is on the wire. The call of
    [client.post] that [get_full_sessions] or [get_player_details] makes
    sends between one and three HTTP requests, all of them a POST to the base
    URL followed by the path of the endpoint, with the timeout that the client
    has at the time, the headers of the client, and a body that holds the
    key of the client under [thirdPartyApiId] in either mode of
    authentication. *)
Theorem extractor_request_on_the_wire self (req : request) net :
  let net' := (post self (path_of req) (Some (payload_of (api_key self) req)) None None 2
                 net).2 in
  ∃ k, (1 ≤ k ≤ 3)%nat
       ∧ server net' = server net
       ∧ sent net'
         = sent net
           ++ replicate k
                {| method := POST;
                   url := base_url self +:+ path_of req;
                   json_payload := Some (payload_of (api_key self) req);
                   query_params := None;
                   request_headers := _build_headers self None;
                   request_timeout := timeout self |}
       ∧ dict_lookup (payload_of (api_key self) req) "thirdPartyApiId"
         = Some (JStr (api_key self)).
Proof.
  intros net'.
  destruct (retry_loop_bound
              (post_request self (path_of req) (Some (payload_of (api_key self) req))
                 None None) 2 1 net) as (k & Hk & Hmax & Hnet).
  exists k. split; [lia|]. subst net'. unfold post. fold (post_request self (path_of req)
    (Some (payload_of (api_key self) req)) None None). rewrite Hnet.
  split; [done|]. split; [|by destruct req].
  cbn [after_attempts sent]. do 2 f_equal. unfold post_request. f_equal.
  - by destruct req.
  - f_equal. unfold _inject_auth_body. cbn [default from_option id].
    case_decide; [|done]. unfold dict_setdefault. by destruct req.
Qed.

End Client.


Lemma _inject_auth_body_setdefault_witness :
  StatsportsClient.auth_mode body_client = "body"%string
  ∧ dict_lookup
      (StatsportsClient._inject_auth_body body_client
         (Some [("sessionDate"%string, JStr "2024-03-01T00:00:00Z")]))
      "thirdPartyApiId"
    = Some (JStr (StatsportsClient.api_key body_client)).
Proof.
  split; [reflexivity|].
  destruct (_inject_auth_body_setdefault body_client
              (Some [("sessionDate"%string, JStr "2024-03-01T00:00:00Z")]))
    as (Hbody & _).
  exact (proj1 (Hbody eq_refl)).
Defined.

Lemma _build_headers_precedence_witness :
  let extra := Some [("X-API-KEY"%string, JStr "other"); ("Accept"%string, JStr "text/csv")] in
  NoDup (default [] extra).*1
  ∧ dict_lookup (StatsportsClient._build_headers headers_client extra) "X-API-KEY"
    = Some (JStr "other").
Proof.
  intros extra.
  assert (NoDup (default [] extra).*1) as Hnd
    by (apply (bool_decide_unpack _); vm_compute; reflexivity).
  split; [exact Hnd|].
  destruct (_build_headers_precedence headers_client extra Hnd) as [Hextra _].
  exact (Hextra "X-API-KEY"%string (JStr "other") eq_refl).
Defined.

(** ** The range that [main] plans *)

Section MainFacts.

Context (strptime_ymd : string → option datetime).

(** [strptime] with the format [%Y-%m-%d] returns a date at 00:00:00. *)
Hypothesis strptime_ymd_midnight : ∀ s t, strptime_ymd s = Some t → time_of_day t = 0.

Lemma main_dates_inv argv start_date end_date :
  main_dates strptime_ymd argv = inr (start_date, end_date) →
  ∃ script start_arg end_arg,
    argv = [script; start_arg; end_arg]
    ∧ strptime_ymd start_arg = Some start_date
    ∧ strptime_ymd end_arg = Some end_date
    ∧ start_date ≤ end_date.
Proof.
  unfold main_dates.
  destruct argv as [|script [|start_arg [|end_arg [|? ?]]]]; try done.
  destruct (strptime_ymd start_arg) as [s|] eqn:Hs; [|done].
  destruct (strptime_ymd end_arg) as [e|] eqn:He; [|done].
  case_decide; [done|]. intros [= <- <-].
  exists script, start_arg, end_arg. repeat split; try done. lia.
Qed.

Lemma format_date_for_api_midnight t :
  time_of_day t = 0 → format_date_for_api t = strftime_ymd t +:+ "T00:00:00.000Z".
Proof. unfold format_date_for_api. by intros ->. Qed.

Lemma midnight_whole_day t : time_of_day t = 0 → (whole_day (date_of t)).1 = t.
Proof.
  unfold time_of_day, whole_day, date_of, SECONDS_PER_DAY. intros H0. cbn.
  pose proof (Z.div_mod t 86400). lia.
Qed.

(** From midnight to midnight, the plan of day periods ends one day after
    the end date. *)
Lemma plan_end_midnight start_date end_date :
  time_of_day start_date = 0 → time_of_day end_date = 0 →
  start_date + window_count Day start_date end_date * delta_of Day = end_date + 86400.
Proof.
  intros Hs He. rewrite (window_count_midnight _ _ Hs). unfold dates_spanned.
  pose proof (midnight_whole_day _ Hs) as Hds. pose proof (midnight_whole_day _ He) as Hde.
  unfold whole_day, delta_of, SECONDS_PER_DAY in *. cbn [fst] in Hds, Hde. lia.
Qed.

(** X18: the plan of a run started from the command line. For the two dates
    that [main] accepts, when the end date is before 9999-12-31, the day
    periods are one per calendar date from the start date to the end date;
    all but the last are whole days, 00:00:00 to 23:59:59; and the last, the
    one of the end date, is the single instant 00:00:00 of that date. So the
    full-day request for the end date asks for [sessionStartDate] =
    [sessionEndDate] = the date at [T00:00:00.000Z], and its hourly periods
    are that one instant again. When the end date is 9999-12-31 or later, the
    plan of the day periods raises [OverflowError]. *)
Theorem main_dates_plan argv start_date end_date :
  main_dates strptime_ymd argv = inr (start_date, end_date) →
  start_date ≤ end_date
  ∧ (end_date + 86400 ≤ DATETIME_MAX →
     ∃ days,
       get_date_ranges start_date end_date Day = Returned days
       ∧ Z.of_nat (length days) = date_of end_date - date_of start_date + 1
       ∧ last days = Some (end_date, end_date)
       ∧ (∀ (i : nat) day,
            days !! i = Some day → (S i < length days)%nat →
            day = whole_day (date_of start_date + Z.of_nat i))
       ∧ get_date_ranges end_date end_date Hour = Returned [(end_date, end_date)])
  ∧ (DATETIME_MAX < end_date + 86400 →
     get_date_ranges start_date end_date Day = Raised OverflowError)
  ∧ (∀ api_key,
       payload_of api_key (GetFullSessionsByDateRange end_date end_date)
       = [("thirdPartyApiId"%string, JStr api_key);
          ("sessionStartDate"%string, JStr (strftime_ymd end_date +:+ "T00:00:00.000Z"));
          ("sessionEndDate"%string, JStr (strftime_ymd end_date +:+ "T00:00:00.000Z"))]).
Proof.
  intros (script & start_arg & end_arg & -> & Hs%strptime_ymd_midnight
          & He%strptime_ymd_midnight & Hle)%main_dates_inv.
  pose proof (plan_end_midnight _ _ Hs He) as Hend.
  split; [done|]. split; [|split].
  - intros Hfits. set (days := date_windows start_date end_date Day).
    pose proof (date_windows_length start_date end_date Day Hle) as Hlen.
    rewrite (window_count_midnight _ _ Hs) in Hlen. unfold dates_spanned in Hlen.
    fold days in Hlen.
    assert (date_of start_date ≤ date_of end_date) as Hdates.
    { unfold date_of, SECONDS_PER_DAY. apply Z.div_le_mono; lia. }
    exists days. split; [|split; [done|split; [|split]]].
    + rewrite get_date_ranges_run, decide_True; [done|].
      right. rewrite Hend. done.
    + rewrite last_lookup.
      assert (Z.of_nat (pred (length days)) = date_of end_date - date_of start_date) as Hn.
      { unfold period, datetime in *. lia. }
      apply date_windows_lookup. split.
      * rewrite (window_midnight _ _ _ Hs), Hn.
        replace (date_of start_date + (date_of end_date - date_of start_date))
          with (date_of end_date) by lia.
        rewrite (midnight_whole_day _ He). f_equal.
        unfold whole_day, SECONDS_PER_DAY. cbn [snd].
        pose proof (midnight_whole_day _ He) as Hd.
        unfold whole_day, SECONDS_PER_DAY in Hd. cbn [fst] in Hd. lia.
      * rewrite (window_count_midnight _ _ Hs), Hn. unfold dates_spanned. lia.
    + intros i day Hi HS. apply date_windows_lookup in Hi as [-> Hi].
      assert (Z.of_nat (S i) < date_of end_date - date_of start_date + 1) as HSi.
      { unfold period, datetime in *. lia. }
      rewrite (window_midnight _ _ _ Hs).
      destruct (whole_day (date_of start_date + Z.of_nat i)) as [a b] eqn:Hw.
      cbn [fst snd]. f_equal. apply Z.min_l.
      unfold whole_day in Hw. injection Hw as <- <-.
      pose proof (midnight_whole_day _ He) as Hd.
      unfold whole_day in Hd. cbn [fst] in Hd. unfold SECONDS_PER_DAY in *.
      nia.
    + rewrite get_date_ranges_run, decide_True, date_windows_instant; [done|].
      apply plan_fits_end. unfold delta_of, SECONDS_PER_HOUR. lia.
  - intros Hover. rewrite get_date_ranges_run, decide_False; [done|].
    intros [Hlt|Hfit]; [lia|]. rewrite Hend in Hfit. lia.
  - intros api_key. cbn [payload_of]. by rewrite (format_date_for_api_midnight _ He).
Qed.

End MainFacts.

Lemma parse_ymd_midnight s t : parse_ymd s = Some t → time_of_day t = 0.
Proof.
  unfold parse_ymd. case_decide; [|done]. intros [= <-].
  unfold time_of_day. apply Z_mod_mult.
Qed.

Lemma main_dates_plan_witness :
  main_dates parse_ymd ["extract_statsports_data.py"; "2024-03-01"; "2024-03-03"]
  = inr (mar_1, mar_3)
  ∧ mar_3 + 86400 ≤ DATETIME_MAX
  ∧ ∃ days,
      get_date_ranges mar_1 mar_3 Day = Returned days
      ∧ last days = Some (mar_3, mar_3)
      ∧ get_date_ranges mar_3 mar_3 Hour = Returned [(mar_3, mar_3)].
Proof.
  assert (main_dates parse_ymd ["extract_statsports_data.py"; "2024-03-01"; "2024-03-03"]
          = inr (mar_1, mar_3)) as Hargs by (vm_compute; reflexivity).
  assert (mar_3 + 86400 ≤ DATETIME_MAX) as Hfits by (vm_compute; discriminate).
  split; [exact Hargs|]. split; [exact Hfits|].
  destruct (main_dates_plan parse_ymd parse_ymd_midnight _ _ _ Hargs)
    as (_ & Hplan & _).
  destruct (Hplan Hfits) as (days & Hdays & _ & Hlast & _ & Hhours).
  exists days. split; [exact Hdays|]. split; [exact Hlast|exact Hhours].
Defined.

(** ** The run directory that [main] prepares *)

Section MainInit.

Lemma touch_run name w :
  touch name w
  = if can_write (files w) name
    then (Returned tt, with_files (touched name (files w)) [] w)
    else (Raised OSError, with_files (files w) [OpenFailed name None] w).
Proof. done. Qed.

Lemma touched_frame name dir :
  can_write (touched name dir) = can_write dir
  ∧ can_complete (touched name dir) = can_complete dir.
Proof. unfold touched, with_log. by repeat case_decide. Qed.

(** X19: [main] never resumes. When the three files of the run directory
    can be opened and the checkpoint can be written to the end, the block
    that prepares the directory leaves both logs in place, with the lines
    they had, and a checkpoint for the range that lists no date, whatever
    checkpoint was there. When the three files can be opened, the extraction
    that follows, called with [resume], starts from no processed date, no
    session and no player details, whether the write of the checkpoint came
    to its end or not. When a log cannot be opened, the block ends there and
    the checkpoint is not written. *)
Theorem init_progress_files_resets start_date end_date w :
  let w' := (init_progress_files start_date end_date w).2 in
  (init_progress_files start_date end_date w).1 = Returned tt
  ∧ (can_write (files w) PROGRESS_SESSIONS_NAME = true →
     can_write (files w) PROGRESS_PLAYERS_NAME = true →
     can_write (files w) CHECKPOINT_FILE_NAME = true →
     progress_sessions (files w') = Some (default [] (progress_sessions (files w)))
     ∧ progress_players (files w') = Some (default [] (progress_players (files w)))
     ∧ checkpoint_file (files w')
       = (if can_complete (files w) CHECKPOINT_FILE_NAME
          then JsonDoc (checkpoint_data start_date end_date [] 0 (utcnow w))
          else NotJson)
     ∧ (initial_progress start_date end_date true w').1 = Returned no_progress)
  ∧ (can_write (files w) PROGRESS_SESSIONS_NAME = false
     ∨ can_write (files w) PROGRESS_PLAYERS_NAME = false →
     checkpoint_file (files w') = checkpoint_file (files w)).
Proof.
  intros w'. subst w'.
  unfold init_progress_files, try_except, mbind, M_bind.
  rewrite touch_run.
  destruct (can_write (files w) PROGRESS_SESSIONS_NAME) eqn:Hs; cbn [is_Exception];
    [|split; [done|]; split; [done|]; by intros _].
  rewrite touch_run. rewrite files_with_files.
  destruct (touched_frame PROGRESS_SESSIONS_NAME (files w)) as [Hcw Hcc].
  rewrite Hcw.
  destruct (can_write (files w) PROGRESS_PLAYERS_NAME) eqn:Hp; cbn [is_Exception];
    [|split; [done|]; split; [done|]; by intros _].
  rewrite update_checkpoint_run. cbv zeta. rewrite !files_with_files, !utcnow_with_files.
  destruct (touched_frame PROGRESS_PLAYERS_NAME (touched PROGRESS_SESSIONS_NAME (files w)))
    as [Hcw2 Hcc2].
  rewrite Hcw2, Hcc2, Hcw, Hcc.
  destruct (can_write (files w) CHECKPOINT_FILE_NAME) eqn:Hc; cbn [fst snd is_Exception].
  - split; [done|]. split; [|by intros [|]]. intros _ _ _.
    destruct (can_complete (files w) CHECKPOINT_FILE_NAME) eqn:Hd;
      rewrite !files_with_files; (split; [done|]); (split; [done|]); (split; [done|]);
      unfold initial_progress; rewrite files_with_files.
    + rewrite (load_incremental_progress_checkpoint_data start_date end_date [] 0 (utcnow w)
                 (with_checkpoint _ _) start_date end_date eq_refl eq_refl eq_refl).
      change (list_to_set (KStr <$> [])) with (∅ : gset pykey).
      rewrite load_logs_empty. cbn [fst].
      by rewrite decide_False by (by intros []).
    + rewrite load_incremental_progress_no_checkpoint by (by right). cbn [fst].
      by rewrite decide_False by (by intros []).
  - split; [done|]. split; [done|]. by intros [|].
Qed.

End MainInit.

Lemma init_progress_files_resets_witness :
  let w := world_of one_session_a_day interrupted_dir in
  checkpoint_file (files w)
  = JsonDoc (checkpoint_data mar_1 mar_3 ["2024-03-01"; "2024-03-02"] 2 "2024-03-04T09:00:00")
  ∧ (initial_progress mar_1 mar_3 true (init_progress_files mar_1 mar_3 w).2).1
    = Returned no_progress.
Proof.
  intros w. split; [vm_compute; reflexivity|].
  destruct (init_progress_files_resets mar_1 mar_3 w) as (_ & Hreset & _).
  destruct (Hreset eq_refl eq_refl eq_refl) as (_ & _ & _ & Hinit). exact Hinit.
Defined.

(** ** The rows of [flatten_to_csv] *)

Section DictSetTake.

Implicit Types (d : record) (key k : string) (value v : json).

Lemma dict_set_length d key value : (length d ≤ length (dict_set d key value))%nat.
Proof.
  induction d as [|[k v] d IH]; cbn; [lia|].
  destruct (decide (k = key)); cbn; lia.
Qed.

(** Setting a key that is not among the first [n] leaves the first [n] items
    as they are. *)
Lemma dict_set_take n d key value :
  (n ≤ length d)%nat → key ∉ (take n d).*1 → take n (dict_set d key value) = take n d.
Proof.
  revert n. induction d as [|[k v] d IH]; intros [|n] Hn Hkey; cbn in *; try done; try lia.
  apply not_elem_of_cons in Hkey as [Hne Hkey].
  rewrite decide_False by congruence. cbn. f_equal. apply IH; [lia|done].
Qed.

End DictSetTake.

Section FlattenFacts.

Context (str_lower : string → string).


Implicit Types (row base : record) (rows : list record).

(** *** What a row is made of *)

Lemma flat_row_inv session_date session_info session_player enriched_player drill row :
  flat_row str_lower session_date session_info session_player enriched_player drill = Returned row →
  ∃ d drill_kpi custom_metrics,
    drill = JObj d
    ∧ dict_get d "drillKpi" (JObj []) = JObj drill_kpi
    ∧ dict_get drill_kpi "customMetrics" (JObj []) = JObj custom_metrics
    ∧ row = add_custom_metrics str_lower
              (add_kpis (base_row session_date session_info session_player enriched_player d)
                 drill_kpi)
              custom_metrics.
Proof.
  unfold flat_row, py_get, mbind, outcome_bind.
  destruct drill as [| | | | |d]; try done.
  destruct (dict_get d "drillKpi" (JObj [])) as [| | | | |drill_kpi] eqn:Hkpi; try done.
  cbv zeta.
  destruct (dict_get drill_kpi "customMetrics" (JObj [])) as [| | | | |custom_metrics] eqn:Hcm;
    try done.
  intros [= <-]. by exists d, drill_kpi, custom_metrics.
Qed.

Lemma add_kpis_ind (P : record → Prop) row drill_kpi :
  (∀ row name value, P row → P (dict_set row ("kpi_" +:+ name) value)) →
  P row → P (add_kpis row drill_kpi).
Proof.
  intros Hset. unfold add_kpis. revert row.
  induction drill_kpi as [|[name value] drill_kpi IH]; intros row Hrow; [done|].
  cbn [foldl fst snd]. apply IH. case_decide; [by apply Hset|done].
Qed.

Lemma add_custom_metrics_ind (P : record → Prop) row custom_metrics :
  (∀ row name value, P row → P (dict_set row ("custom_" +:+ name) value)) →
  P row → P (add_custom_metrics str_lower row custom_metrics).
Proof.
  intros Hset. unfold add_custom_metrics. revert row.
  induction custom_metrics as [|[name value] custom_metrics IH]; intros row Hrow; [done|].
  cbn [foldl fst snd]. apply IH. by apply Hset.
Qed.

Lemma metric_column_not_base column : metric_column column → column ∉ base_columns.
Proof.
  intros [[name ->]|[name ->]] Hin; unfold base_columns in Hin;
    repeat (apply elem_of_cons in Hin as [Hin|Hin]; [discriminate Hin|]);
    by apply elem_of_nil in Hin.
Qed.

(** The base columns stay in front with their values, the keys stay
    distinct, and every further key is a metric column. *)
Lemma metrics_keep_base base row key value :
  metric_column key →
  (take 17 row = base ∧ base.*1 = base_columns ∧ NoDup row.*1
   ∧ ∀ k, k ∈ row.*1 → k ∈ base_columns ∨ metric_column k) →
  take 17 (dict_set row key value) = base ∧ base.*1 = base_columns
  ∧ NoDup (dict_set row key value).*1
  ∧ ∀ k, k ∈ (dict_set row key value).*1 → k ∈ base_columns ∨ metric_column k.
Proof.
  intros Hkey (Htake & Hbase & Hnd & Hkeys).
  assert (length base = 17%nat) as Hlen.
  { rewrite <- (length_fmap fst), Hbase. done. }
  split_and!; [|done|by apply dict_set_NoDup|].
  - rewrite dict_set_take; [done| |].
    + rewrite <- Hlen, <- Htake, length_take. lia.
    + rewrite Htake, Hbase. by apply metric_column_not_base.
  - intros k Hk. apply dict_set_keys in Hk as [->|Hk]; [by right|by apply Hkeys].
Qed.

Lemma base_row_columns session_date session_info session_player enriched_player d :
  (base_row session_date session_info session_player enriched_player d).*1 = base_columns.
Proof. done. Qed.

Lemma base_columns_NoDup : NoDup base_columns.
Proof. apply (bool_decide_unpack (NoDup base_columns)). by vm_compute. Qed.

Lemma flat_row_base session_date session_info session_player enriched_player d row :
  flat_row str_lower session_date session_info session_player enriched_player (JObj d) = Returned row →
  take 17 row = base_row session_date session_info session_player enriched_player d
  ∧ NoDup row.*1
  ∧ ∀ k, k ∈ row.*1 → k ∈ base_columns ∨ metric_column k.
Proof.
  intros Hrow. apply flat_row_inv in Hrow as (d' & drill_kpi & custom_metrics & [= <-] & _ & _ & ->).
  set (base := base_row session_date session_info session_player enriched_player d).
  cut (take 17 (add_custom_metrics str_lower (add_kpis base drill_kpi) custom_metrics) = base
       ∧ base.*1 = base_columns
       ∧ NoDup (add_custom_metrics str_lower (add_kpis base drill_kpi) custom_metrics).*1
       ∧ ∀ k, k ∈ (add_custom_metrics str_lower (add_kpis base drill_kpi) custom_metrics).*1 →
              k ∈ base_columns ∨ metric_column k).
  { tauto. }
  apply (add_custom_metrics_ind
           (λ row, take 17 row = base ∧ base.*1 = base_columns ∧ NoDup row.*1
                   ∧ ∀ k, k ∈ row.*1 → k ∈ base_columns ∨ metric_column k)).
  { intros row name value. apply metrics_keep_base. right. by eexists. }
  apply (add_kpis_ind
           (λ row, take 17 row = base ∧ base.*1 = base_columns ∧ NoDup row.*1
                   ∧ ∀ k, k ∈ row.*1 → k ∈ base_columns ∨ metric_column k)).
  { intros row name value. apply metrics_keep_base. left. by eexists. }
  split_and!; [done|done|apply base_columns_NoDup|by left].
Qed.

(** *** The loops and the list [rows] *)

Lemma drills_loop_acc session_date session_info session_player enriched_player drills rows :
  drills_loop str_lower session_date session_info session_player enriched_player drills rows
  = (more ← drills_loop str_lower session_date session_info session_player enriched_player drills [];
     Returned (rows ++ more)).
Proof.
  revert rows. induction drills as [|drill drills IH]; intros rows; cbn.
  - by rewrite app_nil_r.
  - unfold mbind, outcome_bind in *.
    destruct (flat_row str_lower _ _ _ _ drill) as [row|e]; [|done].
    rewrite (IH (rows ++ [row])), (IH [row]).
    destruct (drills_loop str_lower _ _ _ _ drills []) as [more|e]; [|done].
    by rewrite <- app_assoc.
Qed.

Lemma player_rows_acc session_date session_info player_lookup session_player rows :
  player_rows str_lower session_date session_info player_lookup session_player rows
  = (more ← player_rows str_lower session_date session_info player_lookup session_player [];
     Returned (rows ++ more)).
Proof.
  unfold player_rows, py_get, mbind, outcome_bind.
  destruct session_player as [| | | | |sp]; try done.
  destruct (dict_get sp "playerDetails" (JObj [])) as [| | | | |info]; try done.
  cbv zeta.
  destruct (if truthy _ then _ else _) as [enriched|e]; [|done].
  destruct (py_iter _) as [drills|]; [|done].
  apply drills_loop_acc.
Qed.

Lemma players_loop_acc session_date session_info player_lookup session_players rows :
  players_loop str_lower session_date session_info player_lookup session_players rows
  = (more ← players_loop str_lower session_date session_info player_lookup session_players [];
     Returned (rows ++ more)).
Proof.
  revert rows. induction session_players as [|sp sps IH]; intros rows; cbn.
  - by rewrite app_nil_r.
  - rewrite (player_rows_acc _ _ _ sp rows).
    unfold mbind, outcome_bind in *.
    destruct (player_rows str_lower _ _ _ sp []) as [first|e]; [|done].
    rewrite (IH (rows ++ first)), (IH first).
    destruct (players_loop str_lower _ _ _ sps []) as [more|e]; [|done].
    by rewrite <- app_assoc.
Qed.

Lemma session_rows_acc player_details_data session rows :
  session_rows str_lower player_details_data session rows
  = (more ← session_rows str_lower player_details_data session []; Returned (rows ++ more)).
Proof.
  unfold session_rows, py_get, mbind, outcome_bind.
  destruct session as [| | | | |s]; try done.
  destruct (dict_get s "sessionDetails" (JObj [])) as [| | | | |info]; try done.
  destruct (match hashable _ with Some _ => _ | None => _ end) as [player_lookup|e]; [|done].
  destruct (py_iter _) as [sps|]; [|done].
  apply players_loop_acc.
Qed.

Lemma sessions_loop_acc player_details_data sessions_data rows :
  sessions_loop str_lower player_details_data sessions_data rows
  = (more ← sessions_loop str_lower player_details_data sessions_data []; Returned (rows ++ more)).
Proof.
  revert rows. induction sessions_data as [|session sessions_data IH]; intros rows; cbn.
  - by rewrite app_nil_r.
  - rewrite (session_rows_acc _ session rows).
    unfold mbind, outcome_bind in *.
    destruct (session_rows str_lower _ session []) as [first|e]; [|done].
    rewrite (IH (rows ++ first)), (IH first).
    destruct (sessions_loop str_lower _ sessions_data []) as [more|e]; [|done].
    by rewrite <- app_assoc.
Qed.

Lemma sessions_loop_app player_details_data sessions1 sessions2 rows :
  sessions_loop str_lower player_details_data (sessions1 ++ sessions2) rows
  = (rows ← sessions_loop str_lower player_details_data sessions1 rows;
     sessions_loop str_lower player_details_data sessions2 rows).
Proof.
  revert rows. induction sessions1 as [|session sessions1 IH]; intros rows; cbn; [done|].
  unfold mbind, outcome_bind in *.
  destruct (session_rows str_lower _ session rows) as [rows'|e]; [|done]. apply IH.
Qed.

(** X20: The table of a list of sessions is the table of its front part
    followed by the table of the rest: the rows collected so far have no
    influence on the rows of a later session, and the first session that
    raises decides the exception. *)
Theorem flatten_to_csv_app sessions1 sessions2 player_details_data :
  flatten_to_csv str_lower (sessions1 ++ sessions2) player_details_data
  = (rows1 ← flatten_to_csv str_lower sessions1 player_details_data;
     rows2 ← flatten_to_csv str_lower sessions2 player_details_data;
     Returned (rows1 ++ rows2)).
Proof.
  unfold flatten_to_csv. rewrite sessions_loop_app.
  unfold mbind, outcome_bind.
  destruct (sessions_loop str_lower _ sessions1 []) as [rows1|e]; [|done].
  apply sessions_loop_acc.
Qed.

(** *** Data of the expected shape *)

Lemma id_shape_hashable j : id_shape j = true → is_Some (hashable j).
Proof. destruct j; cbn; try done; by eexists. Qed.

Lemma flat_row_shape session_date session_info session_player enriched_player drill :
  drill_shape drill = true →
  ∃ row, flat_row str_lower session_date session_info session_player enriched_player drill
         = Returned row.
Proof.
  unfold drill_shape, flat_row, py_get, mbind, outcome_bind.
  destruct drill as [| | | | |d]; try done.
  destruct (dict_get d "drillKpi" (JObj [])) as [| | | | |drill_kpi]; try done.
  cbv zeta.
  destruct (dict_get drill_kpi "customMetrics" (JObj [])) as [| | | | |cm]; try done.
  by eexists.
Qed.

Lemma drills_loop_shape session_date session_info session_player enriched_player drills rows :
  forallb drill_shape drills = true →
  ∃ rows', drills_loop str_lower session_date session_info session_player enriched_player
             drills rows = Returned rows'
           ∧ length rows' = (length rows + length drills)%nat.
Proof.
  revert rows. induction drills as [|drill drills IH]; intros rows Hshape; cbn in *.
  - exists rows. split; [done|lia].
  - apply andb_true_iff in Hshape as [Hdrill Hshape].
    destruct (flat_row_shape session_date session_info session_player enriched_player
                drill Hdrill) as [row ->].
    cbn. destruct (IH (rows ++ [row]) Hshape) as (rows' & -> & Hlen).
    exists rows'. split; [done|]. rewrite Hlen, length_app. cbn. lia.
Qed.

Lemma player_rows_shape session_date session_info player_lookup session_player rows :
  session_player_shape session_player = true →
  ∃ rows', player_rows str_lower session_date session_info player_lookup session_player rows
           = Returned rows'
           ∧ length rows' = (length rows + player_drill_count session_player)%nat.
Proof.
  unfold session_player_shape, player_rows, player_drill_count, py_get, mbind, outcome_bind.
  destruct session_player as [| | | | |sp]; try done.
  destruct (dict_get sp "playerDetails" (JObj [])) as [| | | | |info]; try done.
  destruct (dict_get sp "drills" (JArr [])) as [| | | |drills|]; try done.
  intros [Hid Hdrills]%andb_true_iff. cbv zeta.
  destruct (id_shape_hashable _ Hid) as [key ->].
  cbn [py_iter].
  destruct (truthy _); by apply drills_loop_shape.
Qed.

Lemma players_loop_shape session_date session_info player_lookup session_players rows :
  forallb session_player_shape session_players = true →
  ∃ rows', players_loop str_lower session_date session_info player_lookup session_players rows
           = Returned rows'
           ∧ length rows'
             = (length rows + sum_list_with player_drill_count session_players)%nat.
Proof.
  revert rows. induction session_players as [|sp sps IH]; intros rows Hshape; cbn in *.
  - exists rows. split; [done|lia].
  - apply andb_true_iff in Hshape as [Hsp Hshape].
    destruct (player_rows_shape session_date session_info player_lookup sp rows Hsp)
      as (rows1 & -> & Hlen1).
    cbn. destruct (IH rows1 Hshape) as (rows' & -> & Hlen).
    exists rows'. split; [done|lia].
Qed.

Lemma lookup_loop_shape players player_lookup :
  forallb player_shape players = true →
  ∃ player_lookup', lookup_loop players player_lookup = Returned player_lookup'.
Proof.
  revert player_lookup.
  induction players as [|player players IH]; intros player_lookup Hshape; cbn in *.
  - by eexists.
  - apply andb_true_iff in Hshape as [Hplayer Hshape].
    destruct player as [| | | | |p]; try done. cbn in *.
    destruct (id_shape_hashable _ Hplayer) as [key ->].
    destruct (truthy _); apply IH, Hshape.
Qed.

Lemma session_rows_shape player_details_data session rows :
  session_shape session = true →
  map_Forall (λ _ players, players_shape players = true) player_details_data →
  ∃ rows', session_rows str_lower player_details_data session rows = Returned rows'
           ∧ length rows' = (length rows + drill_count session)%nat.
Proof.
  unfold session_shape, session_rows, drill_count, py_get, mbind, outcome_bind.
  intros Hshape Hdetails.
  destruct session as [| | | | |s]; try done.
  destruct (dict_get s "sessionDetails" (JObj [])) as [| | | | |info]; try done.
  destruct (dict_get s "sessionPlayers" (JArr [])) as [| | | |sps|]; try done.
  apply andb_true_iff in Hshape as [Hid Hsps].
  destruct (id_shape_hashable _ Hid) as [key ->].
  cbn [py_iter].
  destruct (player_details_data !! key) as [players|] eqn:Hplayers.
  - apply Hdetails in Hplayers. unfold players_shape in Hplayers.
    destruct players as [| | | |players|]; try done. cbn [py_iter].
    destruct (lookup_loop_shape players ∅ Hplayers) as [player_lookup ->].
    by apply players_loop_shape.
  - by apply players_loop_shape.
Qed.

(** X21: On data of the expected shape the conversion never raises, and it
    gives one row per drill of each player of each session: a player without
    drills and a session without players give no row at all. *)
Theorem flatten_to_csv_one_row_per_drill sessions_data player_details_data :
  forallb session_shape sessions_data = true →
  map_Forall (λ _ players, players_shape players = true) player_details_data →
  ∃ rows, flatten_to_csv str_lower sessions_data player_details_data = Returned rows
          ∧ length rows = sum_list_with drill_count sessions_data.
Proof.
  intros Hshape Hdetails. unfold flatten_to_csv.
  cut (∀ rows0, ∃ rows,
         sessions_loop str_lower player_details_data sessions_data rows0 = Returned rows
         ∧ length rows = (length rows0 + sum_list_with drill_count sessions_data)%nat).
  { intros Hloop. apply (Hloop []). }
  induction sessions_data as [|session sessions_data IH]; intros rows0; cbn in *.
  - exists rows0. split; [done|lia].
  - apply andb_true_iff in Hshape as [Hsession Hshape].
    destruct (session_rows_shape player_details_data session rows0 Hsession Hdetails)
      as (rows1 & -> & Hlen1).
    cbn. destruct (IH Hshape rows1) as (rows & -> & Hlen).
    exists rows. split; [done|lia].
Qed.

(** *** The columns *)

Section Rows.

Context (P : record → Prop).
Hypothesis flat_row_P :
  ∀ session_date session_info session_player enriched_player drill row,
    flat_row str_lower session_date session_info session_player enriched_player drill
    = Returned row →
    P row.

Lemma drills_loop_Forall session_date session_info session_player enriched_player drills
    rows rows' :
  drills_loop str_lower session_date session_info session_player enriched_player drills rows
  = Returned rows' →
  Forall P rows → Forall P rows'.
Proof.
  revert rows. induction drills as [|drill drills IH]; intros rows; cbn.
  - by intros [= <-].
  - destruct (flat_row _ _ _ _ _ drill) as [row|e] eqn:Hrow; [|done].
    cbn. intros Hloop Hrows. apply (IH _ Hloop).
    apply Forall_app. split; [done|]. apply Forall_singleton. by eapply flat_row_P.
Qed.

Lemma player_rows_Forall session_date session_info player_lookup session_player rows rows' :
  player_rows str_lower session_date session_info player_lookup session_player rows
  = Returned rows' →
  Forall P rows → Forall P rows'.
Proof.
  unfold player_rows, py_get, mbind, outcome_bind.
  destruct session_player as [| | | | |sp]; try done.
  destruct (dict_get sp "playerDetails" (JObj [])) as [| | | | |info]; try done.
  cbv zeta.
  destruct (if truthy _ then _ else _) as [enriched|e]; [|done].
  destruct (py_iter _) as [drills|]; [|done].
  apply drills_loop_Forall.
Qed.

Lemma players_loop_Forall session_date session_info player_lookup session_players rows rows' :
  players_loop str_lower session_date session_info player_lookup session_players rows
  = Returned rows' →
  Forall P rows → Forall P rows'.
Proof.
  revert rows. induction session_players as [|sp sps IH]; intros rows; cbn.
  - by intros [= <-].
  - destruct (player_rows _ _ _ _ sp rows) as [rows1|e] eqn:Hsp; [|done].
    cbn. intros Hloop Hrows. apply (IH _ Hloop). by eapply player_rows_Forall.
Qed.

Lemma session_rows_Forall player_details_data session rows rows' :
  session_rows str_lower player_details_data session rows = Returned rows' →
  Forall P rows → Forall P rows'.
Proof.
  unfold session_rows, py_get, mbind, outcome_bind.
  destruct session as [| | | | |s]; try done.
  destruct (dict_get s "sessionDetails" (JObj [])) as [| | | | |info]; try done.
  destruct (match hashable _ with Some _ => _ | None => _ end) as [player_lookup|e]; [|done].
  destruct (py_iter _) as [sps|]; [|done].
  apply players_loop_Forall.
Qed.

Lemma sessions_loop_Forall player_details_data sessions_data rows rows' :
  sessions_loop str_lower player_details_data sessions_data rows = Returned rows' →
  Forall P rows → Forall P rows'.
Proof.
  revert rows. induction sessions_data as [|session sessions_data IH]; intros rows; cbn.
  - by intros [= <-].
  - destruct (session_rows _ _ session rows) as [rows1|e] eqn:Hsession; [|done].
    cbn. intros Hloop Hrows. apply (IH _ Hloop). by eapply session_rows_Forall.
Qed.

End Rows.

Lemma frame_columns_first row rows :
  NoDup row.*1 → (17 ≤ length row)%nat →
  take 17 (frame_columns (row :: rows)) = take 17 row.*1.
Proof.
  intros Hnd Hlen. unfold frame_columns. cbn [fmap list_fmap mjoin list_join].
  rewrite first_by_app, (first_by_id id [] row.*1).
  - rewrite take_app_le; [done|]. rewrite length_fmap. lia.
  - by rewrite list_fmap_id.
  - intros x _. apply not_elem_of_nil.
Qed.

(** X22: Every row starts with the 17 base columns in their fixed order, has
    no key twice, and has beside them only [kpi_] and [custom_] columns. So
    does a table with at least one row; it has in particular the three
    columns on which the merges of the runs compare records. *)
Theorem flatten_to_csv_columns sessions_data player_details_data rows :
  flatten_to_csv str_lower sessions_data player_details_data = Returned rows →
  Forall (λ row, take 17 row.*1 = base_columns ∧ NoDup row.*1
                 ∧ ∀ column, column ∈ row.*1 → column ∈ base_columns ∨ metric_column column)
    rows
  ∧ (∀ column, column ∈ frame_columns rows → column ∈ base_columns ∨ metric_column column)
  ∧ (rows ≠ [] →
     take 17 (frame_columns rows) = base_columns ∧ duplicate_cols ⊆ frame_columns rows).
Proof.
  intros Hrows.
  assert (Forall (λ row, take 17 row.*1 = base_columns ∧ NoDup row.*1
                         ∧ ∀ column, column ∈ row.*1 →
                                     column ∈ base_columns ∨ metric_column column) rows)
    as Hall.
  { eapply sessions_loop_Forall; [|exact Hrows|constructor].
    intros session_date session_info session_player enriched_player drill row Hrow.
    destruct (flat_row_inv _ _ _ _ _ _ Hrow) as (d & _ & _ & -> & _).
    apply flat_row_base in Hrow as (Htake & Hnd & Hkeys).
    split_and!; [|done|done]. by rewrite <- fmap_take, Htake. }
  split_and!; [done| |].
  - intros column Hcol. unfold frame_columns in Hcol.
    eapply elem_of_sublist in Hcol; [|apply first_by_sublist].
    apply list_elem_of_join in Hcol as (keys & Hcol & Hkeys).
    apply list_elem_of_fmap in Hkeys as (row & -> & Hrow).
    rewrite Forall_forall in Hall. by apply (Hall row Hrow).
  - intros Hne. destruct rows as [|row rows]; [done|].
    apply Forall_cons in Hall as [(Htake & Hnd & _) _].
    assert (take 17 (frame_columns (row :: rows)) = base_columns) as Hfirst.
    { rewrite frame_columns_first; [done..|].
      pose proof (f_equal length Htake) as Hlen.
      rewrite length_take, length_fmap in Hlen.
      change (length base_columns) with 17%nat in Hlen. lia. }
    split; [done|]. intros column Hcol.
    apply (subseteq_take 17). rewrite Hfirst.
    unfold duplicate_cols in Hcol. unfold base_columns.
    repeat (apply elem_of_cons in Hcol as [->|Hcol]; [set_solver|]).
    by apply elem_of_nil in Hcol.
Qed.

(** *** The values *)

Lemma dict_lookup_None d k : dict_lookup d k = None ↔ k ∉ d.*1.
Proof. rewrite <- dict_lookup_elem, eq_None_not_Some. done. Qed.

Lemma kpi_column_inj a b : "kpi_" +:+ a = "kpi_" +:+ b → a = b.
Proof. cbn. by intros [= ?]. Qed.

Lemma custom_column_inj a b : "custom_" +:+ a = "custom_" +:+ b → a = b.
Proof. cbn. by intros [= ?]. Qed.

Lemma add_kpis_lookup row drill_kpi name :
  NoDup drill_kpi.*1 →
  dict_lookup (add_kpis row drill_kpi) ("kpi_" +:+ name)
  = if decide (name = "customMetrics") then dict_lookup row ("kpi_" +:+ name)
    else match dict_lookup drill_kpi name with
         | Some value => Some value
         | None => dict_lookup row ("kpi_" +:+ name)
         end.
Proof.
  unfold add_kpis. revert row.
  induction drill_kpi as [|[k v] drill_kpi IH]; intros row Hnd.
  - cbn. by case_decide.
  - cbn in Hnd. apply NoDup_cons in Hnd as [Hk Hnd].
    cbn [foldl fst snd dict_lookup]. rewrite IH by done.
    assert (dict_lookup
              (if decide (k ≠ "customMetrics") then dict_set row ("kpi_" +:+ k) v else row)
              ("kpi_" +:+ name)
            = if decide (k = name)
              then (if decide (name = "customMetrics") then dict_lookup row ("kpi_" +:+ name)
                    else Some v)
              else dict_lookup row ("kpi_" +:+ name)) as ->.
    { destruct (decide (k ≠ "customMetrics")) as [Hcm|Hcm].
      - rewrite dict_lookup_set.
        destruct (decide (k = name)) as [->|Hne].
        + rewrite decide_True by done. by rewrite decide_False.
        + rewrite decide_False; [done|]. by intros ?%kpi_column_inj.
      - apply dec_stable in Hcm as ->.
        destruct (decide ("customMetrics" = name)) as [<-|Hne]; [|done].
        by rewrite decide_True. }
    destruct (decide (name = "customMetrics")) as [->|Hcm].
    + by case_decide.
    + destruct (decide (k = name)) as [->|Hne]; [|done].
      apply dict_lookup_None in Hk. by rewrite Hk.
Qed.

Lemma add_custom_metrics_lookup row custom_metrics s :
  dict_lookup (add_custom_metrics str_lower row custom_metrics) ("custom_" +:+ s)
  = match last (filter (λ metric, safe_name str_lower metric.1 = s) custom_metrics) with
    | Some metric => Some metric.2
    | None => dict_lookup row ("custom_" +:+ s)
    end.
Proof.
  unfold add_custom_metrics.
  induction custom_metrics as [|[name value] custom_metrics IH] using rev_ind; [done|].
  rewrite foldl_app,
    (filter_app (λ metric : string * json, safe_name str_lower metric.1 = s)).
  cbn [foldl fst snd].
  rewrite dict_lookup_set, IH.
  destruct (decide (safe_name str_lower name = s)) as [<-|Hne].
  - rewrite decide_True by done.
    rewrite filter_cons_True by done. by rewrite filter_nil, last_snoc.
  - rewrite decide_False by (by intros ?%custom_column_inj).
    rewrite filter_cons_False by done. by rewrite filter_nil, app_nil_r.
Qed.

(** X23: The metric columns never touch the base columns: the first 17 items
    of a row are the base columns with the values of the session, the player
    and the drill. Every key of [drillKpi] except [customMetrics] gives the
    column [kpi_<key>] with its value, and there is no column
    [kpi_customMetrics]. *)
Theorem flat_row_values session_date session_info session_player enriched_player drill
    drill_kpi row :
  dict_get drill "drillKpi" (JObj []) = JObj drill_kpi →
  NoDup drill_kpi.*1 →
  flat_row str_lower session_date session_info session_player enriched_player (JObj drill)
  = Returned row →
  take 17 row = base_row session_date session_info session_player enriched_player drill
  ∧ ∀ name, dict_lookup row ("kpi_" +:+ name)
            = if decide (name = "customMetrics") then None else dict_lookup drill_kpi name.
Proof.
  intros Hkpi Hnd Hrow. split; [by apply flat_row_base in Hrow as [? _]|].
  apply flat_row_inv in Hrow as (d & drill_kpi' & custom_metrics & [= <-] & Hkpi' & _ & ->).
  rewrite Hkpi in Hkpi'. injection Hkpi' as <-.
  intros name.
  set (base := base_row session_date session_info session_player enriched_player drill).
  assert (dict_lookup base ("kpi_" +:+ name) = None) as Hbase.
  { apply dict_lookup_None. unfold base. rewrite base_row_columns.
    apply metric_column_not_base. left. by eexists. }
  transitivity (dict_lookup (add_kpis base drill_kpi) ("kpi_" +:+ name)).
  - apply (add_custom_metrics_ind
             (λ row, dict_lookup row ("kpi_" +:+ name)
                     = dict_lookup (add_kpis base drill_kpi) ("kpi_" +:+ name))); [|done].
    intros row metric value Hrow. rewrite dict_lookup_set.
    by rewrite decide_False by (cbn; discriminate).
  - rewrite add_kpis_lookup, Hbase by done.
    case_decide; [done|]. by destruct (dict_lookup drill_kpi name).
Qed.

(** X24: The column of a custom metric is named after the metric with spaces
    turned into underscores, brackets removed and letters lowered. When
    several metrics of a drill get the same column name, the column holds the
    value of the last of them and the others are lost. *)
Theorem flat_row_custom_metrics session_date session_info session_player enriched_player
    drill drill_kpi custom_metrics row :
  dict_get drill "drillKpi" (JObj []) = JObj drill_kpi →
  dict_get drill_kpi "customMetrics" (JObj []) = JObj custom_metrics →
  flat_row str_lower session_date session_info session_player enriched_player (JObj drill)
  = Returned row →
  ∀ s, dict_lookup row ("custom_" +:+ s)
       = (λ metric, metric.2)
           <$> last (filter (λ metric, safe_name str_lower metric.1 = s) custom_metrics).
Proof.
  intros Hkpi Hcm Hrow s.
  apply flat_row_inv in Hrow as (d & drill_kpi' & custom_metrics' & [= <-] & Hkpi' & Hcm' & ->).
  rewrite Hkpi in Hkpi'. injection Hkpi' as <-.
  rewrite Hcm in Hcm'. injection Hcm' as <-.
  rewrite add_custom_metrics_lookup.
  destruct (last _) as [metric|]; [done|]. cbn.
  apply (add_kpis_ind (λ row, dict_lookup row ("custom_" +:+ s) = None)).
  - intros row name value Hrow. rewrite dict_lookup_set.
    by rewrite decide_False by (cbn; discriminate).
  - apply dict_lookup_None. rewrite base_row_columns.
    apply metric_column_not_base. right. by eexists.
Qed.

(** *** The player details that are read *)

Lemma session_rows_details player_details_data player_details_data' session rows :
  (∀ key, session_key session = Some key →
          player_details_data !! key = player_details_data' !! key) →
  session_rows str_lower player_details_data session rows
  = session_rows str_lower player_details_data' session rows.
Proof.
  unfold session_key, session_rows, py_get, mbind, outcome_bind.
  destruct session as [| | | | |s]; try done.
  destruct (dict_get s "sessionDetails" (JObj [])) as [| | | | |info]; try done.
  intros Hkey. destruct (hashable _) as [key|]; [|done].
  by rewrite (Hkey key).
Qed.

(** X25: The conversion reads the player details only under the
    [sessionDate] values of the sessions: two collections of player details
    that agree there give the same table, so details that are stored under
    another form of the date change nothing. *)
Theorem flatten_to_csv_details sessions_data player_details_data player_details_data' :
  (∀ session key, session ∈ sessions_data → session_key session = Some key →
                  player_details_data !! key = player_details_data' !! key) →
  flatten_to_csv str_lower sessions_data player_details_data
  = flatten_to_csv str_lower sessions_data player_details_data'.
Proof.
  unfold flatten_to_csv. generalize (@nil record) as rows.
  induction sessions_data as [|session sessions_data IH]; intros rows Hkeys; [done|].
  cbn. rewrite (session_rows_details _ player_details_data' session).
  - unfold mbind, outcome_bind.
    destruct (session_rows _ _ session rows) as [rows'|e]; [|done].
    apply IH. intros session' key Hin. apply Hkeys. by right.
  - intros key. apply Hkeys. by left.
Qed.

End FlattenFacts.

(** A session of one player with two drills gives two rows. *)
Lemma flatten_to_csv_one_row_per_drill_witness :
  ∃ rows,
    flatten_to_csv lower_ascii [sample_session]
      {[KStr "2024-01-01T00:00:00Z" := sample_players]} = Returned rows
    ∧ length rows = 2%nat.
Proof.
  apply (flatten_to_csv_one_row_per_drill lower_ascii [sample_session]); [reflexivity|].
  apply map_Forall_singleton. reflexivity.
Defined.

Lemma flatten_to_csv_columns_witness :
  ∃ rows,
    flatten_to_csv lower_ascii [sample_session] ∅ = Returned rows
    ∧ rows ≠ []
    ∧ take 17 (frame_columns rows) = base_columns
    ∧ duplicate_cols ⊆ frame_columns rows.
Proof.
  eexists. split; [vm_compute; reflexivity|]. split; [discriminate|].
  eapply (flatten_to_csv_columns lower_ascii [sample_session] ∅);
    [vm_compute; reflexivity|discriminate].
Defined.

(** The drill of the sample has the column [kpi_totalDistance] and no column
    [kpi_customMetrics]. *)
Lemma flat_row_values_witness :
  ∃ row,
    flat_row lower_ascii JNull [] [] [] (sample_drill 1) = Returned row
    ∧ dict_lookup row "kpi_totalDistance" = Some (JNum 1200)
    ∧ dict_lookup row "kpi_customMetrics" = None.
Proof.
  eexists. split; [reflexivity|].
  split.
  - refine (proj2 (flat_row_values lower_ascii JNull [] [] [] (sample_drill_fields 1) _ _ eq_refl _ eq_refl)
              "totalDistance").
    apply (bool_decide_unpack (NoDup _)). reflexivity.
  - refine (proj2 (flat_row_values lower_ascii JNull [] [] [] (sample_drill_fields 1) _ _ eq_refl _ eq_refl)
              "customMetrics").
    apply (bool_decide_unpack (NoDup _)). reflexivity.
Defined.

(** The metrics [Max Speed (kmh)] and [max_speed_kmh] of the sample share
    the column [custom_max_speed_kmh], which holds the value of the second. *)
Lemma flat_row_custom_metrics_witness :
  ∃ row,
    flat_row lower_ascii JNull [] [] [] (sample_drill 1) = Returned row
    ∧ dict_lookup row "custom_max_speed_kmh" = Some (JNum 29).
Proof.
  eexists. split; [reflexivity|].
  exact (flat_row_custom_metrics lower_ascii JNull [] [] [] (sample_drill_fields 1) _ _ _
           eq_refl eq_refl eq_refl
           "max_speed_kmh").
Defined.

(** Details that are stored under the plain date are not used for a session
    whose [sessionDate] carries the time. *)
Lemma flatten_to_csv_details_witness :
  flatten_to_csv lower_ascii [sample_session] {[KStr "2024-01-01" := sample_players]}
  = flatten_to_csv lower_ascii [sample_session] ∅.
Proof.
  apply flatten_to_csv_details. intros session key Hin Hkey.
  apply list_elem_of_singleton in Hin as ->. injection Hkey as <-.
  rewrite lookup_empty. by apply lookup_singleton_ne.
Defined.
